(** * Testing subsystem of the Ethereum DSL (TypeScript)

    A shallow embedding of
      - src/testing/mutation/base.ts      (operator and result interfaces),
      - src/testing/mutation/operators.ts (the eight built-in operators),
      - src/testing/mutation/registry.ts  (MutationRegistry),
      - src/testing/mutation/runner.ts    (MutationTestRunner),
      - src/testing/property/runner.ts    (PropertyTestRunner),
      - src/testing/index.ts              (EthereumTester),
      - src/types/base.ts, src/types/primitive.ts, src/types/object.ts
        (type descriptors),
      - src/properties/static.ts          (PAddress, PStorageIdx),
    followed by the properties established about them. *)

From Stdlib Require Import ZArith NArith List String Ascii Floats Lia.
From Stdlib Require DecimalString QArith.
From stdpp Require Import base option list countable gmap.

Local Open Scope Z_scope.
#[local] Set Warnings "-register-all".

(** ** JavaScript values *)

(** A JavaScript string is a sequence of UTF-16 code units. *)
Abbreviation jsstring := (list N).

(** A literal of the source text (all literals in the modelled files are
    ASCII, so each character is one code unit). *)
Definition lit (s : string) : jsstring :=
  map N_of_ascii (list_ascii_of_string s).

(** The values that flow through the mutation subsystem.  JavaScript numbers
    are IEEE 754 binary64 values, bigints are unbounded integers. *)
Inductive JsValue : Type :=
| VUndefined
| VNull
| VBool (b : bool)
| VNumber (x : float)
| VBigInt (z : Z)
| VString (s : jsstring)
| VArray (elems : list JsValue)
| VObject (props : list (jsstring * JsValue))
| VError (message : jsstring).

(** ECMAScript ToBoolean: the truthiness used by [!x], [a || b] and by
    [Array.prototype.filter] on the callback's result. *)
Definition ToBoolean (v : JsValue) : bool :=
  match v with
  | VUndefined | VNull => false
  | VBool b => b
  | VNumber x => negb (PrimFloat.eqb x 0 || PrimFloat.is_nan x)
  | VBigInt z => negb (z =? 0)
  | VString s => negb (length s =? 0)%nat
  | VArray _ | VObject _ | VError _ => true
  end.

(** [String.prototype.substring(start, end)]: both indices are clamped to
    [0, length] and swapped when start > end. *)
Definition clamp_index (len i : Z) : Z := Z.min (Z.max i 0) len.

Definition substring (s : jsstring) (start end_ : Z) : jsstring :=
  let len := Z.of_nat (length s) in
  let finalStart := clamp_index len start in
  let finalEnd := clamp_index len end_ in
  let from := Z.min finalStart finalEnd in
  let to := Z.max finalStart finalEnd in
  take (Z.to_nat (to - from)) (drop (Z.to_nat from) s).

(** [substring(start)] with the end omitted runs to the end of the string. *)
Definition substring_from (s : jsstring) (start : Z) : jsstring :=
  substring s start (Z.of_nat (length s)).

(** [Math.floor] on binary64.  Every float of magnitude at least 2^52 is an
    integer; below that, adding and subtracting 2^52 rounds to the nearest
    integer, which is then corrected downwards.  NaN, the infinities and
    both zeros are returned unchanged. *)
Definition two52 : float := 4503599627370496%float.

Definition Math_floor (x : float) : float :=
  if PrimFloat.ltb (PrimFloat.abs x) two52 then
    let r := if PrimFloat.ltb x 0
             then PrimFloat.add (PrimFloat.sub x two52) two52
             else PrimFloat.sub (PrimFloat.add x two52) two52 in
    if PrimFloat.eqb r x then x
    else if PrimFloat.ltb x r then PrimFloat.sub r 1 else r
  else x.

(** What the modelled files take from outside the repository: viem's
    [isAddress] and [isHex], the case conversions of the ECMAScript string
    library, the string conversion of template literals and of [String(v)],
    and the host's conversion of a [setTimeout] delay to a duration in
    milliseconds.  The string conversion is taken to return: of the values
    above, only an object with an own property [toString] (which, holding
    no function, is not callable), alone or inside an array, makes it
    throw. *)
Class Runtime : Type := {
  isAddress : jsstring -> bool;
  isHex : jsstring -> bool;
  toLowerCase : jsstring -> jsstring;
  toUpperCase : jsstring -> jsstring;
  ToString : JsValue -> jsstring;
  timer_delay : float -> N
}.

(** ** Calls that may throw

    A JavaScript call either returns or throws; any value can be thrown. *)
Inductive Result (A : Type) : Type :=
| Ok (a : A)
| Throw (e : JsValue).
Arguments Ok {A} a.
Arguments Throw {A} e.

(** ** Type descriptors (src/types/base.ts, src/types/primitive.ts)

    Of the [BaseType] interface the mutation subsystem consults [name] and
    [isValid] only; [mutable] and [unrollValue] are never called by it. *)
Module Import Types.
Record BaseType : Type := {
  name : jsstring;
  isValid : JsValue -> bool
}.
End Types.

Section Primitive.
Context `{Runtime}.

Definition TAddress : BaseType :=
  {| name := lit "Address";
     isValid := fun value =>
       match value with VString s => isAddress s | _ => false end |}.

Definition THex32 : BaseType :=
  {| name := lit "Hex32";
     isValid := fun value =>
       match value with
       | VString s => isHex s && (length s =? 66)%nat
       | _ => false
       end |}.

Definition TBlockTag : BaseType :=
  {| name := lit "BlockTag";
     isValid := fun value =>
       match value with
       | VString s =>
           bool_decide (s ∈ [lit "latest"; lit "earliest"; lit "pending";
                             lit "safe"; lit "finalized"])
       | _ => false
       end |}.

Definition TBlockNumber : BaseType :=
  {| name := lit "BlockNumber";
     isValid := fun value =>
       match value with VBigInt z => 0 <=? z | _ => false end |}.
End Primitive.

(** ** Operators (src/testing/mutation/base.ts)

    [TypedMutationOperator<T>] with [T] erased, as the registry stores it
    ([TypedMutationOperator<any>]).  [isApplicable] and [mutate] are methods
    of an object the caller supplies: either may throw, and when it
    returns it returns what its signature says, a boolean and an array. *)
Module Import Base.
Record TypedMutationOperator : Type := {
  operator_name : jsstring;
  type : BaseType;
  isApplicable : JsValue -> Result bool;
  mutate : JsValue -> Result (list JsValue)
}.

(** Result of testing a single mutation.  [error] is an optional property:
    [None] when the object literal has no [error] key. *)
Record MutationResult : Type := {
  value : JsValue;
  caught : bool;
  error : option JsValue
}.

Module Summary.
Record t : Type := {
  total : nat;
  caught : nat;
  uncaught : nat;
  errors : nat
}.
End Summary.

Record MutationTestResult : Type := {
  originalValue : JsValue;
  mutations : list MutationResult;
  summary : Summary.t
}.

Record MutationTestOptions : Type := {
  timeout : option float;
  verbose : option bool
}.
End Base.

(** A built-in [mutate] is written at its static type [T].  The erased
    operator applies it to the values of that type; the TypeScript signature
    excludes every other argument, and the registry and the runner reach
    [mutate] only behind [isApplicable]. *)
Definition ill_typed {A : Type} : Result A := Throw (VError (lit "TypeError")).

Definition on_string (f : jsstring -> list jsstring) (value : JsValue)
  : Result (list JsValue) :=
  match value with VString s => Ok (VString <$> f s) | _ => ill_typed end.

Definition on_bigint (f : Z -> list Z) (value : JsValue)
  : Result (list JsValue) :=
  match value with VBigInt z => Ok (VBigInt <$> f z) | _ => ill_typed end.

Definition on_boolean (f : bool -> list bool) (value : JsValue)
  : Result (list JsValue) :=
  match value with VBool b => Ok (VBool <$> f b) | _ => ill_typed end.

Definition on_number (f : float -> list float) (value : JsValue)
  : Result (list JsValue) :=
  match value with VNumber x => Ok (VNumber <$> f x) | _ => ill_typed end.

Definition on_array (f : list JsValue -> list (list JsValue)) (value : JsValue)
  : Result (list JsValue) :=
  match value with VArray a => Ok (VArray <$> f a) | _ => ill_typed end.

(** ** The built-in operators (src/testing/mutation/operators.ts) *)

Module AddressMutator.
Section Def.
Context `{Runtime}.

Definition name : jsstring := lit "AddressMutator".
Definition type : BaseType := TAddress.

Definition mutate (address : jsstring) : list jsstring :=
    [ (* Change checksum *)
      toLowerCase address;
      (* Invalid length (not a valid address but has 0x prefix) *)
      substring address 0 41 ++ lit "0";
      (* Invalid prefix *)
      lit "0X" ++ substring_from address 2;
      (* Zero address *)
      lit "0x0000000000000000000000000000000000000000";
      (* Replace a character *)
      substring address 0 10 ++ lit "X" ++ substring_from address 11 ].

Definition isApplicable (value : JsValue) : Result bool :=
  Ok (isValid type value).

Definition operator : TypedMutationOperator :=
    Build_TypedMutationOperator name type isApplicable (on_string mutate).
End Def.
End AddressMutator.

Module BlockTagMutator.
Section Def.
Context `{Runtime}.

Definition name : jsstring := lit "BlockTagMutator".
Definition type : BaseType := TBlockTag.

Definition allTags : list jsstring :=
    [lit "latest"; lit "earliest"; lit "pending"; lit "safe"; lit "finalized"].

  (* Return all other valid block tags *)
Definition mutate (blockTag : jsstring) : list jsstring :=
    filter (fun tag => tag <> blockTag) allTags.

Definition isApplicable (value : JsValue) : Result bool :=
  Ok (isValid type value).

Definition operator : TypedMutationOperator :=
    Build_TypedMutationOperator name type isApplicable (on_string mutate).
End Def.
End BlockTagMutator.

Module BlockNumberMutator.
Section Def.
Context `{Runtime}.

Definition name : jsstring := lit "BlockNumberMutator".
Definition type : BaseType := TBlockNumber.

Definition mutate (blockNumber : Z) : list Z :=
    [ (* Boundary values *)
      0; 1; blockNumber + 1; blockNumber - 1;
      (* Very large number *)
      2 ^ 64 - 1;
      (* Negative number (invalid for block numbers) *)
      -1 ].

Definition isApplicable (value : JsValue) : Result bool :=
  Ok (isValid type value).

Definition operator : TypedMutationOperator :=
    Build_TypedMutationOperator name type isApplicable (on_bigint mutate).
End Def.
End BlockNumberMutator.

Module HashMutator.
Section Def.
Context `{Runtime}.

Definition name : jsstring := lit "HashMutator".
Definition type : BaseType := THex32.

Definition mutate (hash : jsstring) : list jsstring :=
    [ (* Change a character *)
      substring hash 0 10 ++ lit "X" ++ substring_from hash 11;
      (* Invalid prefix *)
      lit "0X" ++ substring_from hash 2;
      (* Zero hash *)
      lit "0x0000000000000000000000000000000000000000000000000000000000000000";
      (* Invalid length (too short) *)
      substring hash 0 65;
      (* Invalid length (too long) *)
      hash ++ lit "0" ].

Definition isApplicable (value : JsValue) : Result bool :=
  Ok (isValid type value).

Definition operator : TypedMutationOperator :=
    Build_TypedMutationOperator name type isApplicable (on_string mutate).
End Def.
End HashMutator.

Module BooleanMutator.
Definition name : jsstring := lit "BooleanMutator".

Definition type : BaseType :=
    {| Types.name := lit "Boolean";
       isValid := fun value =>
         match value with VBool _ => true | _ => false end |}.

Definition mutate (value : bool) : list bool := [negb value].

Definition isApplicable (value : JsValue) : Result bool :=
  Ok (isValid type value).

Definition operator : TypedMutationOperator :=
    Build_TypedMutationOperator name type isApplicable (on_boolean mutate).
End BooleanMutator.

Module NumberMutator.
Definition name : jsstring := lit "NumberMutator".

Definition type : BaseType :=
    {| Types.name := lit "Number";
       isValid := fun value =>
         match value with VNumber _ => true | _ => false end |}.

Definition MAX_SAFE_INTEGER : float := 9007199254740991%float.
Definition MIN_SAFE_INTEGER : float := (-9007199254740991)%float.

Definition mutate (value : float) : list float :=
    [ 0%float;
      PrimFloat.add value 1;
      PrimFloat.sub value 1;
      PrimFloat.opp value;
      PrimFloat.mul value 2;
      Math_floor (PrimFloat.div value 2);
      MAX_SAFE_INTEGER;
      MIN_SAFE_INTEGER ].

Definition isApplicable (value : JsValue) : Result bool :=
  Ok (isValid type value).

Definition operator : TypedMutationOperator :=
    Build_TypedMutationOperator name type isApplicable (on_number mutate).
End NumberMutator.

Module StringMutator.
Section Def.
Context `{Runtime}.

Definition name : jsstring := lit "StringMutator".

Definition type : BaseType :=
    {| Types.name := lit "String";
       isValid := fun value =>
         match value with VString _ => true | _ => false end |}.

  (** [value.split('')]: one string per code unit; [join('')]: concatenation. *)
Definition split_empty (s : jsstring) : list jsstring := map (fun c => [c]) s.
Definition join_empty (parts : list jsstring) : jsstring := concat parts.

Definition mutate (value : jsstring) : list jsstring :=
    [ [] (* Empty string *);
      value ++ lit "X" (* Append a character *);
      substring value 0 (Z.of_nat (length value) - 1) (* Remove last character *);
      toUpperCase value (* Change case *);
      toLowerCase value (* Change case *);
      join_empty (rev (split_empty value)) (* Reverse *) ].

Definition isApplicable (value : JsValue) : Result bool :=
  Ok (isValid type value).

Definition operator : TypedMutationOperator :=
    Build_TypedMutationOperator name type isApplicable (on_string mutate).
End Def.
End StringMutator.

Module ArrayMutator.
Definition name : jsstring := lit "ArrayMutator".

Definition type : BaseType :=
    {| Types.name := lit "Array";
       isValid := fun value =>
         match value with VArray _ => true | _ => false end |}.

  (** [value[0]]: reading past the end of an array yields [undefined]. *)
Definition first (value : list JsValue) : JsValue :=
    default VUndefined (value !! 0%nat).

Definition mutate (value : list JsValue) : list (list JsValue) :=
    if (length value =? 0)%nat then
      (* For empty arrays, add an element *)
      [ [VNull] ]
    else
      [ [] (* Empty array *);
        drop 1 value (* Remove first element *);
        take (length value - 1) value (* Remove last element *);
        value ++ [first value] (* Add duplicate of first element *);
        rev value (* Reverse *);
        [first value] (* Just first element *) ].

Definition isApplicable (value : JsValue) : Result bool :=
  Ok (isValid type value).

Definition operator : TypedMutationOperator :=
    Build_TypedMutationOperator name type isApplicable (on_array mutate).
End ArrayMutator.

(** ** MutationRegistry (src/testing/mutation/registry.ts)

    The private field [operators : Map<string, TypedMutationOperator<any>>]
    is the registry's whole state. *)
Module MutationRegistry.
Section Def.
Context `{Runtime}.

Definition register (operator : TypedMutationOperator)
      (operators : gmap jsstring TypedMutationOperator)
    : gmap jsstring TypedMutationOperator :=
    <[name (type operator) := operator]> operators.

Definition getOperator (operators : gmap jsstring TypedMutationOperator)
      (ty : BaseType) : option TypedMutationOperator :=
    operators !! name ty.

  (** [Array.from(this.operators.values())].  A [Map] lists its values in
      the order of insertion, which the model of the field does not record:
      the list holds the stored operators in the order of their keys, and
      only its content is that of the code. *)
Definition getAllOperators (operators : gmap jsstring TypedMutationOperator)
    : list TypedMutationOperator :=
    (map_to_list operators).*2.

Definition registerDefaults
      (operators : gmap jsstring TypedMutationOperator)
    : gmap jsstring TypedMutationOperator :=
    let operators := register AddressMutator.operator operators in
    let operators := register BlockTagMutator.operator operators in
    let operators := register BlockNumberMutator.operator operators in
    let operators := register HashMutator.operator operators in
    let operators := register BooleanMutator.operator operators in
    let operators := register NumberMutator.operator operators in
    let operators := register StringMutator.operator operators in
    register ArrayMutator.operator operators.

Definition new (includeDefaults : bool)
    : gmap jsstring TypedMutationOperator :=
    if includeDefaults then registerDefaults ∅ else ∅.

Definition createDefaultRegistry : gmap jsstring TypedMutationOperator :=
    new true.

Definition mutate (operators : gmap jsstring TypedMutationOperator)
      (value : JsValue) (ty : BaseType) : Result (list JsValue) :=
    match getOperator operators ty with
    | Some operator =>
        match isApplicable operator value with
        | Ok applicable =>
            if applicable then Base.mutate operator value else Ok [value]
        | Throw e => Throw e
        end
    | None => Ok [value] (* No mutation if no operator found *)
    end.
End Def.
End MutationRegistry.

(** ** Validators and the event loop

    [validator(mutation)] returns a boolean or a promise of one, or throws.
    What the runner can observe of one invocation is how, and after how many
    milliseconds, it settles: a synchronous return or throw and an already
    settled promise settle at 0; a promise that never settles is [Pending].
    A validator may have effects of its own, so it is run against a world
    [W] that it may change; its effects are accounted for at the call, also
    when the timer wins and the runner stops waiting.  A validator that
    never hands control back (a synchronous endless loop) settles in no way
    and is outside the model. *)
Inductive Settlement : Type :=
| Fulfilled (at_ms : N) (v : JsValue)
| Rejected (at_ms : N) (e : JsValue)
| Pending.

Module TestEntry.
Record t (W : Type) : Type := {
  name : jsstring;
  value : JsValue;
  type : BaseType;
  validator : JsValue -> W -> Settlement * W
}.
Arguments name {W} _.
Arguments value {W} _.
Arguments type {W} _.
Arguments validator {W} _.
End TestEntry.

(** The state an asynchronous call runs in: the validators' world and the
    record of every validator invocation so far, in order, each with the
    settlement it produced. *)
Record RunState (W : Type) : Type := {
  world : W;
  invoked : list (JsValue * Settlement)
}.
Arguments world {W} _.
Arguments invoked {W} _.

(** An [async] function: run from a state, it resolves or rejects. *)
Definition Async (W A : Type) : Type := RunState W -> Result A * RunState W.

Definition ret {W A : Type} (a : A) : Async W A := fun st => (Ok a, st).

Definition throw {W A : Type} (e : JsValue) : Async W A := fun st => (Throw e, st).

Definition bind {W A B : Type} (m : Async W A) (k : A -> Async W B) : Async W B :=
  fun st =>
    match m st with
    | (Ok a, st') => k a st'
    | (Throw e, st') => (Throw e, st')
    end.

Definition try_catch {W A : Type} (body : Async W A) (handler : JsValue -> Async W A)
  : Async W A :=
  fun st =>
    match body st with
    | (Ok a, st') => (Ok a, st')
    | (Throw e, st') => handler e st'
    end.

Definition lift {W A : Type} (r : Result A) : Async W A := fun st => (r, st).

Notation "'do' x <- m ; k" := (bind m (fun x => k))
  (at level 10, x name, m at level 100, k at level 200).

(** [new Error('Timeout')], the rejection reason of the timer promise. *)
Definition Timeout : JsValue := VError (lit "Timeout").

(** [Promise.race([validator(mutation), timer])], where the timer promise
    rejects [delay] milliseconds after the call.  The validator is called
    first, so whatever it settles with by then wins; a synchronous throw
    (settling at 0) leaves the array literal before the timer exists. *)
Definition Promise_race (validated : Settlement) (delay : N) : Result JsValue :=
  match validated with
  | Fulfilled at_ms v => if (at_ms <=? delay)%N then Ok v else Throw Timeout
  | Rejected at_ms e => if (at_ms <=? delay)%N then Throw e else Throw Timeout
  | Pending => Throw Timeout
  end.

(** ** Plain objects used as dictionaries

    [const results: Record<string, R> = {}] is an ordinary object that
    inherits from [Object.prototype].  Every property of [Object.prototype]
    is a writable data property, which an assignment shadows with an own
    property, except the accessor [__proto__]: its setter replaces the
    prototype of the object by the assigned value when that is an object
    (as every result stored here is) and creates no own property.  So
    [results[key] = r] sets the own property [key] for every key but
    ['__proto__'], and for that key makes [r] the prototype.  The order in
    which an object enumerates its own keys is not modelled. *)
Module Dictionary.
Record t (R : Type) : Type := {
  own : gmap jsstring R;
  (** [None]: the prototype is still [Object.prototype]. *)
  prototype : option R
}.
Arguments own {R} _.
Arguments prototype {R} _.

(** [{}] *)
Definition empty {R : Type} : t R := {| own := ∅; prototype := None |}.

(** [o[key] = r], for an object [r] *)
Definition assign {R : Type} (key : jsstring) (r : R) (o : t R) : t R :=
  if bool_decide (key = lit "__proto__")
  then {| own := own o; prototype := Some r |}
  else {| own := <[key := r]> (own o); prototype := prototype o |}.

(** A sequence of assignments, made from left to right. *)
Definition assign_all {R : Type} (entries : list (jsstring * R)) (o : t R) : t R :=
  foldl (fun o entry => assign entry.1 entry.2 o) o entries.

(** The object that holds what [later] holds and, where [later] holds
    nothing, what [earlier] holds. *)
Definition merge {R : Type} (later earlier : t R) : t R :=
  {| own := own later ∪ own earlier;
     prototype := match prototype later with
                  | Some r => Some r
                  | None => prototype earlier
                  end |}.
End Dictionary.

(** ** MutationTestRunner (src/testing/mutation/runner.ts) *)
Module MutationTestRunner.
Section Def.
Context `{Runtime} {W : Type}.

(** [options.timeout || 5000] *)
Definition timeout_or_default (options : MutationTestOptions) : float :=
  match timeout options with
  | Some t => if ToBoolean (VNumber t) then t else 5000%float
  | None => 5000%float
  end.

(** [await Promise.race([validator(mutation), new Promise(... setTimeout ...)])] *)
Definition await_race (validator : JsValue -> W -> Settlement * W)
    (mutation : JsValue) (options : MutationTestOptions) : Async W JsValue :=
  fun st =>
    let '(settled, w) := validator mutation (world st) in
    (Promise_race settled (timer_delay (timeout_or_default options)),
     {| world := w; invoked := invoked st ++ [(mutation, settled)] |}).

(** The [for (const mutation of mutations)] loop of [test] (lines 38-58);
    [results.push(r)] appends to the array built so far. *)
Fixpoint test_for (validator : JsValue -> W -> Settlement * W)
    (options : MutationTestOptions) (mutations : list JsValue)
    (results : list MutationResult) : Async W (list MutationResult) :=
  match mutations with
  | [] => ret results
  | mutation :: rest =>
      do results <-
        try_catch
          (do isValid <- await_race validator mutation options ;
           ret (results ++ [ {| value := mutation;
                                caught := negb (ToBoolean isValid);
                                error := None |} ]))
          (fun error =>
           ret (results ++ [ {| value := mutation;
                                caught := true;
                                error := Some error |} ])) ;
      test_for validator options rest results
  end.

(** [r => r.error] as a filter callback: an absent property reads as
    [undefined]. *)
Definition has_error (r : MutationResult) : bool :=
  match error r with Some e => ToBoolean e | None => false end.

Definition test (registry : gmap jsstring TypedMutationOperator)
    (value : JsValue) (ty : BaseType)
    (validator : JsValue -> W -> Settlement * W)
    (options : MutationTestOptions) : Async W MutationTestResult :=
  do mutations <- lift (MutationRegistry.mutate registry value ty) ;
  do results <- test_for validator options mutations [] ;
  ret {| originalValue := value;
         mutations := results;
         summary :=
           {| Summary.total := length results;
              Summary.caught := length (List.filter (fun r => caught r) results);
              Summary.uncaught :=
                length (List.filter (fun r => negb (caught r)) results);
              Summary.errors := length (List.filter (fun r => has_error r) results)
           |} |}.

(** The loop of [testWithOperator] (lines 94-114). *)
Fixpoint testWithOperator_for (validator : JsValue -> W -> Settlement * W)
    (options : MutationTestOptions) (mutations : list JsValue)
    (results : list MutationResult) : Async W (list MutationResult) :=
  match mutations with
  | [] => ret results
  | mutation :: rest =>
      do results <-
        try_catch
          (do isValid <- await_race validator mutation options ;
           ret (results ++ [ {| value := mutation;
                                caught := negb (ToBoolean isValid);
                                error := None |} ]))
          (fun error =>
           ret (results ++ [ {| value := mutation;
                                caught := true;
                                error := Some error |} ])) ;
      testWithOperator_for validator options rest results
  end.

(** The message of the error thrown for an inapplicable operator. *)
Definition not_applicable (operator : TypedMutationOperator) (value : JsValue)
  : JsValue :=
  VError (lit "Operator " ++ operator_name operator ++
          lit " is not applicable to value " ++ ToString value).

Definition testWithOperator (value : JsValue) (operator : TypedMutationOperator)
    (validator : JsValue -> W -> Settlement * W)
    (options : MutationTestOptions) : Async W MutationTestResult :=
  do applicable <- lift (isApplicable operator value) ;
  if negb applicable then
    throw (not_applicable operator value)
  else
    do mutations <- lift (mutate operator value) ;
    do results <- testWithOperator_for validator options mutations [] ;
    ret {| originalValue := value;
           mutations := results;
           summary :=
             {| Summary.total := length results;
                Summary.caught := length (List.filter (fun r => caught r) results);
                Summary.uncaught :=
                  length (List.filter (fun r => negb (caught r)) results);
                Summary.errors :=
                  length (List.filter (fun r => has_error r) results)
             |} |}.

(** The loop of [testAll]; [results[test.name] = r] assigns into the plain
    object [results], replacing what an earlier entry of that name left. *)
Fixpoint testAll_for (registry : gmap jsstring TypedMutationOperator)
    (tests : list (TestEntry.t W)) (options : MutationTestOptions)
    (results : Dictionary.t MutationTestResult)
  : Async W (Dictionary.t MutationTestResult) :=
  match tests with
  | [] => ret results
  | t :: rest =>
      do r <- test registry (TestEntry.value t) (TestEntry.type t)
             (TestEntry.validator t) options ;
      testAll_for registry rest options
        (Dictionary.assign (TestEntry.name t) r results)
  end.

Definition testAll (registry : gmap jsstring TypedMutationOperator)
    (tests : list (TestEntry.t W)) (options : MutationTestOptions)
  : Async W (Dictionary.t MutationTestResult) :=
  testAll_for registry tests options Dictionary.empty.

End Def.

Section Default.
Context `{Runtime}.

Definition createDefaultRunner : gmap jsstring TypedMutationOperator :=
  MutationRegistry.new true.
End Default.
End MutationTestRunner.

(** ** Number::toString (ECMAScript, radix 10)

    The digits of a finite number are the shortest decimal that rounds to
    it, the nearest such when there are several; the layout - plain,
    fractional or exponential - depends on the decimal exponent. *)
Module NumberToString.
Abbreviation Q := QArith_base.Q.
Abbreviation inject_Z := QArith_base.inject_Z.
Abbreviation Qmult := QArith_base.Qmult.
Abbreviation Qminus := QArith_base.Qminus.
Abbreviation Qpower := QArith_base.Qpower.
Abbreviation Qcompare := QArith_base.Qcompare.
Abbreviation Qle_bool := QArith_base.Qle_bool.
Abbreviation Qnum := QArith_base.Qnum.
Abbreviation Qden := QArith_base.Qden.

(** The decimal digits of a natural number. *)
Definition digits (n : Z) : jsstring :=
  lit (DecimalString.NilEmpty.string_of_uint (N.to_uint (Z.to_N n))).

(** [s * 10^p] and [c * 2^q] as rationals. *)
Definition decimal (s p : Z) : Q := Qmult (inject_Z s) (Qpower (inject_Z 10) p).
Definition binary (c q : Z) : Q := Qmult (inject_Z c) (Qpower (inject_Z 2) q).

Definition distance (a b : Q) : Q :=
  match Qcompare a b with Lt => Qminus b a | _ => Qminus a b end.

(** The decimals that round to the float [m * 2^e]: those between the
    midpoints to its two neighbours, the midpoints included when [m] is
    even.  The lower neighbour is half as far when [m] is the least
    mantissa of a binade. *)
Definition rounds_to (m : positive) (e : Z) (v : Q) : bool :=
  let low := if (Z.pos m =? 2 ^ 52) && (-1074 <? e)
             then binary (4 * Z.pos m - 1) (e - 2)
             else binary (4 * Z.pos m - 2) (e - 2) in
  let high := binary (4 * Z.pos m + 2) (e - 2) in
  if Z.even (Z.pos m)
  then Qle_bool low v && Qle_bool v high
  else negb (Qle_bool v low) && negb (Qle_bool high v).

(** The [k]-digit decimals [s * 10^(n-k)] next to [m * 2^e] that round to
    it, for the decimal exponents [n] around [n0]. *)
Definition candidates (m : positive) (e : Z) (k n0 : Z) : list (Z * Z) :=
  let x := binary (Z.pos m) e in
  n ← [n0 - 1; n0; n0 + 1; n0 + 2];
  let scaled := Qmult x (Qpower (inject_Z 10) (k - n)) in
  let floor := Qnum scaled / Z.pos (Qden scaled) in
  s ← [floor; floor + 1];
  if (10 ^ (k - 1) <=? s) && (s <? 10 ^ k) && rounds_to m e (decimal s (n - k))
  then [(s, n)] else [].

(** Of two candidates the one nearer to the float, the even one on a tie. *)
Definition nearer (m : positive) (e : Z) (k : Z) (a b : Z * Z) : Z * Z :=
  let x := binary (Z.pos m) e in
  let da := distance (decimal a.1 (a.2 - k)) x in
  let db := distance (decimal b.1 (b.2 - k)) x in
  match Qcompare da db with
  | Lt => a
  | Gt => b
  | Eq => if Z.even a.1 then a else b
  end.

Definition best (m : positive) (e : Z) (k : Z) (cs : list (Z * Z))
  : option (Z * Z) :=
  match cs with
  | [] => None
  | c :: cs => Some (foldl (nearer m e k) c cs)
  end.

(** The least number of digits [k] for which there is a candidate;
    seventeen digits always suffice. *)
Fixpoint shortest (fuel : nat) (m : positive) (e : Z) (k n0 : Z) : Z * Z * Z :=
  match fuel with
  | O => (0, 0, 0)
  | S fuel =>
      match best m e k (candidates m e k n0) with
      | Some (s, n) => (s, n, k)
      | None => shortest fuel m e (k + 1) n0
      end
  end.

Definition zeros (n : Z) : jsstring := replicate (Z.to_nat n) 48%N.

(** The layout of the digits [s] ([k] of them) with decimal exponent [n]. *)
Definition format (s n k : Z) : jsstring :=
  let ds := digits s in
  if (k <=? n) && (n <=? 21) then ds ++ zeros (n - k)
  else if (0 <? n) && (n <=? 21) then
    take (Z.to_nat n) ds ++ lit "." ++ drop (Z.to_nat n) ds
  else if (-6 <? n) && (n <=? 0) then lit "0." ++ zeros (- n) ++ ds
  else
    let c := n - 1 in
    let exponent := (if c <? 0 then lit "e-" else lit "e+") ++ digits (Z.abs c) in
    if k =? 1 then ds ++ exponent
    else take 1 ds ++ lit "." ++ drop 1 ds ++ exponent.

(** The float [m * 2^e]; [n0] estimates its decimal exponent from the
    binary one. *)
Definition positive_finite (m : positive) (e : Z) : jsstring :=
  let bits := Z.log2 (Z.pos m) + 1 + e in
  let n0 := (bits - 1) * 30103 / 100000 + 1 in
  let '(s, n, k) := shortest 17 m e 1 n0 in
  format s n k.

Definition to_string (x : float) : jsstring :=
  match Prim2SF x with
  | S754_nan => lit "NaN"
  | S754_zero _ => lit "0"
  | S754_infinity false => lit "Infinity"
  | S754_infinity true => lit "-Infinity"
  | S754_finite false m e => positive_finite m e
  | S754_finite true m e => lit "-" ++ positive_finite m e
  end.
End NumberToString.

(** ** Keccak-256

    The hash function behind the EIP-55 address checksum, over bytes
    and 64-bit lanes as natural numbers. *)
Module Keccak.
Local Open Scope N_scope.

(** Rotation of a 64-bit lane to the left. *)
Definition rotl (x n : N) : N :=
  N.lor (N.land (N.shiftl x n) (N.ones 64)) (N.shiftr x (64 - n)).

(** The state: 25 lanes, lane [(x, y)] at index [x + 5 y]. *)
Definition lane (A : list N) (x y : nat) : N :=
  nth ((x mod 5) + 5 * (y mod 5))%nat A 0.

Definition rotation_offsets : list N :=
  [ 0; 1; 62; 28; 27;  36; 44; 6; 55; 20;  3; 10; 43; 25; 39;
    41; 45; 15; 21; 8;  18; 2; 61; 56; 14 ].

Definition round_constants : list N :=
  [ 0x0000000000000001; 0x0000000000008082; 0x800000000000808A;
    0x8000000080008000; 0x000000000000808B; 0x0000000080000001;
    0x8000000080008081; 0x8000000000008009; 0x000000000000008A;
    0x0000000000000088; 0x0000000080008009; 0x000000008000000A;
    0x000000008000808B; 0x800000000000008B; 0x8000000000008089;
    0x8000000000008003; 0x8000000000008002; 0x8000000000000080;
    0x000000000000800A; 0x800000008000000A; 0x8000000080008081;
    0x8000000000008080; 0x0000000080000001; 0x8000000080008008 ].

Definition positions : list (nat * nat) :=
  y ← seq 0 5; x ← seq 0 5; [(x, y)].

Definition round (A : list N) (rc : N) : list N :=
  let C x := N.lxor (lane A x 0) (N.lxor (lane A x 1) (N.lxor (lane A x 2)
               (N.lxor (lane A x 3) (lane A x 4)))) in
  let D x := N.lxor (C (x + 4)%nat) (rotl (C (x + 1)%nat) 1) in
  let theta := map (fun '(x, y) => N.lxor (lane A x y) (D x)) positions in
  let rho_pi :=
    map (fun '(x, y) =>
           let x0 := ((x + 3 * y) mod 5)%nat in
           rotl (lane theta x0 x) (nth (x0 + 5 * x)%nat rotation_offsets 0))
      positions in
  let chi :=
    map (fun '(x, y) =>
           N.lxor (lane rho_pi x y)
             (N.land (N.lxor (lane rho_pi (x + 1) y) (N.ones 64))
                     (lane rho_pi (x + 2) y)))
      positions in
  match chi with
  | a :: rest => N.lxor a rc :: rest
  | [] => []
  end.

Definition permute (A : list N) : list N := foldl round A round_constants.

(** Little-endian conversion between eight bytes and a lane. *)
Fixpoint lane_of_bytes (bytes : list N) : N :=
  match bytes with
  | [] => 0
  | b :: rest => b + 256 * lane_of_bytes rest
  end.

Fixpoint bytes_of_lane (n : nat) (x : N) : list N :=
  match n with
  | O => []
  | S n => x mod 256 :: bytes_of_lane n (x / 256)
  end.

Fixpoint lanes_of_bytes (n : nat) (bytes : list N) : list N :=
  match n with
  | O => []
  | S n => lane_of_bytes (take 8 bytes) :: lanes_of_bytes n (drop 8 bytes)
  end.

(** Padding [10*1] to a multiple of the rate of 136 bytes, with the
    domain separation of the original Keccak (first padding byte [0x01]). *)
Definition pad (message : list N) : list N :=
  let fill := (135 - length message mod 136)%nat in
  match fill with
  | O => message ++ [0x81]
  | S k => message ++ [0x01] ++ replicate k 0 ++ [0x80]
  end.

Fixpoint absorb (blocks : nat) (bytes : list N) (A : list N) : list N :=
  match blocks with
  | O => A
  | S blocks =>
      let block := lanes_of_bytes 17 (take 136 bytes) ++ replicate 8 0 in
      absorb blocks (drop 136 bytes) (permute (zip_with N.lxor A block))
  end.

Definition keccak256 (message : list N) : list N :=
  let padded := pad message in
  let A := absorb (length padded / 136) padded (replicate 25 0) in
  take 32 (concat (map (bytes_of_lane 8) A)).
End Keccak.

(** ** A concrete runtime

    Used to run the model on concrete inputs.  [isHex] and [isAddress]
    follow viem 2: a hex string matches [/^0x[0-9a-fA-F]*$/], an address
    matches [/^0x[a-fA-F0-9]{40}$/] and is either all lower case or equal
    to its EIP-55 checksum form.  Case conversion maps the ASCII letters
    and leaves every other code unit as it is: it is ECMAScript's on
    strings with no other cased letter, such as hex strings.  String
    conversion is ECMAScript's ToString.  The timer follows Node.js: a
    delay outside [1, 2^31-1] becomes 1 ms, any other is truncated to whole
    milliseconds. *)
Module Sample.
Definition is_hex_digit (c : N) : bool :=
  ((48 <=? c) && (c <=? 57) || (65 <=? c) && (c <=? 70) ||
   (97 <=? c) && (c <=? 102))%N.

Definition has_0x_prefix (s : jsstring) : bool :=
  match s with
  | c0 :: c1 :: _ => ((c0 =? 48) && (c1 =? 120))%N
  | _ => false
  end.

Definition isHex (s : jsstring) : bool :=
  has_0x_prefix s && forallb is_hex_digit (drop 2 s).

Definition lower (c : N) : N :=
  if ((65 <=? c) && (c <=? 90))%N then (c + 32)%N else c.

Definition upper (c : N) : N :=
  if ((97 <=? c) && (c <=? 122))%N then (c - 32)%N else c.

(** viem's [checksumAddress]: the forty hex digits in lower case, except
    that a digit is in upper case where the Keccak-256 hash of the
    lower-case digits has a nibble of 8 or more. *)
Definition nibbles (bytes : list N) : list N :=
  b ← bytes; [b / 16; b mod 16]%N.

Definition checksumAddress (address : jsstring) : jsstring :=
  let hexAddress := map lower (drop 2 address) in
  let hash := Keccak.keccak256 hexAddress in
  lit "0x" ++
  zip_with (fun c nibble => if (8 <=? nibble)%N then upper c else c)
    (take 40 hexAddress) (nibbles hash) ++
  drop 40 hexAddress.

Definition isAddress (s : jsstring) : bool :=
  if negb (isHex s && (length s =? 42)%nat) then false
  else if bool_decide (map lower s = s) then true
  else bool_decide (checksumAddress s = s).

(** ECMAScript ToString.  An array is joined with commas, [undefined] and
    [null] elements giving the empty string; a plain object gives
    ['[object Object]']; an [Error] gives its name and message. *)
Fixpoint ToString (v : JsValue) : jsstring :=
  match v with
  | VUndefined => lit "undefined"
  | VNull => lit "null"
  | VBool true => lit "true"
  | VBool false => lit "false"
  | VNumber x => NumberToString.to_string x
  | VBigInt z =>
      (if z <? 0 then lit "-" else []) ++ NumberToString.digits (Z.abs z)
  | VString s => s
  | VArray elems =>
      (fix join (elems : list JsValue) : jsstring :=
         match elems with
         | [] => []
         | x :: rest =>
             match x with VUndefined | VNull => [] | _ => ToString x end ++
             match rest with [] => [] | _ => lit "," ++ join rest end
         end) elems
  | VObject _ => lit "[object Object]"
  | VError message =>
      match message with
      | [] => lit "Error"
      | _ => lit "Error: " ++ message
      end
  end.

Definition trunc (x : float) : N :=
  match Prim2SF x with
  | S754_finite false m e =>
      Z.to_N (if 0 <=? e then Z.pos m * 2 ^ e else Z.pos m / 2 ^ (- e))
  | _ => 0%N
  end.

Definition timer_delay (after : float) : N :=
  if PrimFloat.leb 1 after && PrimFloat.leb after 2147483647
  then trunc after else 1%N.

Definition runtime : Runtime :=
  Build_Runtime isAddress isHex (map lower) (map upper) ToString timer_delay.
End Sample.

(** The eight operators that [registerDefaults] registers. *)
Definition builtin_operators `{Runtime} : list TypedMutationOperator :=
  [ AddressMutator.operator; BlockTagMutator.operator;
    BlockNumberMutator.operator; HashMutator.operator;
    BooleanMutator.operator; NumberMutator.operator;
    StringMutator.operator; ArrayMutator.operator ].

(** An operator whose [mutate] throws, with its type descriptor: custom
    operators are caller code and the interface cannot keep them from
    throwing. *)
Module Throwing.
Definition boom : JsValue := VError (lit "boom").

Definition type : BaseType :=
  {| Types.name := lit "Throwing"; isValid := fun _ => true |}.

Definition operator : TypedMutationOperator :=
  Build_TypedMutationOperator (lit "ThrowingMutator") type
    (fun _ => Ok true) (fun _ => Throw boom).

(** An operator whose [isApplicable] throws. *)
Definition undecided : TypedMutationOperator :=
  Build_TypedMutationOperator (lit "UndecidedMutator") type
    (fun _ => Throw boom) (fun value => Ok [value]).
End Throwing.

(** ** Vocabulary of the properties *)

(** What a validator does when called on the given mutations one after the
    other, from world [w]: the settlement of each call, and the final world. *)
Fixpoint observe {W : Type} (validator : JsValue -> W -> Settlement * W)
    (mutations : list JsValue) (w : W) : list (JsValue * Settlement) * W :=
  match mutations with
  | [] => ([], w)
  | mutation :: rest =>
      let '(settled, w1) := validator mutation w in
      let '(obs, w2) := observe validator rest w1 in
      ((mutation, settled) :: obs, w2)
  end.

(** The timer fires before the validator has settled. *)
Definition timer_first (delay : N) (settled : Settlement) : Prop :=
  match settled with
  | Fulfilled at_ms _ | Rejected at_ms _ => (delay < at_ms)%N
  | Pending => True
  end.

(** The classification policy for one mutation, given how the validator
    settled on it and the timer's delay. *)
Definition classified (delay : N) (obs : JsValue * Settlement)
    (r : MutationResult) : Prop :=
  value r = obs.1 /\
  (forall at_ms, obs.2 = Fulfilled at_ms (VBool false) -> (at_ms <= delay)%N ->
     caught r = true /\ error r = None) /\
  (forall at_ms, obs.2 = Fulfilled at_ms (VBool true) -> (at_ms <= delay)%N ->
     caught r = false /\ error r = None) /\
  (forall at_ms e, obs.2 = Rejected at_ms e -> (at_ms <= delay)%N ->
     caught r = true /\ error r = Some e) /\
  (timer_first delay obs.2 -> caught r = true /\ error r = Some Timeout).

(** The result object the loop body pushes for one mutation. *)
Definition attempt (delay : N) (obs : JsValue * Settlement) : MutationResult :=
  match Promise_race obs.2 delay with
  | Ok isValid =>
      {| value := obs.1; caught := negb (ToBoolean isValid); error := None |}
  | Throw e => {| value := obs.1; caught := true; error := Some e |}
  end.

(** The summary as one fold over the per-mutation results. *)
Definition count_into (r : MutationResult) (acc : Summary.t) : Summary.t :=
  {| Summary.total := S (Summary.total acc);
     Summary.caught := (if caught r then 1 else 0) + Summary.caught acc;
     Summary.uncaught := (if caught r then 0 else 1) + Summary.uncaught acc;
     Summary.errors :=
       (if MutationTestRunner.has_error r then 1 else 0) + Summary.errors acc |}%nat.

Definition summary_fold (results : list MutationResult) : Summary.t :=
  foldr count_into
    {| Summary.total := 0; Summary.caught := 0;
       Summary.uncaught := 0; Summary.errors := 0 |}%nat
    results.

Definition summary_consistent (r : MutationTestResult) : Prop :=
  summary r = summary_fold (mutations r) /\
  Summary.total (summary r) = length (mutations r) /\
  (Summary.caught (summary r) + Summary.uncaught (summary r) =
     Summary.total (summary r))%nat /\
  (Summary.errors (summary r) <= Summary.caught (summary r))%nat.

(** Producing the mutation list of a [testAll] entry, the first step of
    the [test] call made for it, returns normally. *)
Definition setup_returns {W : Type}
    (registry : gmap jsstring TypedMutationOperator) (t : TestEntry.t W) : Prop :=
  exists mutations,
    MutationRegistry.mutate registry (TestEntry.value t) (TestEntry.type t)
      = Ok mutations.

(** What the validators of a batch do when each entry's validator is
    called, entry after entry from world [w], on the mutations the registry
    produces for that entry: the settlements, one list per entry, and the
    final world.  An entry whose mutation list is not produced ends it. *)
Fixpoint observe_batch `{Runtime} {W : Type}
    (registry : gmap jsstring TypedMutationOperator)
    (tests : list (TestEntry.t W)) (w : W)
  : list (list (JsValue * Settlement)) * W :=
  match tests with
  | [] => ([], w)
  | t :: rest =>
      match MutationRegistry.mutate registry (TestEntry.value t)
              (TestEntry.type t) with
      | Ok mutations =>
          let '(obs, w1) := observe (TestEntry.validator t) mutations w in
          let '(more, w2) := observe_batch registry rest w1 in
          (obs :: more, w2)
      | Throw _ => ([], w)
      end
  end.

(** The result object for a seed whose mutations the validator settled on
    as [obs] says. *)
Definition report (seed : JsValue) (delay : N) (obs : list (JsValue * Settlement))
  : MutationTestResult :=
  {| originalValue := seed;
     mutations := map (attempt delay) obs;
     summary := summary_fold (map (attempt delay) obs) |}.

(** The assignments of a batch: under each entry's name, the result for
    its seed and for the settlements of its validator. *)
Definition batch_reports {W : Type} (delay : N) (tests : list (TestEntry.t W))
    (obs : list (list (JsValue * Settlement)))
  : list (jsstring * MutationTestResult) :=
  zip_with (fun t obs => (TestEntry.name t, report (TestEntry.value t) delay obs))
    tests obs.

(** ** Concrete validators and batches *)
Module Scenario.
Definition rejects (_ : JsValue) (w : unit) : Settlement * unit :=
  (Fulfilled 0 (VBool false), w).

Definition accepts_after (at_ms : N) (_ : JsValue) (w : unit) : Settlement * unit :=
  (Fulfilled at_ms (VBool true), w).

Definition throws (_ : JsValue) (w : unit) : Settlement * unit :=
  (Rejected 0 (VError (lit "invalid")), w).

(** [v => v === 42] *)
Definition is_42 (v : JsValue) (w : unit) : Settlement * unit :=
  (Fulfilled 0 (VBool match v with
                      | VNumber x => PrimFloat.eqb x 42
                      | _ => false
                      end), w).

Definition start : RunState unit := {| world := tt; invoked := [] |}.

Definition no_options : MutationTestOptions :=
  {| timeout := None; verbose := None |}.

Definition with_timeout (t : float) : MutationTestOptions :=
  {| timeout := Some t; verbose := None |}.

(** The default registry plus the throwing operator. *)
Definition registry : gmap jsstring TypedMutationOperator :=
  MutationRegistry.register Throwing.operator
    (@MutationRegistry.new Sample.runtime true).

(** Two entries: the first is set up by the throwing operator, the second
    by the built-in Boolean operator. *)
Definition second : TestEntry.t unit :=
  {| TestEntry.name := lit "second"; TestEntry.value := VBool true;
     TestEntry.type := BooleanMutator.type; TestEntry.validator := rejects |}.

Definition failing : TestEntry.t unit :=
  {| TestEntry.name := lit "first"; TestEntry.value := VNull;
     TestEntry.type := Throwing.type; TestEntry.validator := rejects |}.

Definition batch : list (TestEntry.t unit) := [failing; second].

(** An entry named like the accessor of [Object.prototype]. *)
Definition hidden : TestEntry.t unit :=
  {| TestEntry.name := lit "__proto__"; TestEntry.value := VBool true;
     TestEntry.type := BooleanMutator.type; TestEntry.validator := rejects |}.

(** Two entries that the built-in operators set up; the first validator
    throws on every mutation. *)
Definition sound_batch : list (TestEntry.t unit) :=
  [ {| TestEntry.name := lit "first"; TestEntry.value := VString (lit "abc");
       TestEntry.type := @StringMutator.type; TestEntry.validator := throws |};
    second ].
End Scenario.

(** ** The other type descriptors

    The remaining classes of src/types/primitive.ts and the classes of
    src/types/object.ts.  No operator is registered for them by default,
    except that [TBoolean] and [TString] carry the names under which the
    Boolean and String operators are stored. *)

(** The [typeof] operator. *)
Definition typeof (v : JsValue) : jsstring :=
  match v with
  | VUndefined => lit "undefined"
  | VBool _ => lit "boolean"
  | VNumber _ => lit "number"
  | VBigInt _ => lit "bigint"
  | VString _ => lit "string"
  | VNull | VArray _ | VObject _ | VError _ => lit "object"
  end.

(** Reading property [key]: an object's own properties are looked up in
    order; any other value has none of the properties the descriptors below
    read, and an absent property reads as [undefined]. *)
Fixpoint own_property (props : list (jsstring * JsValue)) (key : jsstring)
  : JsValue :=
  match props with
  | [] => VUndefined
  | (k, x) :: rest => if bool_decide (k = key) then x else own_property rest key
  end.

Definition get (v : JsValue) (key : jsstring) : JsValue :=
  match v with
  | VObject props => own_property props key
  | _ => VUndefined
  end.

Definition is_null (v : JsValue) : bool :=
  match v with VNull => true | _ => false end.

Definition Array_isArray (v : JsValue) : bool :=
  match v with VArray _ => true | _ => false end.

Definition typeof_is (v : JsValue) (t : string) : bool :=
  bool_decide (typeof v = lit t).

Section OtherTypes.
Context `{Runtime}.

Definition THex : BaseType :=
  {| name := lit "Hex";
     isValid := fun value =>
       match value with VString s => isHex s | _ => false end |}.

Definition TBoolean : BaseType :=
  {| name := lit "Boolean";
     isValid := fun value => typeof_is value "boolean" |}.

Definition TString : BaseType :=
  {| name := lit "String";
     isValid := fun value => typeof_is value "string" |}.

Definition TNull : BaseType :=
  {| name := lit "Null"; isValid := is_null |}.

Definition TBlock : BaseType :=
  {| name := lit "Block";
     isValid := fun value =>
       if negb (typeof_is value "object") || is_null value then false
       else
         typeof_is (get value (lit "hash")) "string" &&
         typeof_is (get value (lit "number")) "bigint" &&
         typeof_is (get value (lit "timestamp")) "bigint" |}.

Definition TTransaction : BaseType :=
  {| name := lit "Transaction";
     isValid := fun value =>
       if negb (typeof_is value "object") || is_null value then false
       else
         typeof_is (get value (lit "hash")) "string" &&
         typeof_is (get value (lit "from")) "string" |}.

Definition TTransactionReceipt : BaseType :=
  {| name := lit "TransactionReceipt";
     isValid := fun value =>
       if negb (typeof_is value "object") || is_null value then false
       else
         typeof_is (get value (lit "transactionHash")) "string" &&
         typeof_is (get value (lit "blockNumber")) "bigint" &&
         Array_isArray (get value (lit "logs")) |}.

Definition TLog : BaseType :=
  {| name := lit "Log";
     isValid := fun value =>
       if negb (typeof_is value "object") || is_null value then false
       else
         typeof_is (get value (lit "address")) "string" &&
         typeof_is (get value (lit "blockNumber")) "bigint" &&
         Array_isArray (get value (lit "topics")) |}.

Definition TFeeHistory : BaseType :=
  {| name := lit "FeeHistory";
     isValid := fun value =>
       if negb (typeof_is value "object") || is_null value then false
       else
         Array_isArray (get value (lit "baseFeePerGas")) &&
         Array_isArray (get value (lit "gasUsedRatio")) &&
         typeof_is (get value (lit "oldestBlock")) "bigint" |}.

(** The descriptors of the library under whose name [registerDefaults]
    stores nothing. *)
Definition types_without_operator : list BaseType :=
  [ THex; TNull; TBlock; TTransaction; TTransactionReceipt; TLog; TFeeHistory ].
End OtherTypes.

(** ** EthereumTester.mutationTest (src/testing/index.ts)

    Every call builds a fresh default runner; an omitted [options] argument
    takes [test]'s default [{}]. *)
Module EthereumTester.
Section Def.
Context `{Runtime} {W : Type}.

Definition mutationTest (value : JsValue) (ty : BaseType)
    (validator : JsValue -> W -> Settlement * W)
    (options : option MutationTestOptions) : Async W MutationTestResult :=
  let runner := MutationTestRunner.createDefaultRunner in
  MutationTestRunner.test runner value ty validator
    (default {| timeout := None; verbose := None |} options).
End Def.
End EthereumTester.

(** ** The property-test runner (src/testing/property/runner.ts)

    [PropertyTestRunner] awaits without a timer, so a promise that never
    settles suspends the call for good.  The loop counter is a number; the
    model gives the loop ten iterations of fuel, and [Exhausted] is what a
    loop still running after them would yield.  *)
Inductive Awaited (A : Type) : Type :=
| Settled (r : Result A)
| Suspended
| Exhausted.
Arguments Settled {A} r.
Arguments Suspended {A}.
Arguments Exhausted {A}.

Definition Task (W A : Type) : Type := RunState W -> Awaited A * RunState W.

Definition task_ret {W A : Type} (a : A) : Task W A :=
  fun st => (Settled (Ok a), st).

Definition task_bind {W A B : Type} (m : Task W A) (k : A -> Task W B)
  : Task W B :=
  fun st =>
    match m st with
    | (Settled (Ok a), st') => k a st'
    | (Settled (Throw e), st') => (Settled (Throw e), st')
    | (Suspended, st') => (Suspended, st')
    | (Exhausted, st') => (Exhausted, st')
    end.

Definition task_try {W A : Type} (body : Task W A) (handler : JsValue -> Task W A)
  : Task W A :=
  fun st =>
    match body st with
    | (Settled (Throw e), st') => handler e st'
    | other => other
    end.

(** Running an [async] function of the mutation runner, which always
    settles. *)
Definition task_of {W A : Type} (m : Async W A) : Task W A :=
  fun st => let '(r, st') := m st in (Settled r, st').

(** [await call()], where the call returns a value or a promise, or throws. *)
Definition settle {A : Type} (settled : Settlement) (k : Result JsValue -> Awaited A)
  : Awaited A :=
  match settled with
  | Fulfilled _ v => k (Ok v)
  | Rejected _ e => k (Throw e)
  | Pending => Suspended
  end.

(** [await property.generate()] *)
Definition await_generate {W : Type} (generate : W -> Settlement * W)
  : Task W JsValue :=
  fun st =>
    let '(settled, w) := generate (world st) in
    (settle settled Settled, {| world := w; invoked := invoked st |}).

(** [await predicate(value)]; the invocation is recorded. *)
Definition await_predicate {W : Type} (predicate : JsValue -> W -> Settlement * W)
    (value : JsValue) : Task W JsValue :=
  fun st =>
    let '(settled, w) := predicate value (world st) in
    (settle settled Settled,
     {| world := w; invoked := invoked st ++ [(value, settled)] |}).

(** [Math.min] of two numbers. *)
Definition Math_min (x y : float) : float :=
  if PrimFloat.is_nan x || PrimFloat.is_nan y then nan
  else if PrimFloat.ltb x y then x
  else if PrimFloat.ltb y x then y
  else if PrimFloat.get_sign x then x else y.

Module Property.
Record t (W : Type) : Type := {
  name : jsstring;
  generate : W -> Settlement * W
}.
Arguments name {W} _.
Arguments generate {W} _.
End Property.

Module PropertyTestOptions.
Record t : Type := {
  numRuns : option float;
  timeout : option float;
  seed : option float;
  verbose : option bool
}.
End PropertyTestOptions.

(** [counterexample] and [error] hold [undefined] when there is none. *)
Module PropertyTestResult.
Record t : Type := {
  success : bool;
  numRuns : float;
  seed : float;
  counterexample : JsValue;
  error : JsValue
}.
End PropertyTestResult.

Module PropertyTestEntry.
Record t (W : Type) : Type := {
  name : jsstring;
  property : Property.t W;
  predicate : JsValue -> W -> Settlement * W
}.
Arguments name {W} _.
Arguments property {W} _.
Arguments predicate {W} _.
End PropertyTestEntry.

Module PropertyTestRunner.
Section Def.
Context `{Runtime} {W : Type}.

(** [Date.now()], read off the world. *)
Variable Date_now : W -> float.

(** [e instanceof Error ? e : new Error(String(e))] *)
Definition as_Error (e : JsValue) : JsValue :=
  match e with
  | VError _ => e
  | _ => VError (ToString e)
  end.

(** [x || fallback] on an optional number. *)
Definition number_or (x : option float) (fallback : float) : float :=
  match x with
  | Some n => if ToBoolean (VNumber n) then n else fallback
  | None => fallback
  end.

(** The variables [success], [counterexample] and [error] of [test]. *)
Record Locals : Type := {
  success : bool;
  counterexample : JsValue;
  error : JsValue
}.

(** The [for (let i = 0; i < Math.min(numRuns, 10); i++)] loop; [break]
    leaves it with the variables as they are. *)
Fixpoint test_for (fuel : nat) (i : float) (numRuns : float)
    (property : Property.t W) (predicate : JsValue -> W -> Settlement * W)
    (locals : Locals) : Task W Locals :=
  if PrimFloat.ltb i (Math_min numRuns 10) then
    match fuel with
    | O => fun st => (Exhausted, st)
    | S fuel =>
        task_bind
          (task_try
             (task_bind (await_generate (Property.generate property)) (fun value =>
              task_bind (await_predicate predicate value) (fun result =>
              if negb (ToBoolean result) then
                task_ret (true, {| success := false;
                                   counterexample := value;
                                   error := error locals |})
              else task_ret (false, locals))))
             (fun e =>
              task_ret (true, {| success := false;
                                 counterexample := counterexample locals;
                                 error := as_Error e |})))
          (fun '(break, locals) =>
           if break : bool then task_ret locals
           else test_for fuel (PrimFloat.add i 1) numRuns property predicate locals)
    end
  else task_ret locals.

Definition test (property : Property.t W)
    (predicate : JsValue -> W -> Settlement * W)
    (options : PropertyTestOptions.t) : Task W PropertyTestResult.t :=
  fun st =>
    let numRuns := number_or (PropertyTestOptions.numRuns options) 100 in
    let seed := number_or (PropertyTestOptions.seed options) (Date_now (world st)) in
    task_try
      (task_bind
         (test_for 10 0 numRuns property predicate
            {| success := true; counterexample := VUndefined; error := VUndefined |})
         (fun locals =>
          task_ret {| PropertyTestResult.success := success locals;
                      PropertyTestResult.numRuns := numRuns;
                      PropertyTestResult.seed := seed;
                      PropertyTestResult.counterexample := counterexample locals;
                      PropertyTestResult.error := error locals |}))
      (fun error =>
       task_ret {| PropertyTestResult.success := false;
                   PropertyTestResult.numRuns := numRuns;
                   PropertyTestResult.seed := seed;
                   PropertyTestResult.counterexample := VUndefined;
                   PropertyTestResult.error := as_Error error |})
      st.

(** The loop of [testAll]; [results[test.name] = r] assigns into the plain
    object [results]. *)
Fixpoint testAll_for (tests : list (PropertyTestEntry.t W))
    (options : PropertyTestOptions.t)
    (results : Dictionary.t PropertyTestResult.t)
  : Task W (Dictionary.t PropertyTestResult.t) :=
  match tests with
  | [] => task_ret results
  | t :: rest =>
      task_bind
        (test (PropertyTestEntry.property t) (PropertyTestEntry.predicate t) options)
        (fun r => testAll_for rest options
                    (Dictionary.assign (PropertyTestEntry.name t) r results))
  end.

Definition testAll (tests : list (PropertyTestEntry.t W))
    (options : PropertyTestOptions.t)
  : Task W (Dictionary.t PropertyTestResult.t) :=
  testAll_for tests options Dictionary.empty.

End Def.
End PropertyTestRunner.

(** ** EthereumTester.propertyTest and combinedTest (src/testing/index.ts) *)
Module CombinedOptions.
Record t : Type := {
  property : option PropertyTestOptions.t;
  mutation : option MutationTestOptions
}.
End CombinedOptions.

Module CombinedResult.
Record t : Type := {
  propertyResult : PropertyTestResult.t;
  mutationResults : list MutationTestResult
}.
End CombinedResult.

Module EthereumTesterCombined.
Section Def.
Context `{Runtime} {W : Type}.
Variable Date_now : W -> float.

(** An omitted options argument takes the callee's default [{}]. *)
Definition empty_options : PropertyTestOptions.t :=
  {| PropertyTestOptions.numRuns := None; PropertyTestOptions.timeout := None;
     PropertyTestOptions.seed := None; PropertyTestOptions.verbose := None |}.

Definition propertyTest (property : Property.t W)
    (predicate : JsValue -> W -> Settlement * W)
    (options : option PropertyTestOptions.t) : Task W PropertyTestResult.t :=
  PropertyTestRunner.test Date_now property predicate (default empty_options options).

Definition combinedTest (property : Property.t W) (ty : BaseType)
    (validator : JsValue -> W -> Settlement * W)
    (options : option CombinedOptions.t) : Task W CombinedResult.t :=
  (* First run property tests *)
  task_bind
    (PropertyTestRunner.test Date_now property validator
       (default empty_options (options ≫= CombinedOptions.property)))
    (fun propertyResult =>
  (* Then run mutation tests on a sample value *)
  task_bind (await_generate (Property.generate property)) (fun sampleValue =>
  let mutationRunner := MutationTestRunner.createDefaultRunner in
  task_bind
    (task_of
       (MutationTestRunner.test mutationRunner sampleValue ty validator
          (default {| timeout := None; verbose := None |}
             (options ≫= CombinedOptions.mutation))))
    (fun mutationResult =>
  task_ret {| CombinedResult.propertyResult := propertyResult;
              CombinedResult.mutationResults := [mutationResult] |}))).
End Def.
End EthereumTesterCombined.

(** ** Static generators (src/properties/static.ts)

    [generate] draws with [Math.random()]; the model takes the number drawn
    as an argument. *)

(** Reading [xs[x]] for a number [x]: an element is found when [x] is a
    non-negative integer below the length; every other index reads
    [undefined]. *)
Definition to_index (x : float) : option nat :=
  match Prim2SF x with
  | S754_zero _ => Some 0%nat
  | S754_finite false m e =>
      if 0 <=? e then Some (Z.to_nat (Z.pos m * 2 ^ e))
      else if Z.pos m mod 2 ^ (- e) =? 0
           then Some (Z.to_nat (Z.pos m / 2 ^ (- e)))
           else None
  | _ => None
  end.

Definition element {A : Type} (xs : list A) (x : float) : option A :=
  to_index x ≫= fun i => xs !! i.

(** [xs.length] as a number (array lengths are below 2^32). *)
Definition length_number {A : Type} (xs : list A) : float :=
  PrimFloat.of_uint63 (Uint63.of_Z (Z.of_nat (length xs))).

(** [s.replace(/^0x/, '')] *)
Definition strip_0x (s : jsstring) : jsstring :=
  match s with
  | 48%N :: 120%N :: rest => rest
  | _ => s
  end.

(** [s.padStart(targetLength, c)] for a one-unit filler [c]. *)
Definition padStart (targetLength : nat) (c : N) (s : jsstring) : jsstring :=
  replicate (targetLength - length s) c ++ s.

Module PAddress.
Definition generate (addresses : list jsstring) (random : float) : JsValue :=
  match element addresses
          (Math_floor (PrimFloat.mul random (length_number addresses))) with
  | Some address => VString address
  | None => VUndefined
  end.
End PAddress.

Module PStorageIdx.
(** The slot read is [undefined] when the index misses; calling [replace]
    on it throws a TypeError. *)
Definition generate (slots : list jsstring) (random : float) : Result jsstring :=
  match element slots (Math_floor (PrimFloat.mul random (length_number slots))) with
  | Some slot =>
      (* Ensure the slot is properly formatted as a 32-byte hex string *)
      Ok (lit "0x" ++ padStart 64 48 (strip_0x slot))
  | None => ill_typed
  end.
End PStorageIdx.

(** The number of mutations per built-in type, by the name of the type;
    only arrays make it depend on the seed. *)
Definition mutation_count (type_name : jsstring) (seed : JsValue) : nat :=
  if bool_decide (type_name = lit "Address") then 5
  else if bool_decide (type_name = lit "BlockTag") then 4
  else if bool_decide (type_name = lit "BlockNumber") then 6
  else if bool_decide (type_name = lit "Hex32") then 5
  else if bool_decide (type_name = lit "Boolean") then 1
  else if bool_decide (type_name = lit "Number") then 8
  else if bool_decide (type_name = lit "String") then 6
  else if bool_decide (type_name = lit "Array") then
    match seed with VArray [] => 1 | _ => 6 end
  else 1.

(** ** Vocabulary of the property runner's properties *)

(** The predicate settled with a truthy value on the sample. *)
Definition passed (o : JsValue * Settlement) : Prop :=
  exists at_ms x, o.2 = Fulfilled at_ms x /\ ToBoolean x = true.

(** One iteration of the sampling loop, seen from outside: [generate]
    fulfilled with a value and the predicate, called on it, settled as
    recorded; or [generate] did not fulfil - it threw, rejected or stayed
    pending. *)
Inductive Draw : Type :=
| Checked (value : JsValue) (settled : Settlement)
| NotGenerated (settled : Settlement).

(** The predicate settled with a truthy value. *)
Definition truthy (settled : Settlement) : bool :=
  match settled with Fulfilled _ x => ToBoolean x | _ => false end.

(** What [generate] and the predicate do when up to [n] samples are drawn
    and checked one after the other from world [w], none being drawn after
    the first that is not generated or does not pass: the draws, and the
    world they leave. *)
Fixpoint draw_samples {W : Type} (n : nat) (generate : W -> Settlement * W)
    (predicate : JsValue -> W -> Settlement * W) (w : W) : list Draw * W :=
  match n with
  | O => ([], w)
  | S n =>
      let '(generated, w1) := generate w in
      match generated with
      | Fulfilled _ value =>
          let '(settled, w2) := predicate value w1 in
          if truthy settled then
            let '(draws, w3) := draw_samples n generate predicate w2 in
            (Checked value settled :: draws, w3)
          else ([Checked value settled], w2)
      | _ => ([NotGenerated generated], w1)
      end
  end.





(** Neither [generate] nor the predicate of the entry leaves a promise
    pending. *)
Definition entry_settles {W : Type} (t : PropertyTestEntry.t W) : Prop :=
  (forall w, (Property.generate (PropertyTestEntry.property t) w).1 <> Pending) /\
  (forall v w, (PropertyTestEntry.predicate t v w).1 <> Pending).

(** The loop counter after [k] increments. *)
Definition counter (k : nat) : float :=
  Nat.iter k (fun i => PrimFloat.add i 1) 0%float.

(** ** Concrete properties and predicates

    The two properties of the runner's own test suite
    (__tests__/property/adapters.test.ts). *)
Module PropertyScenario.
Definition always_42 : Property.t unit :=
  {| Property.name := lit "AlwaysFortyTwo";
     Property.generate := fun w => (Fulfilled 0 (VNumber 42), w) |}.

Definition always_hello : Property.t unit :=
  {| Property.name := lit "AlwaysHello";
     Property.generate := fun w => (Fulfilled 0 (VString (lit "hello")), w) |}.

(** [value => value === 'world'] *)
Definition is_world (value : JsValue) (w : unit) : Settlement * unit :=
  (Fulfilled 0 (VBool match value with
                      | VString s => bool_decide (s = lit "world")
                      | _ => false
                      end), w).

(** A property whose [generate] throws a string. *)
Definition failing : Property.t unit :=
  {| Property.name := lit "Failing";
     Property.generate := fun w => (Rejected 0 (VString (lit "no data")), w) |}.

Definition clock (_ : unit) : float := 1700000000000%float.

Definition no_options : PropertyTestOptions.t :=
  {| PropertyTestOptions.numRuns := None; PropertyTestOptions.timeout := None;
     PropertyTestOptions.seed := None; PropertyTestOptions.verbose := None |}.

Definition runs (n : float) : PropertyTestOptions.t :=
  {| PropertyTestOptions.numRuns := Some n; PropertyTestOptions.timeout := None;
     PropertyTestOptions.seed := None; PropertyTestOptions.verbose := None |}.

Definition mixed : list (PropertyTestEntry.t unit) :=
  [ {| PropertyTestEntry.name := lit "PassingTest";
       PropertyTestEntry.property := always_42;
       PropertyTestEntry.predicate := Scenario.is_42 |};
    {| PropertyTestEntry.name := lit "FailingTest";
       PropertyTestEntry.property := always_hello;
       PropertyTestEntry.predicate := is_world |} ].
End PropertyScenario.

(** * Properties *)

(** ** The default registry *)
Section DefaultRegistry.
Context `{Runtime}.

Lemma register_lookup_eq (op : TypedMutationOperator)
    (reg : gmap jsstring TypedMutationOperator) :
  MutationRegistry.register op reg !! name (type op) = Some op.
Proof. unfold MutationRegistry.register. apply lookup_insert_eq. Qed.

Lemma register_lookup_ne (op : TypedMutationOperator)
    (reg : gmap jsstring TypedMutationOperator) (k : jsstring) :
  name (type op) <> k ->
  MutationRegistry.register op reg !! k = reg !! k.
Proof. intros Hne. unfold MutationRegistry.register. by apply lookup_insert_ne. Qed.

(** Every built-in operator is found under the name of its own type: the
    eight names are pairwise distinct, so no registration overwrites
    another. *)
Lemma default_lookup (op : TypedMutationOperator) :
  op ∈ builtin_operators ->
  MutationRegistry.new true !! name (type op) = Some op.
Proof.
  unfold builtin_operators. intros Hin.
  repeat (apply elem_of_cons in Hin as [-> | Hin]);
    [ .. | by apply elem_of_nil in Hin ];
    unfold MutationRegistry.new, MutationRegistry.registerDefaults;
    repeat (first [ apply register_lookup_eq
                  | rewrite register_lookup_ne by (vm_compute; discriminate) ]).
Qed.

End DefaultRegistry.

(** ** Operators *)

(** C8: [ArrayMutator.mutate] applied to the empty array returns exactly one
    mutation, the one-element array [[null]]; the result is never empty.
    The same holds when the empty array is mutated through the default
    registry under the Array type. *)
Theorem ArrayMutator_mutate_empty `{Runtime} :
  ArrayMutator.mutate [] = [[VNull]] /\
  ArrayMutator.mutate [] <> [] /\
  mutate ArrayMutator.operator (VArray []) = Ok [VArray [VNull]] /\
  MutationRegistry.mutate (MutationRegistry.new true) (VArray [])
    ArrayMutator.type = Ok [VArray [VNull]].
Proof.
  split; [reflexivity |]. split; [discriminate |]. split; [reflexivity |].
  unfold MutationRegistry.mutate, MutationRegistry.getOperator.
  change ArrayMutator.type with (type ArrayMutator.operator).
  rewrite default_lookup; [reflexivity |].
  unfold builtin_operators. set_solver.
Qed.

Section BlockTag.

(** The filter keeps a tag exactly when it is an enum member other than the
    seed, for every seed whatsoever. *)
Lemma BlockTagMutator_elem (seed tag : jsstring) :
  tag ∈ BlockTagMutator.mutate seed <->
  tag ∈ BlockTagMutator.allTags /\ tag <> seed.
Proof.
  unfold BlockTagMutator.mutate.
  rewrite list_elem_of_filter. tauto.
Qed.

Lemma allTags_NoDup : NoDup BlockTagMutator.allTags.
Proof.
  apply (bool_decide_unpack _). vm_compute. reflexivity.
Qed.

End BlockTag.

(** C7: for a seed among the five block tags, [BlockTagMutator.mutate]
    returns the other four members: four pairwise distinct tags, the seed
    not among them, and as a set the five-element enum minus the seed. *)
Theorem BlockTagMutator_mutate_others (seed : jsstring) :
  seed ∈ BlockTagMutator.allTags ->
  length (BlockTagMutator.mutate seed) = 4%nat /\
  NoDup (BlockTagMutator.mutate seed) /\
  (seed ∉ BlockTagMutator.mutate seed) /\
  (list_to_set (BlockTagMutator.mutate seed) : gset jsstring) =
    list_to_set BlockTagMutator.allTags ∖ {[seed]}.
Proof.
  intros Hseed. split; [| split; [| split]].
  - unfold BlockTagMutator.allTags in Hseed.
    repeat (apply elem_of_cons in Hseed as [-> | Hseed]);
      [ reflexivity .. | by apply elem_of_nil in Hseed ].
  - apply NoDup_filter, allTags_NoDup.
  - rewrite BlockTagMutator_elem. tauto.
  - apply set_eq. intros tag.
    rewrite elem_of_difference, !elem_of_list_to_set, BlockTagMutator_elem,
      elem_of_singleton.
    tauto.
Qed.

Lemma BlockTagMutator_mutate_others_witness :
  BlockTagMutator.mutate (lit "pending") =
    [lit "latest"; lit "earliest"; lit "safe"; lit "finalized"] /\
  length (BlockTagMutator.mutate (lit "pending")) = 4%nat /\
  lit "pending" ∉ BlockTagMutator.mutate (lit "pending").
Proof.
  split; [reflexivity |].
  assert (Hin : lit "pending" ∈ BlockTagMutator.allTags).
  { unfold BlockTagMutator.allTags. set_solver. }
  destruct (BlockTagMutator_mutate_others (lit "pending") Hin) as (Hlen & _ & Hnot & _).
  exact (conj Hlen Hnot).
Defined.

(** ** Registry dispatch *)



(** The dispatch is exhaustive: a call runs a stored operator that its
    [isApplicable] accepts, or is left by a throw of that [isApplicable], or
    returns the singleton. *)
Lemma registry_mutate_cases
    (operators : gmap jsstring TypedMutationOperator)
    (value : JsValue) (d : BaseType) :
  (exists operator,
      operators !! name d = Some operator /\
      isApplicable operator value = Ok true /\
      MutationRegistry.mutate operators value d = mutate operator value) \/
  (exists operator e,
      operators !! name d = Some operator /\
      isApplicable operator value = Throw e /\
      MutationRegistry.mutate operators value d = Throw e) \/
  MutationRegistry.mutate operators value d = Ok [value].
Proof.
  unfold MutationRegistry.mutate, MutationRegistry.getOperator.
  destruct (operators !! name d) as [operator |] eqn:Hget; [| by right; right].
  destruct (isApplicable operator value) as [[|] | e] eqn:Happ.
  - left. by exists operator.
  - by right; right.
  - right; left. by exists operator, e.
Qed.

Lemma registry_mutate_cases_applied
    (operators : gmap jsstring TypedMutationOperator)
    (value : JsValue) (operator : TypedMutationOperator) :
  operators !! name (type operator) = Some operator ->
  isApplicable operator value = Ok true ->
  MutationRegistry.mutate operators value (type operator) = mutate operator value.
Proof.
  unfold MutationRegistry.mutate, MutationRegistry.getOperator.
  intros -> ->. reflexivity.
Qed.

(** A registered operator is what a later lookup under its type finds. *)
Lemma register_then_mutate (operator : TypedMutationOperator)
    (operators : gmap jsstring TypedMutationOperator) (value : JsValue) :
  isApplicable operator value = Ok true ->
  MutationRegistry.mutate (MutationRegistry.register operator operators)
    value (type operator) = mutate operator value.
Proof.
  intros Happ.
  apply registry_mutate_cases_applied; [| done].
  apply register_lookup_eq.
Qed.


(** ** Built-in operators never return an empty list *)
Section NonEmpty.
Context `{Runtime}.

(** The [isApplicable] of a built-in operator does not throw: it returns
    what the descriptor's [isValid] returns. *)
Lemma builtin_isApplicable (operator : TypedMutationOperator) (v : JsValue) :
  operator ∈ builtin_operators ->
  isApplicable operator v = Ok (isValid (type operator) v).
Proof.
  unfold builtin_operators. intros Hin.
  repeat (apply elem_of_cons in Hin as [-> | Hin]);
    [ .. | by apply elem_of_nil in Hin ]; reflexivity.
Qed.

(** On a seed its operator accepts, each built-in [mutate] returns normally;
    the lists have 5, 4 or 5, 6, 5, 1, 8, 6 and 1 or 6 elements. *)
Lemma builtin_mutate_nonempty (operator : TypedMutationOperator) (v : JsValue) :
  operator ∈ builtin_operators ->
  isApplicable operator v = Ok true ->
  exists l, mutate operator v = Ok l /\ (1 <= length l)%nat.
Proof.
  unfold builtin_operators. intros Hin Happ.
  repeat (apply elem_of_cons in Hin as [-> | Hin]);
    [ .. | by apply elem_of_nil in Hin ];
    injection Happ as Happ;
    destruct v; try discriminate Happ; cbn [mutate] in *.
  - eexists; split; [reflexivity |]. cbn. lia.
  - cbn in Happ. apply bool_decide_eq_true_1 in Happ.
    repeat (apply elem_of_cons in Happ as [-> | Happ]);
      [ .. | by apply elem_of_nil in Happ ];
      (eexists; split; [reflexivity |]; vm_compute; lia).
  - eexists; split; [reflexivity |]. cbn. lia.
  - eexists; split; [reflexivity |]. cbn. lia.
  - eexists; split; [reflexivity |]. cbn. lia.
  - eexists; split; [reflexivity |]. cbn. lia.
  - eexists; split; [reflexivity |]. cbn. lia.
  - eexists; split; [reflexivity |].
    unfold on_array, ArrayMutator.mutate.
    destruct (length elems =? 0)%nat; cbn; lia.
Qed.

End NonEmpty.

(** C6: for each of the eight built-in operators and every seed that is
    valid for the operator's type descriptor, the default registry's
    [mutate] under that descriptor returns normally, returns what the
    operator itself produces, and the list has at least one element; this
    includes the empty string and the empty array. *)
Theorem default_registry_mutate_nonempty `{Runtime}
    (operator : TypedMutationOperator) (v : JsValue) :
  operator ∈ builtin_operators ->
  isValid (type operator) v = true ->
  exists l,
    MutationRegistry.mutate (MutationRegistry.new true) v (type operator) = Ok l /\
    mutate operator v = Ok l /\
    (1 <= length l)%nat.
Proof.
  intros Hin Hvalid.
  assert (Happ : isApplicable operator v = Ok true).
  { revert Hvalid. unfold builtin_operators in Hin.
    repeat (apply elem_of_cons in Hin as [-> | Hin]);
      [ .. | by apply elem_of_nil in Hin ]; by intros <-. }
  destruct (builtin_mutate_nonempty operator v Hin Happ) as (l & Hl & Hlen).
  exists l. split; [| done].
  rewrite <- Hl.
  apply (registry_mutate_cases_applied (MutationRegistry.new true) v operator);
    [by apply default_lookup | done].
Qed.

(** ** The runner's loops *)
Section Loops.
Context `{Runtime} {W : Type}.
Implicit Types (validator : JsValue -> W -> Settlement * W)
  (options : MutationTestOptions) (st : RunState W).

(** One pass of the loop body: the validator is invoked once, the
    invocation is recorded, and exactly one result is pushed, whether the
    race is won by the validator or lost, returned or thrown. *)
Lemma loop_body_pushes validator options mutation results st :
  try_catch
    (do isValid <- MutationTestRunner.await_race validator mutation options ;
     ret (results ++ [ {| value := mutation;
                          caught := negb (ToBoolean isValid);
                          error := None |} ]))
    (fun error =>
     ret (results ++ [ {| value := mutation; caught := true;
                          error := Some error |} ])) st =
  (Ok (results ++
       [attempt (timer_delay (MutationTestRunner.timeout_or_default options)) (mutation, (validator mutation (world st)).1)]),
   {| world := (validator mutation (world st)).2;
      invoked := invoked st ++ [(mutation, (validator mutation (world st)).1)] |}).
Proof.
  unfold try_catch, bind, MutationTestRunner.await_race, attempt, ret.
  destruct (validator mutation (world st)) as [settled w1]. cbn.
  destruct (Promise_race settled _); reflexivity.
Qed.

(** The loop of [test] never throws: it runs the validator on every
    mutation in order and appends one result per mutation. *)
Lemma test_for_spec validator options mutations results st :
  MutationTestRunner.test_for validator options mutations results st =
  (Ok (results ++
       map (attempt (timer_delay (MutationTestRunner.timeout_or_default options)))
         (observe validator mutations (world st)).1),
   {| world := (observe validator mutations (world st)).2;
      invoked := invoked st ++ (observe validator mutations (world st)).1 |}).
Proof.
  revert results st.
  induction mutations as [| mutation rest IH]; intros results st.
  - cbn. unfold ret. rewrite !app_nil_r. by destruct st.
  - cbn [MutationTestRunner.test_for]. unfold bind at 1.
    rewrite loop_body_pushes, IH. cbn [world invoked observe].
    destruct (validator mutation (world st)) as [settled w1]. cbn.
    destruct (observe validator rest w1) as [obs w2]. cbn.
    by rewrite <- !app_assoc.
Qed.

(** The loop of [testWithOperator] is the loop of [test]. *)
Lemma testWithOperator_for_eq validator options mutations results st :
  MutationTestRunner.testWithOperator_for validator options mutations results st =
  MutationTestRunner.test_for validator options mutations results st.
Proof.
  revert results st.
  induction mutations as [| mutation rest IH]; intros results st; [reflexivity |].
  cbn [MutationTestRunner.testWithOperator_for MutationTestRunner.test_for].
  unfold bind at 1 3.
  destruct (try_catch _ _ st) as [[results' | e] st']; [apply IH | reflexivity].
Qed.

Lemma observe_fst validator mutations (w : W) :
  (observe validator mutations w).1.*1 = mutations.
Proof.
  revert w. induction mutations as [| mutation rest IH]; intros w; [reflexivity |].
  cbn. destruct (validator mutation w) as [settled w1].
  specialize (IH w1). destruct (observe validator rest w1) as [obs w2].
  cbn in *. by rewrite IH.
Qed.

End Loops.

(** ** Classification and summary of the pushed results *)
Section Results.

(** The pushed result follows the classification policy. *)
Lemma attempt_classified (delay : N) (obs : JsValue * Settlement) :
  classified delay obs (attempt delay obs).
Proof.
  destruct obs as [mutation settled].
  unfold classified, attempt, timer_first. cbn [fst snd].
  split; [by destruct (Promise_race settled delay) |].
  split; [| split; [| split]].
  - intros at_ms -> Hle. cbn. by apply N.leb_le in Hle as ->.
  - intros at_ms -> Hle. cbn. by apply N.leb_le in Hle as ->.
  - intros at_ms e -> Hle. cbn. by apply N.leb_le in Hle as ->.
  - destruct settled as [at_ms v | at_ms e |]; cbn; [| | done];
      intros Hlt; by apply N.leb_gt in Hlt as ->.
Qed.

Lemma attempts_classified (delay : N) (obs : list (JsValue * Settlement)) :
  Forall2 (classified delay) obs (map (attempt delay) obs).
Proof.
  induction obs as [| o obs IH]; constructor; [apply attempt_classified | exact IH].
Qed.

(** A pushed result that counts as an error is one that counts as caught. *)
Lemma attempt_error_caught (delay : N) (obs : JsValue * Settlement) :
  MutationTestRunner.has_error (attempt delay obs) = true ->
  caught (attempt delay obs) = true.
Proof.
  unfold attempt, MutationTestRunner.has_error.
  by destruct (Promise_race obs.2 delay).
Qed.

(** The four counts computed with [filter] and [length] are the fold. *)
Lemma summary_counts_fold (results : list MutationResult) :
  {| Summary.total := length results;
     Summary.caught := length (List.filter (fun r => caught r) results);
     Summary.uncaught := length (List.filter (fun r => negb (caught r)) results);
     Summary.errors :=
       length (List.filter (fun r => MutationTestRunner.has_error r) results) |}
  = summary_fold results.
Proof.
  induction results as [| r results IH]; [reflexivity |].
  unfold summary_fold. cbn [foldr]. fold (summary_fold results).
  rewrite <- IH. unfold count_into. cbn.
  by destruct (caught r), (MutationTestRunner.has_error r).
Qed.

Lemma summary_fold_total (results : list MutationResult) :
  Summary.total (summary_fold results) = length results /\
  (Summary.caught (summary_fold results) +
     Summary.uncaught (summary_fold results) = length results)%nat.
Proof.
  induction results as [| r results [IHt IHc]]; [done |].
  unfold summary_fold in *. cbn. destruct (caught r); lia.
Qed.

Lemma summary_fold_errors (results : list MutationResult) :
  Forall (fun r => MutationTestRunner.has_error r = true -> caught r = true)
    results ->
  (Summary.errors (summary_fold results) <=
     Summary.caught (summary_fold results))%nat.
Proof.
  induction 1 as [| r results Hr _ IH]; [done |].
  unfold summary_fold in *. cbn.
  destruct (MutationTestRunner.has_error r); [rewrite Hr by done |];
    destruct (caught r); lia.
Qed.

Lemma attempts_error_caught (delay : N) (obs : list (JsValue * Settlement)) :
  Forall (fun r => MutationTestRunner.has_error r = true -> caught r = true)
    (map (attempt delay) obs).
Proof.
  apply Forall_forall. intros r Hin.
  apply list_elem_of_fmap in Hin as (o & -> & _). apply attempt_error_caught.
Qed.

End Results.

(** ** [test] and [testWithOperator] *)
Section Runner.
Context `{Runtime} {W : Type}.
Implicit Types (validator : JsValue -> W -> Settlement * W)
  (options : MutationTestOptions) (st : RunState W)
  (registry : gmap jsstring TypedMutationOperator).

(** Once the mutation list has been produced, [test] returns: the result
    holds one classified entry per mutation, in order, and its summary is
    the fold over them. *)
Lemma test_returns registry value ty validator options st mutations :
  MutationRegistry.mutate registry value ty = Ok mutations ->
  exists r,
    MutationTestRunner.test registry value ty validator options st =
      (Ok r,
       {| world := (observe validator mutations (world st)).2;
          invoked := invoked st ++ (observe validator mutations (world st)).1 |}) /\
    originalValue r = value /\
    Base.mutations r =
      map (attempt (timer_delay (MutationTestRunner.timeout_or_default options)))
        (observe validator mutations (world st)).1 /\
    summary r = summary_fold (Base.mutations r).
Proof.
  intros Hmut. unfold MutationTestRunner.test, bind, lift. rewrite Hmut.
  rewrite test_for_spec. cbn [app]. unfold ret.
  eexists. split; [reflexivity |]. cbn [originalValue Base.mutations summary].
  split; [reflexivity |]. split; [reflexivity |]. apply summary_counts_fold.
Qed.

(** A throw while producing the mutation list leaves [test] at once; no
    validator has been invoked. *)
Lemma test_throws registry value ty validator options st e :
  MutationRegistry.mutate registry value ty = Throw e ->
  MutationTestRunner.test registry value ty validator options st = (Throw e, st).
Proof.
  intros Hmut. unfold MutationTestRunner.test, bind, lift. by rewrite Hmut.
Qed.

Lemma testWithOperator_returns value operator validator options st mutations :
  isApplicable operator value = Ok true ->
  mutate operator value = Ok mutations ->
  exists r,
    MutationTestRunner.testWithOperator value operator validator options st =
      (Ok r,
       {| world := (observe validator mutations (world st)).2;
          invoked := invoked st ++ (observe validator mutations (world st)).1 |}) /\
    originalValue r = value /\
    Base.mutations r =
      map (attempt (timer_delay (MutationTestRunner.timeout_or_default options)))
        (observe validator mutations (world st)).1 /\
    summary r = summary_fold (Base.mutations r).
Proof.
  intros Happ Hmut. unfold MutationTestRunner.testWithOperator, bind, lift.
  rewrite Happ, Hmut. cbn [negb].
  rewrite testWithOperator_for_eq, test_for_spec. cbn [app]. unfold ret.
  eexists. split; [reflexivity |]. cbn [originalValue Base.mutations summary].
  split; [reflexivity |]. split; [reflexivity |]. apply summary_counts_fold.
Qed.

Lemma testWithOperator_throws value operator validator options st e :
  isApplicable operator value = Ok true ->
  mutate operator value = Throw e ->
  MutationTestRunner.testWithOperator value operator validator options st =
    (Throw e, st).
Proof.
  intros Happ Hmut. unfold MutationTestRunner.testWithOperator, bind, lift.
  by rewrite Happ, Hmut.
Qed.

Lemma testWithOperator_rejects value operator validator options st :
  isApplicable operator value = Ok false ->
  MutationTestRunner.testWithOperator value operator validator options st =
    (Throw (MutationTestRunner.not_applicable operator value), st).
Proof.
  intros Happ. unfold MutationTestRunner.testWithOperator. by rewrite Happ.
Qed.

(** A throw of [isApplicable] leaves [testWithOperator] at once. *)
Lemma testWithOperator_isApplicable_throws value operator validator options st e :
  isApplicable operator value = Throw e ->
  MutationTestRunner.testWithOperator value operator validator options st =
    (Throw e, st).
Proof.
  intros Happ. unfold MutationTestRunner.testWithOperator, bind, lift.
  by rewrite Happ.
Qed.

(** Every result [test] or [testWithOperator] returns has a consistent
    summary. *)
Lemma test_consistent registry value ty validator options st r st' :
  MutationTestRunner.test registry value ty validator options st = (Ok r, st') ->
  summary_consistent r.
Proof.
  intros Hrun.
  destruct (MutationRegistry.mutate registry value ty) as [mutations | e] eqn:Hmut.
  - destruct (test_returns registry value ty validator options st mutations Hmut)
      as (r' & Hrun' & _ & Hms & Hsum).
    rewrite Hrun' in Hrun. injection Hrun as -> _.
    unfold summary_consistent. rewrite Hsum.
    destruct (summary_fold_total (Base.mutations r)) as [Ht Hc].
    rewrite Ht. repeat split; [done |].
    rewrite Hms. apply summary_fold_errors, attempts_error_caught.
  - by rewrite (test_throws _ _ _ _ _ _ e Hmut) in Hrun.
Qed.

Lemma testWithOperator_consistent value operator validator options st r st' :
  MutationTestRunner.testWithOperator value operator validator options st =
    (Ok r, st') ->
  summary_consistent r.
Proof.
  intros Hrun.
  destruct (isApplicable operator value) as [[|] | e] eqn:Happ;
    [| by rewrite testWithOperator_rejects in Hrun
     | by rewrite (testWithOperator_isApplicable_throws _ _ _ _ _ e) in Hrun].
  destruct (mutate operator value) as [mutations | e] eqn:Hmut.
  - destruct (testWithOperator_returns value operator validator options st
                mutations Happ Hmut) as (r' & Hrun' & _ & Hms & Hsum).
    rewrite Hrun' in Hrun. injection Hrun as -> _.
    unfold summary_consistent. rewrite Hsum.
    destruct (summary_fold_total (Base.mutations r)) as [Ht Hc].
    rewrite Ht. repeat split; [done |].
    rewrite Hms. apply summary_fold_errors, attempts_error_caught.
  - by rewrite (testWithOperator_throws _ _ _ _ _ e Happ Hmut) in Hrun.
Qed.

End Runner.

(** C1: once the mutation list is there, [test] and [testWithOperator]
    return normally whatever the validator does, with one result per
    mutation, in order, each classified from the way the validator settled
    on that mutation: returned [false] in time - caught, no error; returned
    [true] in time - not caught; threw or rejected in time - caught, with
    the thrown value as error; timer first - caught, with the Timeout error.
    Each mutation is one recorded validator invocation. *)
Theorem validator_outcome_classified `{Runtime} {W : Type}
    (registry : gmap jsstring TypedMutationOperator)
    (value : JsValue) (ty : BaseType) (operator : TypedMutationOperator)
    (validator : JsValue -> W -> Settlement * W)
    (options : MutationTestOptions) (st : RunState W)
    (mutations : list JsValue) :
  (MutationRegistry.mutate registry value ty = Ok mutations ->
   exists r st',
     MutationTestRunner.test registry value ty validator options st = (Ok r, st') /\
     invoked st' = invoked st ++ (observe validator mutations (world st)).1 /\
     (observe validator mutations (world st)).1.*1 = mutations /\
     Forall2
       (classified (timer_delay (MutationTestRunner.timeout_or_default options)))
       (observe validator mutations (world st)).1 (Base.mutations r)) /\
  (isApplicable operator value = Ok true ->
   mutate operator value = Ok mutations ->
   exists r st',
     MutationTestRunner.testWithOperator value operator validator options st =
       (Ok r, st') /\
     invoked st' = invoked st ++ (observe validator mutations (world st)).1 /\
     (observe validator mutations (world st)).1.*1 = mutations /\
     Forall2
       (classified (timer_delay (MutationTestRunner.timeout_or_default options)))
       (observe validator mutations (world st)).1 (Base.mutations r)).
Proof.
  split.
  - intros Hmut.
    destruct (test_returns registry value ty validator options st mutations Hmut)
      as (r & Hrun & _ & Hms & _).
    exists r. eexists. split; [exact Hrun |]. cbn [invoked].
    split; [reflexivity |]. split; [apply observe_fst |].
    rewrite Hms. apply attempts_classified.
  - intros Happ Hmut.
    destruct (testWithOperator_returns value operator validator options st
                mutations Happ Hmut) as (r & Hrun & _ & Hms & _).
    exists r. eexists. split; [exact Hrun |]. cbn [invoked].
    split; [reflexivity |]. split; [apply observe_fst |].
    rewrite Hms. apply attempts_classified.
Qed.

(** C9: when the operator is the one stored in the runner's registry under
    the name of its type and it is applicable to the seed, [test] called
    with the operator's type and [testWithOperator] called with the operator
    have the same outcome from the same state: the same result (ordered
    mutation results and summary) or the same throw, and the same final
    state. *)
Theorem test_eq_testWithOperator `{Runtime} {W : Type}
    (registry : gmap jsstring TypedMutationOperator)
    (seed : JsValue) (operator : TypedMutationOperator)
    (validator : JsValue -> W -> Settlement * W)
    (options : MutationTestOptions) (st : RunState W) :
  registry !! name (type operator) = Some operator ->
  isApplicable operator seed = Ok true ->
  MutationTestRunner.test registry seed (type operator) validator options st =
  MutationTestRunner.testWithOperator seed operator validator options st.
Proof.
  intros Hreg Happ.
  unfold MutationTestRunner.test, MutationTestRunner.testWithOperator.
  rewrite (registry_mutate_cases_applied registry seed operator Hreg Happ).
  rewrite Happ. unfold bind, lift. cbn [negb].
  destruct (mutate operator seed) as [mutations | e]; [| reflexivity].
  pose proof (testWithOperator_for_eq validator options mutations [] st) as Hloop.
  destruct (MutationTestRunner.testWithOperator_for validator options mutations [] st)
    as [[results | e] st'];
    by rewrite <- Hloop.
Qed.

(** ** Plain objects as dictionaries *)
Section DictionaryFacts.
Context {R : Type}.
Implicit Types (o : Dictionary.t R) (entries : list (jsstring * R))
  (key : jsstring) (r : R).

Lemma assign_own key r o :
  Dictionary.own (Dictionary.assign key r o) =
    if bool_decide (key = lit "__proto__") then Dictionary.own o
    else <[key := r]> (Dictionary.own o).
Proof. unfold Dictionary.assign. by case_bool_decide. Qed.

Lemma assign_prototype key r o :
  Dictionary.prototype (Dictionary.assign key r o) =
    if bool_decide (key = lit "__proto__") then Some r
    else Dictionary.prototype o.
Proof. unfold Dictionary.assign. by case_bool_decide. Qed.

Lemma assign_all_cons key r entries o :
  Dictionary.assign_all ((key, r) :: entries) o =
  Dictionary.assign_all entries (Dictionary.assign key r o).
Proof. reflexivity. Qed.

Lemma assign_all_app entries1 entries2 o :
  Dictionary.assign_all (entries1 ++ entries2) o =
  Dictionary.assign_all entries2 (Dictionary.assign_all entries1 o).
Proof. unfold Dictionary.assign_all. apply foldl_app. Qed.

(** Assignments under other keys leave a key as it was. *)
Lemma assign_all_own_fresh entries o key :
  key ∉ entries.*1 ->
  Dictionary.own (Dictionary.assign_all entries o) !! key = Dictionary.own o !! key.
Proof.
  revert o. induction entries as [| [k r] entries IH]; intros o Hfresh; [done |].
  cbn [fmap list_fmap fst] in Hfresh.
  apply not_elem_of_cons in Hfresh as [Hne Hfresh].
  rewrite assign_all_cons, IH, assign_own by done.
  case_bool_decide; [done |]. by apply lookup_insert_ne.
Qed.

Lemma assign_all_prototype_fresh entries o :
  lit "__proto__" ∉ entries.*1 ->
  Dictionary.prototype (Dictionary.assign_all entries o) = Dictionary.prototype o.
Proof.
  revert o. induction entries as [| [k r] entries IH]; intros o Hfresh; [done |].
  cbn [fmap list_fmap fst] in Hfresh.
  apply not_elem_of_cons in Hfresh as [Hne Hfresh].
  rewrite assign_all_cons, IH, assign_prototype by done.
  by case_bool_decide.
Qed.

(** The prototype is replaced as soon as one assignment is made under
    ['__proto__']. *)
Lemma assign_all_prototype_set entries o :
  lit "__proto__" ∈ entries.*1 ->
  is_Some (Dictionary.prototype (Dictionary.assign_all entries o)).
Proof.
  revert o. induction entries as [| [k r] entries IH]; intros o Hin;
    [by apply elem_of_nil in Hin |].
  cbn [fmap list_fmap fst] in Hin. rewrite assign_all_cons.
  destruct (decide (lit "__proto__" ∈ entries.*1)) as [Hlater | Hfresh];
    [by apply IH |].
  apply elem_of_cons in Hin as [<- | Hin]; [| done].
  rewrite assign_all_prototype_fresh, assign_prototype by done.
  by rewrite bool_decide_eq_true_2.
Qed.

(** The own keys are those there were and the assigned ones, ['__proto__']
    left out. *)
Lemma assign_all_dom entries o :
  dom (Dictionary.own (Dictionary.assign_all entries o)) =
  dom (Dictionary.own o) ∪
    list_to_set (filter (fun key => key <> lit "__proto__") entries.*1).
Proof.
  revert o. induction entries as [| [k r] entries IH]; intros o.
  - cbn. by rewrite (right_id_L ∅ (∪)).
  - rewrite assign_all_cons, IH, assign_own.
    cbn [fmap list_fmap fst]. rewrite filter_cons.
    case_bool_decide as Hk.
    + by rewrite decide_False by (by intros Hne).
    + rewrite decide_True by done.
      rewrite dom_insert_L, list_to_set_cons.
      by rewrite (comm_L (∪) {[k]}), <- (assoc_L (∪)).
Qed.

(** The last assignment under a key decides what the object holds for it:
    the own property, or for ['__proto__'] the prototype. *)
Lemma assign_all_last entries1 key r entries2 o :
  key ∉ entries2.*1 ->
  (key <> lit "__proto__" ->
   Dictionary.own (Dictionary.assign_all (entries1 ++ (key, r) :: entries2) o)
     !! key = Some r) /\
  (key = lit "__proto__" ->
   Dictionary.prototype
     (Dictionary.assign_all (entries1 ++ (key, r) :: entries2) o) = Some r).
Proof.
  intros Hfresh. rewrite assign_all_app, assign_all_cons. split.
  - intros Hne. rewrite assign_all_own_fresh, assign_own by done.
    rewrite bool_decide_eq_false_2 by done. apply lookup_insert_eq.
  - intros ->. rewrite assign_all_prototype_fresh, assign_prototype by done.
    by rewrite bool_decide_eq_true_2.
Qed.

(** What holds of the object and of every assigned value holds of
    everything the object holds afterwards. *)
Lemma assign_all_Forall (P : R -> Prop) entries o :
  Forall (fun entry => P entry.2) entries ->
  map_Forall (fun _ r => P r) (Dictionary.own o) ->
  (forall r, Dictionary.prototype o = Some r -> P r) ->
  map_Forall (fun _ r => P r) (Dictionary.own (Dictionary.assign_all entries o)) /\
  (forall r,
     Dictionary.prototype (Dictionary.assign_all entries o) = Some r -> P r).
Proof.
  intros Hall. revert o.
  induction Hall as [| [k r] entries Hr _ IH]; intros o Hown Hproto; [done |].
  rewrite assign_all_cons. apply IH.
  - rewrite assign_own. case_bool_decide; [done |].
    by apply map_Forall_insert_2.
  - intros r'. rewrite assign_prototype. case_bool_decide; [| apply Hproto].
    by intros [= <-].
Qed.

(** No assignment creates an own property ['__proto__']. *)
Lemma assign_all_own_proto entries o :
  Dictionary.own (Dictionary.assign_all entries o) !! lit "__proto__" =
  Dictionary.own o !! lit "__proto__".
Proof.
  revert o. induction entries as [| [k r] entries IH]; intros o; [done |].
  rewrite assign_all_cons, IH, assign_own.
  case_bool_decide; [done |]. by apply lookup_insert_ne.
Qed.

Lemma merge_empty_l o : Dictionary.merge Dictionary.empty o = o.
Proof.
  destruct o as [own prototype]. unfold Dictionary.merge. cbn.
  by rewrite (left_id_L ∅ (∪)).
Qed.

Lemma merge_assign (m : Dictionary.t R) key r o :
  Dictionary.merge m (Dictionary.assign key r o) =
  Dictionary.merge (Dictionary.merge m (Dictionary.assign key r Dictionary.empty)) o.
Proof.
  destruct m as [own prototype].
  unfold Dictionary.merge, Dictionary.assign. cbn.
  case_bool_decide; cbn.
  - rewrite (right_id_L ∅ (∪)). by destruct prototype.
  - rewrite <- (assoc_L (∪)), <- insert_union_l, (left_id_L ∅ (∪)).
    by destruct prototype.
Qed.

(** Assigning into an object is assigning into the empty one and merging. *)
Lemma assign_all_merge entries o :
  Dictionary.assign_all entries o =
  Dictionary.merge (Dictionary.assign_all entries Dictionary.empty) o.
Proof.
  revert o. induction entries as [| [k r] entries IH]; intros o.
  - by rewrite merge_empty_l.
  - rewrite !assign_all_cons, (IH (Dictionary.assign k r o)),
      (IH (Dictionary.assign k r Dictionary.empty)).
    apply merge_assign.
Qed.

End DictionaryFacts.

(** ** [testAll] *)
Section Batch.
Context `{Runtime} {W : Type}.
Implicit Types (options : MutationTestOptions) (st : RunState W)
  (registry : gmap jsstring TypedMutationOperator)
  (tests : list (TestEntry.t W))
  (results : Dictionary.t MutationTestResult).

Lemma testAll_for_app registry pre rest options results st :
  MutationTestRunner.testAll_for registry (pre ++ rest) options results st =
  match MutationTestRunner.testAll_for registry pre options results st with
  | (Ok m, st1) => MutationTestRunner.testAll_for registry rest options m st1
  | (Throw e, st1) => (Throw e, st1)
  end.
Proof.
  revert results st. induction pre as [| t pre IH]; intros results st; [done |].
  cbn [app MutationTestRunner.testAll_for]. unfold bind.
  destruct (MutationTestRunner.test registry _ _ _ options st) as [[r | e] st1];
    [apply IH | reflexivity].
Qed.

(** A run of the loop that returns has made one assignment per entry, in
    the order of the entries, each of a result [test] returned. *)
Lemma testAll_for_ok_inv registry tests options results st o st' :
  MutationTestRunner.testAll_for registry tests options results st = (Ok o, st') ->
  exists entries,
    entries.*1 = TestEntry.name <$> tests /\
    Forall (fun entry => summary_consistent entry.2) entries /\
    o = Dictionary.assign_all entries results.
Proof.
  revert results st.
  induction tests as [| t tests IH]; intros results st Hrun.
  - cbn in Hrun. unfold ret in Hrun. injection Hrun as <- _. by exists [].
  - cbn [MutationTestRunner.testAll_for] in Hrun. unfold bind in Hrun.
    destruct (MutationTestRunner.test registry _ _ _ options st)
      as [[r | e] st1] eqn:Htest; [| discriminate].
    destruct (IH _ _ Hrun) as (entries & Hnames & Hall & ->).
    exists ((TestEntry.name t, r) :: entries).
    split; [cbn; by rewrite Hnames |]. split; [| reflexivity].
    constructor; [| done]. apply (test_consistent _ _ _ _ _ _ _ _ Htest).
Qed.

(** The validators of a batch are called on the mutations of their
    entries. *)
Lemma observe_batch_values registry tests (w : W) :
  Forall (setup_returns registry) tests ->
  Forall2
    (fun t obs =>
       MutationRegistry.mutate registry (TestEntry.value t) (TestEntry.type t)
         = Ok obs.*1)
    tests (observe_batch registry tests w).1.
Proof.
  intros Hall. revert w.
  induction Hall as [| t tests [mutations Hmut] _ IH]; intros w; [constructor |].
  cbn [observe_batch]. rewrite Hmut.
  pose proof (observe_fst (TestEntry.validator t) mutations w) as Hfst.
  destruct (observe (TestEntry.validator t) mutations w) as [obs w1].
  specialize (IH w1).
  destruct (observe_batch registry tests w1) as [more w2].
  cbn in *. constructor; [by rewrite Hfst | done].
Qed.

(** When producing the mutation list returns for every entry, the loop
    returns, whatever the validators do: every validator has been called on
    the mutations of its entry, and each entry's result has been assigned
    under its name. *)
Lemma testAll_for_spec registry tests options results st :
  Forall (setup_returns registry) tests ->
  MutationTestRunner.testAll_for registry tests options results st =
    (Ok (Dictionary.assign_all
           (batch_reports
              (timer_delay (MutationTestRunner.timeout_or_default options))
              tests (observe_batch registry tests (world st)).1)
           results),
     {| world := (observe_batch registry tests (world st)).2;
        invoked := invoked st ++ concat (observe_batch registry tests (world st)).1 |}).
Proof.
  intros Hall. revert results st.
  induction Hall as [| t tests [mutations Hmut] _ IH]; intros results st.
  - cbn. unfold ret. rewrite app_nil_r. by destruct st.
  - cbn [MutationTestRunner.testAll_for observe_batch]. unfold bind.
    destruct (test_returns registry _ _ (TestEntry.validator t) options st
                mutations Hmut) as (r & -> & Hvalue & Hms & Hsum).
    rewrite Hmut, IH. cbn [world invoked].
    destruct (observe (TestEntry.validator t) mutations (world st)) as [obs w1].
    cbn [fst snd] in *.
    destruct (observe_batch registry tests w1) as [more w2].
    cbn [fst snd concat batch_reports zip_with] in *.
    rewrite assign_all_cons, <- app_assoc.
    replace r with (report (TestEntry.value t)
                      (timer_delay (MutationTestRunner.timeout_or_default options))
                      obs); [reflexivity |].
    destruct r as [original results' sum]. unfold report. cbn in *.
    by rewrite Hvalue, Hsum, Hms.
Qed.

Lemma batch_reports_names (delay : N) tests
    (obs : list (list (JsValue * Settlement))) :
  length tests = length obs ->
  (batch_reports delay tests obs).*1 = TestEntry.name <$> tests.
Proof.
  revert obs. induction tests as [| t tests IH]; intros [| o obs] Hlen;
    try done.
  cbn. f_equal. apply IH. by injection Hlen.
Qed.

Lemma batch_reports_app (delay : N) (pre post : list (TestEntry.t W))
    (obs_pre obs_post : list (list (JsValue * Settlement))) :
  length pre = length obs_pre ->
  batch_reports delay (pre ++ post) (obs_pre ++ obs_post) =
  batch_reports delay pre obs_pre ++ batch_reports delay post obs_post.
Proof. intros Hlen. by apply zip_with_app. Qed.

End Batch.

(** C2: every result returned by [test] and by [testWithOperator], and
    every result held by the object [testAll] returns - as an own property
    or, for an entry named ['__proto__'], as its prototype - has a summary
    that is the fold over its own list of per-mutation results, with
    [total = length mutations], [caught + uncaught = total] and
    [errors <= caught]. *)
Theorem summary_is_consistent `{Runtime} {W : Type}
    (registry : gmap jsstring TypedMutationOperator)
    (value : JsValue) (ty : BaseType) (operator : TypedMutationOperator)
    (validator : JsValue -> W -> Settlement * W)
    (tests : list (TestEntry.t W))
    (options : MutationTestOptions) (st : RunState W) :
  (forall r st',
      MutationTestRunner.test registry value ty validator options st = (Ok r, st') ->
      summary_consistent r) /\
  (forall r st',
      MutationTestRunner.testWithOperator value operator validator options st
        = (Ok r, st') ->
      summary_consistent r) /\
  (forall m st',
      MutationTestRunner.testAll registry tests options st = (Ok m, st') ->
      (forall (testName : jsstring) r,
         Dictionary.own m !! testName = Some r -> summary_consistent r) /\
      (forall r, Dictionary.prototype m = Some r -> summary_consistent r)).
Proof.
  split; [| split].
  - intros r st'. apply test_consistent.
  - intros r st'. apply testWithOperator_consistent.
  - intros m st' Hrun.
    unfold MutationTestRunner.testAll in Hrun.
    destruct (testAll_for_ok_inv _ _ _ _ _ _ _ Hrun) as (entries & _ & Hall & ->).
    apply (assign_all_Forall summary_consistent entries Dictionary.empty Hall);
      [apply map_Forall_empty | discriminate].
Qed.

(** ** Exceptions that leave the runner *)




(** So does an operator whose [isApplicable] throws: the registry's
    [mutate], [test] and [testWithOperator] all pass the exception on. *)
Example isApplicable_can_throw :
  MutationRegistry.mutate
    (MutationRegistry.register Throwing.undecided ∅) VNull Throwing.type
    = Throw Throwing.boom /\
  @MutationTestRunner.testWithOperator Sample.runtime unit VNull
    Throwing.undecided Scenario.rejects Scenario.no_options Scenario.start =
    (Throw Throwing.boom, Scenario.start) /\
  @MutationTestRunner.test Sample.runtime unit
    (MutationRegistry.register Throwing.undecided ∅) VNull Throwing.type
    Scenario.rejects Scenario.no_options Scenario.start =
    (Throw Throwing.boom, Scenario.start).
Proof. repeat split. Qed.

(** C4 (as amended): [testAll] runs the entries in order.  When producing
    the mutation list returns normally for every entry, [testAll] returns,
    whatever the validators do: every entry has been executed - its
    validator called on each of its mutations, entry after entry - and
    reported - its result is what the returned object holds under the
    entry's name unless a later entry has the same name.  The object is a
    plain one: a result assigned under ['__proto__'] becomes its prototype
    and not an own property, so the own keys are the entries' names other
    than ['__proto__'].  When an entry's operator throws while the list is
    produced, [testAll] throws that error from the state reached after the
    entries before it: the later entries are not executed and no object is
    returned. *)
Theorem testAll_entries `{Runtime} {W : Type}
    (registry : gmap jsstring TypedMutationOperator)
    (tests : list (TestEntry.t W))
    (options : MutationTestOptions) (st : RunState W) :
  (Forall (setup_returns registry) tests ->
   exists o st',
     MutationTestRunner.testAll registry tests options st = (Ok o, st') /\
     world st' = (observe_batch registry tests (world st)).2 /\
     invoked st' =
       invoked st ++ concat (observe_batch registry tests (world st)).1 /\
     Forall2
       (fun t obs =>
          MutationRegistry.mutate registry (TestEntry.value t) (TestEntry.type t)
            = Ok obs.*1)
       tests (observe_batch registry tests (world st)).1 /\
     dom (Dictionary.own o) =
       list_to_set (filter (fun key => key <> lit "__proto__")
                      (TestEntry.name <$> tests)) /\
     (Dictionary.prototype o = None <->
        lit "__proto__" ∉ TestEntry.name <$> tests) /\
     forall pre t post,
       tests = pre ++ t :: post ->
       TestEntry.name t ∉ TestEntry.name <$> post ->
       exists obs,
         (observe_batch registry tests (world st)).1 !! length pre = Some obs /\
         (TestEntry.name t <> lit "__proto__" ->
          Dictionary.own o !! TestEntry.name t =
            Some (report (TestEntry.value t)
                    (timer_delay (MutationTestRunner.timeout_or_default options))
                    obs)) /\
         (TestEntry.name t = lit "__proto__" ->
          Dictionary.prototype o =
            Some (report (TestEntry.value t)
                    (timer_delay (MutationTestRunner.timeout_or_default options))
                    obs))) /\
  (forall pre t post e,
     tests = pre ++ t :: post ->
     Forall (setup_returns registry) pre ->
     MutationRegistry.mutate registry (TestEntry.value t) (TestEntry.type t)
       = Throw e ->
     exists m st',
       MutationTestRunner.testAll registry pre options st = (Ok m, st') /\
       MutationTestRunner.testAll registry tests options st = (Throw e, st')).
Proof.
  unfold MutationTestRunner.testAll. split.
  - intros Hall. rewrite (testAll_for_spec registry tests options _ st Hall).
    pose proof (observe_batch_values registry tests (world st) Hall) as Hvalues.
    pose proof (Forall2_length _ _ _ Hvalues) as Hlen.
    set (delay := timer_delay (MutationTestRunner.timeout_or_default options)).
    set (obs := (observe_batch registry tests (world st)).1) in *.
    eexists. eexists. split; [reflexivity |]. cbn [world invoked].
    split; [reflexivity |]. split; [reflexivity |]. split; [exact Hvalues |].
    split; [| split].
    + rewrite assign_all_dom, batch_reports_names by done. cbn.
      by rewrite dom_empty_L, (left_id_L ∅ (∪)).
    + split.
      * intros Hnone Hin.
        rewrite <- (batch_reports_names delay tests obs Hlen) in Hin.
        destruct (assign_all_prototype_set _ Dictionary.empty Hin) as [r Hr].
        rewrite Hr in Hnone. discriminate.
      * intros Hfresh. rewrite assign_all_prototype_fresh; [reflexivity |].
        by rewrite batch_reports_names.
    + intros pre t post Htests Hfresh.
      rewrite Htests in Hvalues.
      apply Forall2_app_inv_l in Hvalues
        as (obs_pre & obs_rest & Hpre & Hrest & Hobs).
      apply Forall2_cons_inv_l in Hrest as (o & obs_post & _ & Hpost & ->).
      pose proof (Forall2_length _ _ _ Hpre) as Hlen_pre.
      pose proof (Forall2_length _ _ _ Hpost) as Hlen_post.
      exists o. rewrite Hobs, Htests.
      split; [by rewrite Hlen_pre, list_lookup_middle |].
      rewrite batch_reports_app by done.
      cbn [batch_reports zip_with].
      apply assign_all_last.
      fold (batch_reports delay post obs_post).
      by rewrite batch_reports_names.
  - intros pre t post e -> Hpre Hthrow.
    rewrite (testAll_for_spec registry pre options _ st Hpre).
    eexists. eexists. split; [reflexivity |].
    rewrite testAll_for_app, (testAll_for_spec registry pre options _ st Hpre).
    cbn [MutationTestRunner.testAll_for]. unfold bind.
    by rewrite (test_throws _ _ _ _ _ _ e Hthrow).
Qed.

Lemma testAll_entries_witness :
  (exists o st',
     @MutationTestRunner.testAll Sample.runtime unit Scenario.registry
       Scenario.sound_batch Scenario.no_options Scenario.start = (Ok o, st') /\
     invoked st' =
       [ (VString [], Rejected 0 (VError (lit "invalid")));
         (VString (lit "abcX"), Rejected 0 (VError (lit "invalid")));
         (VString (lit "ab"), Rejected 0 (VError (lit "invalid")));
         (VString (lit "ABC"), Rejected 0 (VError (lit "invalid")));
         (VString (lit "abc"), Rejected 0 (VError (lit "invalid")));
         (VString (lit "cba"), Rejected 0 (VError (lit "invalid")));
         (VBool false, Fulfilled 0 (VBool false)) ] /\
     dom (Dictionary.own o) = list_to_set [lit "first"; lit "second"] /\
     Dictionary.own o !! lit "second" =
       Some {| originalValue := VBool true;
               mutations := [ {| value := VBool false; caught := true;
                                 error := None |} ];
               summary := {| Summary.total := 1; Summary.caught := 1;
                             Summary.uncaught := 0; Summary.errors := 0 |} |}) /\
  (exists m st',
     @MutationTestRunner.testAll Sample.runtime unit Scenario.registry
       [] Scenario.no_options Scenario.start = (Ok m, st') /\
     @MutationTestRunner.testAll Sample.runtime unit Scenario.registry
       Scenario.batch Scenario.no_options Scenario.start
       = (Throw Throwing.boom, st')).
Proof.
  split.
  - destruct (proj1 (@testAll_entries Sample.runtime unit Scenario.registry
                       Scenario.sound_batch Scenario.no_options Scenario.start))
      as (o & st' & Hrun & _ & Hlog & _ & Hdom & _ & Hheld).
    { repeat constructor; eexists; reflexivity. }
    exists o, st'. split; [exact Hrun |]. split; [exact Hlog |].
    split; [exact Hdom |].
    destruct (Hheld [List.hd Scenario.second Scenario.sound_batch]
                Scenario.second [] eq_refl (not_elem_of_nil _))
      as (obs & Hobs & Hown & _).
    injection Hobs as <-. apply Hown. discriminate.
  - apply (proj2 (@testAll_entries Sample.runtime unit Scenario.registry
                    Scenario.batch Scenario.no_options Scenario.start)
             [] Scenario.failing [Scenario.second] Throwing.boom);
      [reflexivity | constructor | reflexivity].
Defined.

(** C4 as stated fails: the first entry's operator throws, [testAll] throws
    with it, no validator has been invoked, and the second entry - which
    run on its own is reported - is neither executed nor reported. *)
Lemma testAll_setup_error_blocks :
  @MutationTestRunner.testAll Sample.runtime unit Scenario.registry
    Scenario.batch Scenario.no_options Scenario.start
    = (Throw Throwing.boom, Scenario.start) /\
  ~ (exists m st',
       @MutationTestRunner.testAll Sample.runtime unit Scenario.registry
         Scenario.batch Scenario.no_options Scenario.start = (Ok m, st') /\
       is_Some (Dictionary.own m !! lit "second")) /\
  (exists m st',
     @MutationTestRunner.testAll Sample.runtime unit Scenario.registry
       [Scenario.second] Scenario.no_options Scenario.start = (Ok m, st') /\
     is_Some (Dictionary.own m !! lit "second")).
Proof.
  assert (Hrun : @MutationTestRunner.testAll Sample.runtime unit Scenario.registry
            Scenario.batch Scenario.no_options Scenario.start
          = (Throw Throwing.boom, Scenario.start)) by (vm_compute; reflexivity).
  split; [exact Hrun |]. split.
  - intros (m & st' & Hok & _). rewrite Hrun in Hok. discriminate.
  - eexists. eexists. split; [reflexivity |].
    vm_compute. by eexists.
Qed.

(** An entry named ['__proto__'] is executed, but its result is not an own
    property of the returned object: it has become the object's prototype. *)
Example testAll_proto_entry :
  exists o st',
    @MutationTestRunner.testAll Sample.runtime unit Scenario.registry
      [Scenario.hidden] Scenario.no_options Scenario.start = (Ok o, st') /\
    invoked st' = [(VBool false, Fulfilled 0 (VBool false))] /\
    Dictionary.own o = ∅ /\
    is_Some (Dictionary.prototype o).
Proof. eexists. eexists. split; [reflexivity |]. repeat split. by eexists. Qed.

(** ** The effective timeout *)


(** The loops depend on the options through the effective timeout only. *)
Lemma test_for_timeout `{Runtime} {W : Type}
    (validator : JsValue -> W -> Settlement * W)
    (options options' : MutationTestOptions) (mutations : list JsValue)
    (results : list MutationResult) (st : RunState W) :
  MutationTestRunner.timeout_or_default options =
    MutationTestRunner.timeout_or_default options' ->
  MutationTestRunner.test_for validator options mutations results st =
  MutationTestRunner.test_for validator options' mutations results st.
Proof. intros Heq. by rewrite !test_for_spec, Heq. Qed.



(** The other falsy timeouts - an absent one, negative zero and NaN - also
    yield the default; a negative timeout is truthy and is used as given. *)
Example falsy_timeouts :
  MutationTestRunner.timeout_or_default Scenario.no_options = 5000%float /\
  MutationTestRunner.timeout_or_default (Scenario.with_timeout (-0)) = 5000%float /\
  MutationTestRunner.timeout_or_default (Scenario.with_timeout nan) = 5000%float /\
  MutationTestRunner.timeout_or_default (Scenario.with_timeout (-1)) = (-1)%float.
Proof. repeat split. Qed.

(** Under a timeout of 0 a validator that accepts after 3 ms is not timed
    out: the mutation is recorded as not caught, with no error. *)
Example zero_timeout_not_immediate :
  @MutationTestRunner.testWithOperator Sample.runtime unit (VBool true)
    BooleanMutator.operator (Scenario.accepts_after 3)
    (Scenario.with_timeout 0) Scenario.start =
  (Ok {| originalValue := VBool true;
         mutations := [ {| value := VBool false; caught := false; error := None |} ];
         summary := {| Summary.total := 1; Summary.caught := 0;
                       Summary.uncaught := 1; Summary.errors := 0 |} |},
   {| world := tt;
      invoked := [(VBool false, Fulfilled 3 (VBool true))] |}).
Proof. vm_compute. reflexivity. Qed.

(** ** The properties on concrete runs *)

Lemma validator_outcome_classified_witness :
  (exists r st',
     @MutationTestRunner.test Sample.runtime unit Scenario.registry (VBool true)
       BooleanMutator.type Scenario.throws Scenario.no_options Scenario.start
       = (Ok r, st') /\
     Forall2 (classified 5000)
       [(VBool false, Rejected 0 (VError (lit "invalid")))] (mutations r)) /\
  (exists r st',
     @MutationTestRunner.testWithOperator Sample.runtime unit (VBool true)
       BooleanMutator.operator Scenario.rejects Scenario.no_options Scenario.start
       = (Ok r, st') /\
     Forall2 (classified 5000)
       [(VBool false, Fulfilled 0 (VBool false))] (mutations r)).
Proof.
  split.
  - destruct (proj1 (@validator_outcome_classified Sample.runtime unit
                       Scenario.registry (VBool true) BooleanMutator.type
                       BooleanMutator.operator Scenario.throws
                       Scenario.no_options Scenario.start [VBool false])
                eq_refl) as (r & st' & Hrun & _ & _ & Hclass).
    exists r, st'. split; [exact Hrun | exact Hclass].
  - destruct (proj2 (@validator_outcome_classified Sample.runtime unit
                       Scenario.registry (VBool true) BooleanMutator.type
                       BooleanMutator.operator Scenario.rejects
                       Scenario.no_options Scenario.start [VBool false])
                eq_refl eq_refl) as (r & st' & Hrun & _ & _ & Hclass).
    exists r, st'. split; [exact Hrun | exact Hclass].
Defined.

Lemma summary_is_consistent_witness :
  exists r st',
    @MutationTestRunner.test Sample.runtime unit Scenario.registry
      (VString (lit "abc")) (@StringMutator.type) Scenario.throws
      Scenario.no_options Scenario.start = (Ok r, st') /\
    summary_consistent r.
Proof.
  eexists. eexists. split; [reflexivity |].
  eapply (proj1 (@summary_is_consistent Sample.runtime unit Scenario.registry
                   (VString (lit "abc")) (@StringMutator.type)
                   BooleanMutator.operator Scenario.throws [] Scenario.no_options
                   Scenario.start)).
  reflexivity.
Defined.

Lemma default_registry_mutate_nonempty_witness :
  (exists l,
     MutationRegistry.mutate (@MutationRegistry.new Sample.runtime true)
       (VString []) (type (@StringMutator.operator Sample.runtime)) = Ok l /\
     mutate (@StringMutator.operator Sample.runtime) (VString []) = Ok l /\
     (1 <= length l)%nat) /\
  (exists l,
     MutationRegistry.mutate (@MutationRegistry.new Sample.runtime true)
       (VArray []) (type ArrayMutator.operator) = Ok l /\
     mutate ArrayMutator.operator (VArray []) = Ok l /\
     (1 <= length l)%nat).
Proof.
  split.
  - apply (@default_registry_mutate_nonempty Sample.runtime
             (@StringMutator.operator Sample.runtime) (VString []));
      [| reflexivity].
    unfold builtin_operators.
    do 6 apply list_elem_of_further. apply list_elem_of_here.
  - apply (@default_registry_mutate_nonempty Sample.runtime
             ArrayMutator.operator (VArray []));
      [| reflexivity].
    unfold builtin_operators.
    do 7 apply list_elem_of_further. apply list_elem_of_here.
Defined.

Lemma test_eq_testWithOperator_witness :
  @MutationTestRunner.test Sample.runtime unit
    (@MutationRegistry.new Sample.runtime true) (VNumber 42)
    (type NumberMutator.operator) Scenario.rejects Scenario.no_options
    Scenario.start =
  @MutationTestRunner.testWithOperator Sample.runtime unit (VNumber 42)
    NumberMutator.operator Scenario.rejects Scenario.no_options Scenario.start.
Proof.
  apply (@test_eq_testWithOperator Sample.runtime unit
           (@MutationRegistry.new Sample.runtime true) (VNumber 42)
           NumberMutator.operator Scenario.rejects Scenario.no_options
           Scenario.start); reflexivity.
Defined.

(** ** Sample evaluations *)

Example Math_floor_samples :
  Math_floor 21.5 = 21%float /\ Math_floor (-3.5) = (-4)%float /\
  Math_floor 0.5 = 0%float /\ Math_floor (-0.5) = (-1)%float /\
  Math_floor (PrimFloat.div 42 2) = 21%float /\
  Math_floor 9007199254740992 = 9007199254740992%float /\
  Math_floor infinity = infinity.
Proof. repeat split. Qed.

(** The concrete runtime on known values: the Keccak-256 hash of the empty
    message, EIP-55 addresses, and string conversions. *)
Example Sample_runtime_samples :
  take 4 (Keccak.keccak256 []) = [0xc5; 0xd2; 0x46; 0x01]%N /\
  Sample.isAddress (lit "0x5aAeb6053F3E94C9b9A09f33669435E7Ef1BeAed") = true /\
  Sample.isAddress (lit "0x5aaeb6053f3e94c9b9a09f33669435e7ef1beaed") = true /\
  Sample.isAddress (lit "0x5AAEB6053F3E94C9B9A09F33669435E7EF1BEAED") = false /\
  Sample.isAddress (lit "0x5aAeb6053F3E94C9b9A09f33669435E7Ef1BeAe") = false /\
  Sample.ToString (VNumber 1) = lit "1" /\
  Sample.ToString (VNumber 0.5) = lit "0.5" /\
  Sample.ToString (VNumber 1e21) = lit "1e+21" /\
  Sample.ToString (VNumber (-1234.5)) = lit "-1234.5" /\
  Sample.ToString (VBigInt (-12)) = lit "-12" /\
  Sample.ToString (VArray [VNumber 1; VNull; VString (lit "a"); VArray []])
    = lit "1,,a," /\
  Sample.ToString (VObject [(lit "a", VNumber 1)]) = lit "[object Object]" /\
  Sample.ToString (VError (lit "boom")) = lit "Error: boom".
Proof. repeat split; vm_compute; reflexivity. Qed.

(** Of the five mutations of the README address, viem accepts two as
    addresses: the lower-case form, which the checksum rule lets pass, and
    the zero address. *)
Example AddressMutator_sample_validity :
  map Sample.isAddress
    (@AddressMutator.mutate Sample.runtime
       (lit "0xC02aaA39b223FE8D0A0e5C4F27eAD9083C756Cc2"))
  = [true; false; false; true; false].
Proof. vm_compute. reflexivity. Qed.

Example BooleanMutator_negates :
  BooleanMutator.mutate true = [false] /\ BooleanMutator.mutate false = [true].
Proof. split; reflexivity. Qed.

(** The address of the README example: five mutations, the second ending
    in a replaced last character, the fifth with [X] at index 10. *)
Example AddressMutator_sample :
  @AddressMutator.mutate Sample.runtime
    (lit "0xC02aaA39b223FE8D0A0e5C4F27eAD9083C756Cc2") =
  [ lit "0xc02aaa39b223fe8d0a0e5c4f27ead9083c756cc2";
    lit "0xC02aaA39b223FE8D0A0e5C4F27eAD9083C756Cc0";
    lit "0XC02aaA39b223FE8D0A0e5C4F27eAD9083C756Cc2";
    lit "0x0000000000000000000000000000000000000000";
    lit "0xC02aaA39X223FE8D0A0e5C4F27eAD9083C756Cc2" ].
Proof. vm_compute. reflexivity. Qed.

(** The degenerate string seed: every variant is constructed, none fails. *)
Example StringMutator_empty :
  @StringMutator.mutate Sample.runtime [] = [ []; lit "X"; []; []; []; [] ].
Proof. vm_compute. reflexivity. Qed.

(** Seed 42 under the Number type with the validator [v => v === 42]:
    eight mutations, all caught, none in error. *)
Example number_42_all_caught :
  exists r st',
    @MutationTestRunner.test Sample.runtime unit
      (@MutationRegistry.new Sample.runtime true) (VNumber 42)
      NumberMutator.type Scenario.is_42 Scenario.no_options Scenario.start
      = (Ok r, st') /\
    mutations r =
      map (fun x => {| value := VNumber x; caught := true; error := None |})
        [ 0; 43; 41; -42; 84; 21; 9007199254740991; -9007199254740991 ]%float /\
    summary r = {| Summary.total := 8; Summary.caught := 8;
                   Summary.uncaught := 0; Summary.errors := 0 |}.
Proof. eexists. eexists. split; [vm_compute; reflexivity |]. split; reflexivity. Qed.

(** A validator that throws on every input: every mutation is caught and
    carries the thrown error. *)
Example throwing_validator_all_errors :
  exists r st',
    @MutationTestRunner.test Sample.runtime unit
      (@MutationRegistry.new Sample.runtime true) (VString (lit "abc"))
      (@StringMutator.type) Scenario.throws Scenario.no_options Scenario.start
      = (Ok r, st') /\
    Forall (fun m => caught m = true /\ error m = Some (VError (lit "invalid")))
      (mutations r) /\
    summary r = {| Summary.total := 6; Summary.caught := 6;
                   Summary.uncaught := 0; Summary.errors := 6 |}.
Proof.
  eexists. eexists. split; [vm_compute; reflexivity |].
  split; [| reflexivity]. repeat constructor.
Qed.

(** A thrown value that is falsy is stored as the error but is not counted
    by [results.filter(r => r.error)]. *)
Example falsy_error_not_counted :
  exists r st',
    @MutationTestRunner.test Sample.runtime unit
      (@MutationRegistry.new Sample.runtime true) (VBool true)
      BooleanMutator.type (fun _ w => (Rejected 0 VUndefined, w))
      Scenario.no_options Scenario.start = (Ok r, st') /\
    mutations r =
      [ {| value := VBool false; caught := true; error := Some VUndefined |} ] /\
    summary r = {| Summary.total := 1; Summary.caught := 1;
                   Summary.uncaught := 0; Summary.errors := 0 |}.
Proof. eexists. eexists. split; [vm_compute; reflexivity |]. split; reflexivity. Qed.

(** * Further properties of the mutation subsystem *)

(** ** The registry as a map *)

(** X1: a registered operator is found under its type; registration under
    one name leaves the lookup under every other name as it was; and a
    second registration under the same name replaces the first (the last
    one wins), as if the first had never been made. *)
Theorem register_getOperator
    (operator operator' : TypedMutationOperator)
    (operators : gmap jsstring TypedMutationOperator) (ty : BaseType) :
  MutationRegistry.getOperator (MutationRegistry.register operator operators)
    (type operator) = Some operator /\
  (name ty <> name (type operator) ->
   MutationRegistry.getOperator (MutationRegistry.register operator operators) ty
     = MutationRegistry.getOperator operators ty) /\
  (name (type operator') = name (type operator) ->
   MutationRegistry.register operator'
     (MutationRegistry.register operator operators)
     = MutationRegistry.register operator' operators).
Proof.
  unfold MutationRegistry.getOperator, MutationRegistry.register.
  split; [apply lookup_insert_eq |]. split.
  - intros Hne. by apply lookup_insert_ne.
  - intros ->. apply insert_insert_eq.
Qed.

Lemma register_getOperator_witness :
  MutationRegistry.getOperator
    (MutationRegistry.register Throwing.operator ∅) BooleanMutator.type
    = MutationRegistry.getOperator ∅ BooleanMutator.type /\
  MutationRegistry.register BooleanMutator.operator
    (MutationRegistry.register
       (Build_TypedMutationOperator (lit "Other") BooleanMutator.type
          (fun _ => Ok true) (fun _ => Ok []))
       ∅)
  = MutationRegistry.register BooleanMutator.operator ∅.
Proof.
  split.
  - apply (proj1 (proj2 (register_getOperator Throwing.operator Throwing.operator
                           ∅ BooleanMutator.type))).
    vm_compute. discriminate.
  - apply (proj2 (proj2 (register_getOperator
                           (Build_TypedMutationOperator (lit "Other")
                              BooleanMutator.type (fun _ => Ok true) (fun _ => Ok []))
                           BooleanMutator.operator ∅ BooleanMutator.type))).
    reflexivity.
Defined.

Section DefaultContents.
Context `{Runtime}.

Lemma builtin_names :
  (fun operator => name (type operator)) <$> builtin_operators =
  [ lit "Address"; lit "BlockTag"; lit "BlockNumber"; lit "Hex32";
    lit "Boolean"; lit "Number"; lit "String"; lit "Array" ].
Proof. reflexivity. Qed.

Lemma builtin_names_NoDup :
  NoDup ((fun operator => name (type operator)) <$> builtin_operators).
Proof.
  rewrite builtin_names. apply (bool_decide_unpack _). vm_compute. reflexivity.
Qed.

Lemma default_dom :
  dom (MutationRegistry.new true) =
  list_to_set ((fun operator => name (type operator)) <$> builtin_operators).
Proof.
  unfold MutationRegistry.new, MutationRegistry.registerDefaults,
    MutationRegistry.register.
  rewrite !dom_insert_L, dom_empty_L. cbn.
  apply set_eq. intros k.
  rewrite !elem_of_union, !elem_of_singleton, elem_of_empty. tauto.
Qed.

Lemma default_lookup_inv (k : jsstring) (operator : TypedMutationOperator) :
  MutationRegistry.new true !! k = Some operator ->
  operator ∈ builtin_operators /\ name (type operator) = k.
Proof.
  unfold MutationRegistry.new, MutationRegistry.registerDefaults,
    MutationRegistry.register, builtin_operators.
  rewrite !lookup_insert_Some, lookup_empty.
  intros Hcases.
  repeat (destruct Hcases as [[<- <-] | [_ Hcases]];
          [split; [set_solver | reflexivity] |]).
  discriminate.
Qed.

End DefaultContents.

(** X2: the default registry holds exactly the eight built-in operators,
    each under the name of its own type: a lookup succeeds exactly for a
    descriptor carrying one of the eight names and yields that built-in;
    [getAllOperators] lists eight operators.  A registry built with
    [includeDefaults = false] holds none. *)
Theorem default_registry_contents `{Runtime} :
  (forall (ty : BaseType) (operator : TypedMutationOperator),
     MutationRegistry.getOperator (MutationRegistry.new true) ty = Some operator <->
     operator ∈ builtin_operators /\ name (type operator) = name ty) /\
  size (MutationRegistry.new true) = 8%nat /\
  length (MutationRegistry.getAllOperators (MutationRegistry.new true)) = 8%nat /\
  MutationRegistry.getAllOperators (MutationRegistry.new false) = [].
Proof.
  split; [| split; [| split]].
  - intros ty operator. unfold MutationRegistry.getOperator. split.
    + apply default_lookup_inv.
    + intros [Hin <-]. by apply default_lookup.
  - rewrite <- size_dom, default_dom.
    rewrite size_list_to_set by apply builtin_names_NoDup.
    reflexivity.
  - unfold MutationRegistry.getAllOperators.
    rewrite length_fmap, length_map_to_list.
    rewrite <- size_dom, default_dom.
    rewrite size_list_to_set by apply builtin_names_NoDup.
    reflexivity.
  - unfold MutationRegistry.getAllOperators, MutationRegistry.new.
    by rewrite map_to_list_empty.
Qed.

Lemma default_registry_contents_witness :
  MutationRegistry.getOperator (@MutationRegistry.new Sample.runtime true)
    (@TBoolean) = Some BooleanMutator.operator.
Proof.
  apply (proj1 (@default_registry_contents Sample.runtime) TBoolean
           BooleanMutator.operator).
  split; [| reflexivity].
  unfold builtin_operators.
  do 4 apply list_elem_of_further. apply list_elem_of_here.
Defined.

(** X3: the registry dispatches on the descriptor's name alone.  Two
    descriptors of the same name give the same mutations, and the
    descriptor's own [isValid] is never consulted: the stored operator's
    [isApplicable] decides.  So the [TBoolean] and [TString] descriptors of
    src/types/primitive.ts reach the Boolean and String operators of the
    default registry. *)
Theorem mutate_dispatches_by_name `{Runtime}
    (operators : gmap jsstring TypedMutationOperator)
    (value : JsValue) (d d' : BaseType) :
  (name d = name d' ->
   MutationRegistry.mutate operators value d =
   MutationRegistry.mutate operators value d') /\
  MutationRegistry.mutate (MutationRegistry.new true) value TBoolean =
    MutationRegistry.mutate (MutationRegistry.new true) value BooleanMutator.type /\
  MutationRegistry.mutate (MutationRegistry.new true) value TString =
    MutationRegistry.mutate (MutationRegistry.new true) value StringMutator.type.
Proof.
  split; [| split]; [| reflexivity | reflexivity].
  unfold MutationRegistry.mutate, MutationRegistry.getOperator.
  by intros ->.
Qed.

Lemma mutate_dispatches_by_name_witness :
  MutationRegistry.mutate (@MutationRegistry.new Sample.runtime true) (VBool true)
    {| name := lit "Boolean"; isValid := fun _ => false |} =
  MutationRegistry.mutate (@MutationRegistry.new Sample.runtime true) (VBool true)
    BooleanMutator.type.
Proof.
  apply (proj1 (@mutate_dispatches_by_name Sample.runtime
                  (@MutationRegistry.new Sample.runtime true) (VBool true)
                  {| name := lit "Boolean"; isValid := fun _ => false |}
                  BooleanMutator.type)).
  reflexivity.
Defined.

(** ** Testing without an applicable operator *)

(** X4: when no operator is stored under the type's name, or the stored
    one is not applicable to the seed, [test] validates the seed itself:
    the validator is invoked exactly once, on the seed, and the result holds
    exactly one entry, whose value is the seed.  A validator that accepts
    the seed in time thereby yields [uncaught = 1]. *)
Theorem test_without_operator `{Runtime} {W : Type}
    (registry : gmap jsstring TypedMutationOperator)
    (seed : JsValue) (ty : BaseType)
    (validator : JsValue -> W -> Settlement * W)
    (options : MutationTestOptions) (st : RunState W) :
  (registry !! name ty = None \/
   exists operator,
     registry !! name ty = Some operator /\ isApplicable operator seed = Ok false) ->
  exists r,
    MutationTestRunner.test registry seed ty validator options st =
      (Ok r,
       {| world := (validator seed (world st)).2;
          invoked := invoked st ++ [(seed, (validator seed (world st)).1)] |}) /\
    (exists entry, mutations r = [entry] /\ value entry = seed) /\
    Summary.total (summary r) = 1%nat /\
    (forall at_ms v,
       (validator seed (world st)).1 = Fulfilled at_ms v ->
       (at_ms <= timer_delay (MutationTestRunner.timeout_or_default options))%N ->
       ToBoolean v = true ->
       Summary.uncaught (summary r) = 1%nat /\ Summary.caught (summary r) = 0%nat).
Proof.
  intros Hmiss.
  assert (Hmut : MutationRegistry.mutate registry seed ty = Ok [seed]).
  { unfold MutationRegistry.mutate, MutationRegistry.getOperator.
    destruct Hmiss as [-> | (operator & -> & ->)]; reflexivity. }
  destruct (test_returns registry seed ty validator options st [seed] Hmut)
    as (r & Hrun & _ & Hms & Hsum).
  cbn [observe] in Hrun, Hms.
  destruct (validator seed (world st)) as [settled w1] eqn:Hcall.
  cbn [fst snd map] in *.
  exists r. split; [exact Hrun |].
  split; [eexists; split; [exact Hms |]; unfold attempt; cbn;
          by destruct (Promise_race settled _) |].
  rewrite Hsum, Hms. split; [reflexivity |].
  intros at_ms v -> Hle Htruthy.
  unfold summary_fold, count_into, attempt. cbn.
  apply N.leb_le in Hle. rewrite Hle. cbn. by rewrite Htruthy.
Qed.

Lemma test_without_operator_witness :
  exists r,
    @MutationTestRunner.test Sample.runtime unit ∅ (VNumber 42) NumberMutator.type
      Scenario.is_42 Scenario.no_options Scenario.start =
      (Ok r, {| world := tt;
                invoked := [(VNumber 42, Fulfilled 0 (VBool true))] |}) /\
    Summary.uncaught (summary r) = 1%nat.
Proof.
  destruct (@test_without_operator Sample.runtime unit ∅ (VNumber 42)
              NumberMutator.type Scenario.is_42 Scenario.no_options Scenario.start
              (or_introl (lookup_empty _))) as (r & Hrun & _ & _ & Hacc).
  exists r. split; [exact Hrun |].
  apply (Hacc 0%N (VBool true) eq_refl); [vm_compute; discriminate | reflexivity].
Defined.

(** X5: [EthereumTester.mutationTest] always runs against a fresh default
    registry, so for a descriptor whose name is none of the eight built-in
    names - among them [THex], [TNull] and the five object types of
    src/types/object.ts - no mutation is generated: the only value handed to
    the validator is the seed. *)
Theorem mutationTest_without_operator `{Runtime} {W : Type}
    (seed : JsValue) (ty : BaseType)
    (validator : JsValue -> W -> Settlement * W)
    (options : option MutationTestOptions) (st : RunState W) :
  Forall (fun ty => name ty ∉ dom (MutationRegistry.new true))
    types_without_operator /\
  (name ty ∉ dom (MutationRegistry.new true) ->
   exists r entry,
     EthereumTester.mutationTest seed ty validator options st =
       (Ok r,
        {| world := (validator seed (world st)).2;
           invoked := invoked st ++ [(seed, (validator seed (world st)).1)] |}) /\
     mutations r = [entry] /\ value entry = seed).
Proof.
  split.
  - rewrite default_dom, builtin_names. unfold types_without_operator.
    repeat (apply Forall_cons; split;
            [rewrite elem_of_list_to_set; apply (bool_decide_unpack _);
             vm_compute; reflexivity |]).
    apply Forall_nil_2.
  - intros Hname. apply not_elem_of_dom in Hname.
    unfold EthereumTester.mutationTest, MutationTestRunner.createDefaultRunner.
    destruct (test_returns (MutationRegistry.new true) seed ty validator
                (default {| timeout := None; verbose := None |} options) st [seed])
      as (r & Hrun & _ & Hms & _).
    { unfold MutationRegistry.mutate, MutationRegistry.getOperator.
      by rewrite Hname. }
    cbn [observe] in Hrun, Hms.
    destruct (validator seed (world st)) as [settled w1].
    cbn [fst snd map] in *.
    exists r. eexists. split; [exact Hrun |]. split; [exact Hms |].
    unfold attempt. cbn. by destruct (Promise_race settled _).
Qed.

Lemma mutationTest_without_operator_witness :
  exists r entry,
    @EthereumTester.mutationTest Sample.runtime unit (VObject [])
      (@TBlock) Scenario.rejects None Scenario.start =
      (Ok r, {| world := tt;
                invoked := [(VObject [], Fulfilled 0 (VBool false))] |}) /\
    mutations r = [entry] /\ value entry = VObject [].
Proof.
  apply (proj2 (@mutationTest_without_operator Sample.runtime unit (VObject [])
                  (@TBlock) Scenario.rejects None Scenario.start)).
  rewrite default_dom, builtin_names, elem_of_list_to_set.
  apply (bool_decide_unpack _). vm_compute. reflexivity.
Defined.

(** ** Validators that always answer alike *)
Section Uniform.
Context `{Runtime} {W : Type}.
Implicit Types (validator : JsValue -> W -> Settlement * W)
  (options : MutationTestOptions) (st : RunState W)
  (registry : gmap jsstring TypedMutationOperator).

(** What holds of every single call holds of every recorded call. *)
Lemma observe_Forall validator (P : JsValue * Settlement -> Prop) :
  (forall mutation w, P (mutation, (validator mutation w).1)) ->
  forall mutations w, Forall P (observe validator mutations w).1.
Proof.
  intros Hall mutations.
  induction mutations as [| mutation rest IH]; intros w; [constructor |].
  cbn. specialize (Hall mutation w).
  destruct (validator mutation w) as [settled w1]. specialize (IH w1).
  destruct (observe validator rest w1) as [obs w2]. by constructor.
Qed.

(** A returned result lists the attempts on the mutations the registry
    produced. *)
Lemma test_ok_inv registry seed ty validator options st r st' :
  MutationTestRunner.test registry seed ty validator options st = (Ok r, st') ->
  exists mutations,
    MutationRegistry.mutate registry seed ty = Ok mutations /\
    Base.mutations r =
      map (attempt (timer_delay (MutationTestRunner.timeout_or_default options)))
        (observe validator mutations (world st)).1 /\
    summary r = summary_fold (Base.mutations r).
Proof.
  intros Hrun.
  destruct (MutationRegistry.mutate registry seed ty) as [mutations | e] eqn:Hmut.
  - destruct (test_returns registry seed ty validator options st mutations Hmut)
      as (r' & Hrun' & _ & Hms & Hsum).
    rewrite Hrun' in Hrun. injection Hrun as -> _. by exists mutations.
  - by rewrite (test_throws _ _ _ _ _ _ e Hmut) in Hrun.
Qed.

Lemma summary_fold_uniform (results : list MutationResult) (c e : bool) :
  Forall (fun r => caught r = c /\ MutationTestRunner.has_error r = e) results ->
  Summary.caught (summary_fold results) = (if c then length results else 0%nat) /\
  Summary.uncaught (summary_fold results) = (if c then 0%nat else length results) /\
  Summary.errors (summary_fold results) = (if e then length results else 0%nat).
Proof.
  induction 1 as [| r results [Hc He] _ (IHc & IHu & IHe)];
    [by destruct c, e |].
  unfold summary_fold in *. cbn. rewrite Hc, He, IHc, IHu, IHe.
  by destruct c, e.
Qed.

Lemma attempts_uniform validator options mutations (w : W)
    (Q : MutationResult -> Prop) :
  (forall mutation w',
     Q (attempt (timer_delay (MutationTestRunner.timeout_or_default options))
          (mutation, (validator mutation w').1))) ->
  Forall Q
    (map (attempt (timer_delay (MutationTestRunner.timeout_or_default options)))
       (observe validator mutations w).1).
Proof.
  intros Hall. apply Forall_fmap.
  apply (observe_Forall validator
           (fun o => Q (attempt _ o)) Hall mutations w).
Qed.

End Uniform.

(** X6: a validator that on every input settles in time with a truthy
    value makes every mutation uncaught ([caught = 0], [uncaught = total],
    [errors = 0]); one that always settles in time with a falsy value -
    [false], but also [undefined], [null], [0] or the empty string - makes
    every mutation caught, with no error recorded. *)
Theorem uniform_answers `{Runtime} {W : Type}
    (registry : gmap jsstring TypedMutationOperator)
    (seed : JsValue) (ty : BaseType)
    (validator : JsValue -> W -> Settlement * W)
    (options : MutationTestOptions) (st st' : RunState W)
    (r : MutationTestResult) (answer : bool) :
  MutationTestRunner.test registry seed ty validator options st = (Ok r, st') ->
  (forall mutation w, exists at_ms v,
      (validator mutation w).1 = Fulfilled at_ms v /\
      (at_ms <= timer_delay (MutationTestRunner.timeout_or_default options))%N /\
      ToBoolean v = answer) ->
  Forall (fun entry => caught entry = negb answer /\ error entry = None)
    (mutations r) /\
  Summary.caught (summary r) = (if answer then 0 else Summary.total (summary r))%nat /\
  Summary.uncaught (summary r) = (if answer then Summary.total (summary r) else 0)%nat /\
  Summary.errors (summary r) = 0%nat.
Proof.
  intros Hrun Hall.
  destruct (test_ok_inv _ _ _ _ _ _ _ _ Hrun) as (mutations & _ & Hms & Hsum).
  assert (Hentries :
    Forall (fun entry => caught entry = negb answer /\ error entry = None)
      (Base.mutations r)).
  { rewrite Hms. apply attempts_uniform. intros mutation w.
    destruct (Hall mutation w) as (at_ms & v & -> & Hle & <-).
    unfold attempt. cbn. apply N.leb_le in Hle. by rewrite Hle. }
  split; [exact Hentries |].
  rewrite Hsum.
  destruct (summary_fold_uniform (Base.mutations r) (negb answer) false)
    as (Hc & Hu & He).
  { eapply Forall_impl; [exact Hentries |].
    intros entry [-> Hnone]. unfold MutationTestRunner.has_error.
    by rewrite Hnone. }
  destruct (summary_fold_total (Base.mutations r)) as [-> _].
  rewrite Hc, Hu, He. by destruct answer.
Qed.

Lemma uniform_answers_witness :
  exists r st',
    @MutationTestRunner.test Sample.runtime unit
      (@MutationRegistry.new Sample.runtime true) (VNumber 42) NumberMutator.type
      (fun _ w => (Fulfilled 2 VUndefined, w)) Scenario.no_options Scenario.start
      = (Ok r, st') /\
    Summary.caught (summary r) = Summary.total (summary r) /\
    Summary.errors (summary r) = 0%nat.
Proof.
  eexists. eexists. split; [reflexivity |].
  destruct (@uniform_answers Sample.runtime unit
              (@MutationRegistry.new Sample.runtime true) (VNumber 42)
              NumberMutator.type (fun _ w => (Fulfilled 2 VUndefined, w))
              Scenario.no_options Scenario.start _ _ false eq_refl)
    as (_ & Hc & _ & He).
  - intros mutation w. exists 2%N, VUndefined.
    split; [reflexivity |]. split; [vm_compute; discriminate | reflexivity].
  - split; [exact Hc | exact He].
Defined.

(** X7: a validator that throws (or rejects) in time on every input, with
    a truthy thrown value such as an [Error], and likewise a validator that
    never settles before the timer, makes every mutation caught with an
    error recorded - the thrown value, respectively the Timeout error - so
    that [caught = errors = total] and [uncaught = 0]. *)
Theorem uniform_failures `{Runtime} {W : Type}
    (registry : gmap jsstring TypedMutationOperator)
    (seed : JsValue) (ty : BaseType)
    (validator : JsValue -> W -> Settlement * W)
    (options : MutationTestOptions) (st st' : RunState W)
    (r : MutationTestResult) :
  MutationTestRunner.test registry seed ty validator options st = (Ok r, st') ->
  (forall mutation w,
      (exists at_ms e,
         (validator mutation w).1 = Rejected at_ms e /\
         (at_ms <= timer_delay (MutationTestRunner.timeout_or_default options))%N /\
         ToBoolean e = true) \/
      timer_first (timer_delay (MutationTestRunner.timeout_or_default options))
        (validator mutation w).1) ->
  Forall (fun entry =>
            caught entry = true /\
            exists e, error entry = Some e /\ ToBoolean e = true)
    (mutations r) /\
  Summary.caught (summary r) = Summary.total (summary r) /\
  Summary.uncaught (summary r) = 0%nat /\
  Summary.errors (summary r) = Summary.total (summary r).
Proof.
  intros Hrun Hall.
  destruct (test_ok_inv _ _ _ _ _ _ _ _ Hrun) as (mutations & _ & Hms & Hsum).
  assert (Hentries :
    Forall (fun entry =>
              caught entry = true /\
              exists e, error entry = Some e /\ ToBoolean e = true)
      (Base.mutations r)).
  { rewrite Hms. apply attempts_uniform. intros mutation w.
    destruct (Hall mutation w) as [(at_ms & e & -> & Hle & Htruthy) | Hfirst].
    - unfold attempt. cbn. apply N.leb_le in Hle. rewrite Hle. eauto.
    - unfold attempt. cbn [fst snd].
      destruct ((validator mutation w).1) as [at_ms v | at_ms e |]; cbn in *;
        try (apply N.leb_gt in Hfirst; rewrite Hfirst);
        (split; [reflexivity | by exists Timeout]). }
  split; [exact Hentries |].
  rewrite Hsum.
  destruct (summary_fold_uniform (Base.mutations r) true true) as (Hc & Hu & He).
  { eapply Forall_impl; [exact Hentries |].
    intros entry [-> (e & Herr & Htruthy)]. unfold MutationTestRunner.has_error.
    by rewrite Herr. }
  destruct (summary_fold_total (Base.mutations r)) as [-> _].
  by rewrite Hc, Hu, He.
Qed.

Lemma uniform_failures_witness :
  exists r st',
    @MutationTestRunner.test Sample.runtime unit
      (@MutationRegistry.new Sample.runtime true) (VNumber 42) NumberMutator.type
      (fun _ w => (Pending, w)) Scenario.no_options Scenario.start
      = (Ok r, st') /\
    Summary.errors (summary r) = Summary.total (summary r).
Proof.
  eexists. eexists. split; [reflexivity |].
  destruct (@uniform_failures Sample.runtime unit
              (@MutationRegistry.new Sample.runtime true) (VNumber 42)
              NumberMutator.type (fun _ w => (Pending, w))
              Scenario.no_options Scenario.start _ _ eq_refl)
    as (_ & _ & _ & He).
  - intros mutation w. right. exact I.
  - exact He.
Defined.

(** ** What the options can change *)
Section Options.
Context `{Runtime} {W : Type}.
Implicit Types (options : MutationTestOptions) (st : RunState W)
  (registry : gmap jsstring TypedMutationOperator).

Lemma test_timeout_congr registry seed ty
    (validator : JsValue -> W -> Settlement * W) options options' st :
  MutationTestRunner.timeout_or_default options =
    MutationTestRunner.timeout_or_default options' ->
  MutationTestRunner.test registry seed ty validator options st =
  MutationTestRunner.test registry seed ty validator options' st.
Proof.
  intros Heq. unfold MutationTestRunner.test, bind.
  destruct (lift _ st) as [[mutations | e] st1]; [| reflexivity].
  by rewrite (test_for_timeout validator options options').
Qed.

Lemma testAll_for_timeout_congr registry (tests : list (TestEntry.t W))
    options options' (results : Dictionary.t MutationTestResult) st :
  MutationTestRunner.timeout_or_default options =
    MutationTestRunner.timeout_or_default options' ->
  MutationTestRunner.testAll_for registry tests options results st =
  MutationTestRunner.testAll_for registry tests options' results st.
Proof.
  intros Heq. revert results st.
  induction tests as [| t tests IH]; intros results st; [reflexivity |].
  cbn [MutationTestRunner.testAll_for]. unfold bind.
  rewrite (test_timeout_congr registry _ _ _ options options' st Heq).
  destruct (MutationTestRunner.test registry _ _ _ options' st) as [[r | e] st1];
    [apply IH | reflexivity].
Qed.

End Options.

(** X8: the options influence [test], [testWithOperator] and [testAll]
    through the effective timeout [options.timeout || 5000] only: two
    option objects with the same effective timeout give the same outcome.
    In particular [verbose] has no effect, and leaving the timeout out is
    the same as passing 5000. *)
Theorem options_act_through_timeout `{Runtime} {W : Type}
    (registry : gmap jsstring TypedMutationOperator)
    (seed : JsValue) (ty : BaseType) (operator : TypedMutationOperator)
    (validator : JsValue -> W -> Settlement * W)
    (tests : list (TestEntry.t W))
    (options options' : MutationTestOptions) (st : RunState W) :
  MutationTestRunner.timeout_or_default options =
    MutationTestRunner.timeout_or_default options' ->
  MutationTestRunner.test registry seed ty validator options st =
    MutationTestRunner.test registry seed ty validator options' st /\
  MutationTestRunner.testWithOperator seed operator validator options st =
    MutationTestRunner.testWithOperator seed operator validator options' st /\
  MutationTestRunner.testAll registry tests options st =
    MutationTestRunner.testAll registry tests options' st.
Proof.
  intros Heq. split; [by apply test_timeout_congr |]. split.
  - unfold MutationTestRunner.testWithOperator, bind, lift.
    destruct (isApplicable operator seed) as [[|] | e]; cbn [negb];
      [| reflexivity | reflexivity].
    destruct (mutate operator seed) as [mutations | e]; [| reflexivity].
    rewrite !testWithOperator_for_eq.
    by rewrite (test_for_timeout validator options options').
  - unfold MutationTestRunner.testAll. by apply testAll_for_timeout_congr.
Qed.

Lemma options_act_through_timeout_witness :
  @MutationTestRunner.test Sample.runtime unit
    (@MutationRegistry.new Sample.runtime true) (VBool true) BooleanMutator.type
    Scenario.rejects {| timeout := None; verbose := Some true |} Scenario.start =
  @MutationTestRunner.test Sample.runtime unit
    (@MutationRegistry.new Sample.runtime true) (VBool true) BooleanMutator.type
    Scenario.rejects {| timeout := Some 5000%float; verbose := None |}
    Scenario.start.
Proof.
  apply (@options_act_through_timeout Sample.runtime unit
           (@MutationRegistry.new Sample.runtime true) (VBool true)
           BooleanMutator.type BooleanMutator.operator Scenario.rejects []
           {| timeout := None; verbose := Some true |}
           {| timeout := Some 5000%float; verbose := None |} Scenario.start).
  reflexivity.
Defined.

(** ** Batches *)
Section BatchComposition.
Context `{Runtime} {W : Type}.
Implicit Types (options : MutationTestOptions) (st : RunState W)
  (registry : gmap jsstring TypedMutationOperator)
  (tests : list (TestEntry.t W))
  (results : Dictionary.t MutationTestResult).

(** The loop only ever adds to, or overwrites in, the object it was
    started with. *)
Lemma testAll_for_merge registry tests options results st :
  MutationTestRunner.testAll_for registry tests options results st =
  match MutationTestRunner.testAll_for registry tests options Dictionary.empty st with
  | (Ok m, st') => (Ok (Dictionary.merge m results), st')
  | (Throw e, st') => (Throw e, st')
  end.
Proof.
  revert results st.
  induction tests as [| t tests IH]; intros results st.
  - cbn. unfold ret. by rewrite merge_empty_l.
  - cbn [MutationTestRunner.testAll_for]. unfold bind.
    destruct (MutationTestRunner.test registry _ _ _ options st) as [[r | e] st1];
      [| reflexivity].
    rewrite (IH (Dictionary.assign (TestEntry.name t) r results)).
    rewrite (IH (Dictionary.assign (TestEntry.name t) r Dictionary.empty)).
    destruct (MutationTestRunner.testAll_for registry tests options
                Dictionary.empty st1) as [[m | e] st2]; [| reflexivity].
    by rewrite merge_assign.
Qed.

(** What a returned object holds that the entries' names do not account
    for is what the loop was started with. *)
Lemma testAll_for_fresh registry tests options results st o st' :
  MutationTestRunner.testAll_for registry tests options results st = (Ok o, st') ->
  (forall key, key ∉ TestEntry.name <$> tests ->
     Dictionary.own o !! key = Dictionary.own results !! key) /\
  (lit "__proto__" ∉ TestEntry.name <$> tests ->
     Dictionary.prototype o = Dictionary.prototype results) /\
  Dictionary.own o !! lit "__proto__" = Dictionary.own results !! lit "__proto__".
Proof.
  intros Hrun.
  destruct (testAll_for_ok_inv _ _ _ _ _ _ _ Hrun) as (entries & Hnames & _ & ->).
  rewrite <- Hnames. split; [| split].
  - intros key. apply assign_all_own_fresh.
  - apply assign_all_prototype_fresh.
  - apply assign_all_own_proto.
Qed.

End BatchComposition.

(** X9: [testAll] on a concatenated batch is [testAll] on the first part
    followed, from the state it leaves, by [testAll] on the second part; the
    returned objects are merged with the second part's result winning under
    a shared name - as own property, and for ['__proto__'] as prototype. *)
Theorem testAll_app `{Runtime} {W : Type}
    (registry : gmap jsstring TypedMutationOperator)
    (pre post : list (TestEntry.t W)) (options : MutationTestOptions)
    (st st1 st2 : RunState W) (m1 m2 : Dictionary.t MutationTestResult) :
  MutationTestRunner.testAll registry pre options st = (Ok m1, st1) ->
  MutationTestRunner.testAll registry post options st1 = (Ok m2, st2) ->
  MutationTestRunner.testAll registry (pre ++ post) options st
    = (Ok (Dictionary.merge m2 m1), st2).
Proof.
  unfold MutationTestRunner.testAll. intros Hpre Hpost.
  by rewrite testAll_for_app, Hpre, testAll_for_merge, Hpost.
Qed.

Lemma testAll_app_witness :
  exists m1 m2 st2,
    @MutationTestRunner.testAll Sample.runtime unit Scenario.registry
      (Scenario.sound_batch ++ [Scenario.second]) Scenario.no_options
      Scenario.start = (Ok (Dictionary.merge m2 m1), st2).
Proof.
  eexists. eexists. eexists.
  eapply (@testAll_app Sample.runtime unit Scenario.registry Scenario.sound_batch
            [Scenario.second] Scenario.no_options Scenario.start);
    reflexivity.
Defined.

(** X10: an entry's result is what the returned object holds under its
    name as long as no later entry has the same name - whether or not an
    earlier one has: of several entries of one name the last one wins.  The
    result is that of [test] run on the entry from the state the earlier
    entries left.  The object holds it as the own property of that name;
    only for an entry named ['__proto__'] it holds it as its prototype, and
    has no own property of that name. *)
Theorem testAll_last_wins `{Runtime} {W : Type}
    (registry : gmap jsstring TypedMutationOperator)
    (pre post : list (TestEntry.t W)) (t : TestEntry.t W)
    (options : MutationTestOptions)
    (st st1 st2 st3 : RunState W) (m1 m3 : Dictionary.t MutationTestResult)
    (r : MutationTestResult) :
  MutationTestRunner.testAll registry pre options st = (Ok m1, st1) ->
  MutationTestRunner.test registry (TestEntry.value t) (TestEntry.type t)
    (TestEntry.validator t) options st1 = (Ok r, st2) ->
  MutationTestRunner.testAll registry post options st2 = (Ok m3, st3) ->
  TestEntry.name t ∉ TestEntry.name <$> post ->
  exists m,
    MutationTestRunner.testAll registry (pre ++ t :: post) options st
      = (Ok m, st3) /\
    (TestEntry.name t <> lit "__proto__" ->
     Dictionary.own m !! TestEntry.name t = Some r) /\
    (TestEntry.name t = lit "__proto__" ->
     Dictionary.prototype m = Some r /\
     Dictionary.own m !! TestEntry.name t = None).
Proof.
  unfold MutationTestRunner.testAll. intros Hpre Htest Hpost Hfresh.
  rewrite testAll_for_app, Hpre.
  cbn [MutationTestRunner.testAll_for]. unfold bind. rewrite Htest.
  rewrite testAll_for_merge, Hpost.
  destruct (testAll_for_fresh _ _ _ _ _ _ _ Hpost) as (Hown & Hproto & _).
  destruct (testAll_for_fresh _ _ _ _ _ _ _ Hpre) as (_ & _ & Hnone).
  eexists. split; [reflexivity |].
  unfold Dictionary.merge, Dictionary.assign. cbn [Dictionary.own Dictionary.prototype].
  split.
  - intros Hne. rewrite bool_decide_eq_false_2 by done.
    cbn [Dictionary.own]. apply lookup_union_Some_raw. right.
    split; [by rewrite Hown | apply lookup_insert_eq].
  - intros Hname. rewrite bool_decide_eq_true_2 by done.
    cbn [Dictionary.own Dictionary.prototype].
    rewrite Hname in Hfresh. rewrite (Hproto Hfresh). cbn.
    split; [reflexivity |].
    rewrite Hname. apply lookup_union_None_2; [by rewrite Hown | by rewrite Hnone].
Qed.

Lemma testAll_last_wins_witness :
  exists m,
    @MutationTestRunner.testAll Sample.runtime unit Scenario.registry
      ([ {| TestEntry.name := lit "second"; TestEntry.value := VBool false;
            TestEntry.type := BooleanMutator.type;
            TestEntry.validator := Scenario.rejects |} ]
       ++ Scenario.second :: [])
      Scenario.no_options Scenario.start
      = (Ok m, {| world := tt;
                  invoked := [ (VBool true, Fulfilled 0 (VBool false));
                               (VBool false, Fulfilled 0 (VBool false)) ] |}) /\
    Dictionary.own m !! lit "second" =
      Some {| originalValue := VBool true;
              mutations := [ {| value := VBool false; caught := true;
                                error := None |} ];
              summary := {| Summary.total := 1; Summary.caught := 1;
                            Summary.uncaught := 0; Summary.errors := 0 |} |}.
Proof.
  destruct (@testAll_last_wins Sample.runtime unit Scenario.registry
              [ {| TestEntry.name := lit "second"; TestEntry.value := VBool false;
                   TestEntry.type := BooleanMutator.type;
                   TestEntry.validator := Scenario.rejects |} ]
              [] Scenario.second Scenario.no_options Scenario.start
              _ _ _ _ _ _ eq_refl eq_refl eq_refl (not_elem_of_nil _))
    as (m & Hrun & Hown & _).
  exists m. split; [exact Hrun |]. apply Hown. discriminate.
Defined.

(** The same batch with both entries named ['__proto__']: both are
    executed, the returned object has no own property at all, and its
    prototype is the second entry's result. *)
Example testAll_last_proto_wins :
  exists m st',
    @MutationTestRunner.testAll Sample.runtime unit Scenario.registry
      [ {| TestEntry.name := lit "__proto__"; TestEntry.value := VBool false;
           TestEntry.type := BooleanMutator.type;
           TestEntry.validator := Scenario.rejects |};
        Scenario.hidden ]
      Scenario.no_options Scenario.start = (Ok m, st') /\
    length (invoked st') = 2%nat /\
    Dictionary.own m = ∅ /\
    originalValue <$> Dictionary.prototype m = Some (VBool true).
Proof. eexists. eexists. split; [reflexivity |]. repeat split. Qed.

(** ** Shapes of the built-in mutations *)
Section Substring.

Lemma substring_prefix (s : jsstring) (n : Z) :
  0 <= n -> substring s 0 n = take (Z.to_nat n) s.
Proof.
  intros Hn. unfold substring, clamp_index.
  pose proof (Nat2Z.is_nonneg (length s)) as Hlen.
  replace (Z.min (Z.max 0 0) (Z.of_nat (length s))) with 0 by lia.
  replace (Z.min 0 (Z.min (Z.max n 0) (Z.of_nat (length s)))) with 0 by lia.
  replace (Z.max 0 (Z.min (Z.max n 0) (Z.of_nat (length s))) - 0)
    with (Z.min n (Z.of_nat (length s))) by lia.
  cbn [Z.to_nat drop].
  destruct (Z.le_gt_cases n (Z.of_nat (length s))) as [Hle | Hgt].
  - by rewrite Z.min_l by lia.
  - rewrite Z.min_r, Nat2Z.id by lia.
    rewrite (take_ge s (Z.to_nat n)) by lia. apply take_ge. lia.
Qed.

Lemma substring_from_suffix (s : jsstring) (n : Z) :
  0 <= n -> substring_from s n = drop (Z.to_nat n) s.
Proof.
  intros Hn. unfold substring_from, substring, clamp_index.
  pose proof (Nat2Z.is_nonneg (length s)) as Hlen.
  replace (Z.min (Z.max (Z.of_nat (length s)) 0) (Z.of_nat (length s)))
    with (Z.of_nat (length s)) by lia.
  replace (Z.min (Z.min (Z.max n 0) (Z.of_nat (length s))) (Z.of_nat (length s)))
    with (Z.min n (Z.of_nat (length s))) by lia.
  replace (Z.max (Z.min (Z.max n 0) (Z.of_nat (length s))) (Z.of_nat (length s)))
    with (Z.of_nat (length s)) by lia.
  destruct (Z.le_gt_cases n (Z.of_nat (length s))) as [Hle | Hgt].
  - rewrite Z.min_l by lia. apply take_ge. rewrite length_drop. lia.
  - rewrite Z.min_r, Z.sub_diag, Nat2Z.id by lia. cbn [Z.to_nat take].
    symmetry. apply drop_ge. lia.
Qed.

End Substring.

(** X11: for an address of 42 code units the five mutations are: the
    lower-cased address; the address with its last unit replaced by [0]; the
    address with the prefix replaced by [0X]; the zero address; the address
    with unit 10 replaced by [X].  All but (possibly) the first have 42
    units again, so none has an invalid length; and an address that already
    ends in [0] is returned unchanged as its own second mutation. *)
Theorem AddressMutator_shapes `{Runtime} (address : jsstring) :
  length address = 42%nat ->
  AddressMutator.mutate address =
    [ toLowerCase address;
      <[41%nat := 48%N]> address;
      lit "0X" ++ drop 2 address;
      lit "0x0000000000000000000000000000000000000000";
      <[10%nat := 88%N]> address ] /\
  Forall (fun m => length m = 42%nat) (drop 1 (AddressMutator.mutate address)) /\
  (address !! 41%nat = Some 48%N ->
   AddressMutator.mutate address !! 1%nat = Some address).
Proof.
  intros Hlen.
  assert (Hshape : AddressMutator.mutate address =
    [ toLowerCase address; <[41%nat := 48%N]> address; lit "0X" ++ drop 2 address;
      lit "0x0000000000000000000000000000000000000000";
      <[10%nat := 88%N]> address ]).
  { unfold AddressMutator.mutate.
    rewrite !substring_prefix, !substring_from_suffix by lia.
    rewrite (insert_take_drop address 41), (insert_take_drop address 10) by lia.
    rewrite (drop_ge address 42) by lia. reflexivity. }
  split; [exact Hshape |]. rewrite Hshape. split.
  - cbn [drop]. repeat constructor;
      rewrite ?length_insert, ?length_app, ?length_drop, ?Hlen; reflexivity.
  - intros Hlast. cbn. f_equal. by apply list_insert_id.
Qed.

Lemma AddressMutator_shapes_witness :
  @AddressMutator.mutate Sample.runtime
    (lit "0x6B175474E89094C44Da98b954EedeAC495271d00") !! 1%nat =
  Some (lit "0x6B175474E89094C44Da98b954EedeAC495271d00").
Proof.
  apply (@AddressMutator_shapes Sample.runtime
           (lit "0x6B175474E89094C44Da98b954EedeAC495271d00"));
    reflexivity.
Defined.

(** X12: for a hash of 66 code units the five mutations are: the hash
    with unit 10 replaced by [X]; the hash with the prefix replaced by [0X];
    the zero hash; the hash without its last unit; the hash with [0]
    appended.  Their lengths are 66, 66, 66, 65 and 67. *)
Theorem HashMutator_shapes (hash : jsstring) :
  length hash = 66%nat ->
  HashMutator.mutate hash =
    [ <[10%nat := 88%N]> hash;
      lit "0X" ++ drop 2 hash;
      lit "0x0000000000000000000000000000000000000000000000000000000000000000";
      take 65 hash;
      hash ++ lit "0" ] /\
  length <$> HashMutator.mutate hash = [66; 66; 66; 65; 67]%nat.
Proof.
  intros Hlen.
  assert (Hshape : HashMutator.mutate hash =
    [ <[10%nat := 88%N]> hash; lit "0X" ++ drop 2 hash;
      lit "0x0000000000000000000000000000000000000000000000000000000000000000";
      take 65 hash; hash ++ lit "0" ]).
  { unfold HashMutator.mutate.
    rewrite !substring_prefix, !substring_from_suffix by lia.
    by rewrite (insert_take_drop hash 10) by lia. }
  split; [exact Hshape |]. rewrite Hshape. cbn [fmap list_fmap].
  rewrite length_insert, !length_app, length_drop, length_take, Hlen.
  reflexivity.
Qed.

Lemma HashMutator_shapes_witness :
  length <$> HashMutator.mutate
    (lit "0x0000000000000000000000000000000000000000000000000000000000000001")
  = [66; 66; 66; 65; 67]%nat.
Proof.
  apply (HashMutator_shapes
           (lit "0x0000000000000000000000000000000000000000000000000000000000000001")).
  reflexivity.
Defined.

Lemma filter_keeps_all {A : Type} (P : A -> Prop) `{forall x, Decision (P x)}
    (l : list A) :
  Forall P l -> filter P l = l.
Proof.
  induction 1 as [| x l Hx _ IH]; [reflexivity |].
  by rewrite filter_cons_True, IH.
Qed.

(** X13: every mutation [BlockTagMutator] returns is itself a valid block
    tag, whatever the seed: a validator that accepts exactly the valid tags
    catches none of them.  For a seed outside the enum the filter removes
    nothing and all five tags are returned. *)
Theorem BlockTagMutator_stays_valid (seed : jsstring) :
  Forall (fun tag => isValid TBlockTag (VString tag) = true)
    (BlockTagMutator.mutate seed) /\
  (seed ∉ BlockTagMutator.allTags ->
   BlockTagMutator.mutate seed = BlockTagMutator.allTags).
Proof.
  split.
  - apply Forall_forall. intros tag Hin.
    apply BlockTagMutator_elem in Hin as [Hin _].
    cbn. by apply bool_decide_eq_true_2.
  - intros Hnot. unfold BlockTagMutator.mutate.
    apply filter_keeps_all. apply Forall_forall. intros tag Hin ->. by apply Hnot.
Qed.

Lemma BlockTagMutator_stays_valid_witness :
  BlockTagMutator.mutate (lit "Latest") = BlockTagMutator.allTags.
Proof.
  apply (proj2 (BlockTagMutator_stays_valid (lit "Latest"))).
  apply (bool_decide_unpack _). vm_compute. reflexivity.
Defined.

(** X14: of the six mutations of a valid block number [n], [-1] is never a
    valid block number, [0], [1], [n + 1] and [2^64 - 1] always are, and
    [n - 1] is one unless [n = 0]: five of the six mutations (four for
    [n = 0]) are valid block numbers themselves.  The seed is among its own
    mutations exactly when it is [0], [1] or [2^64 - 1]. *)
Theorem BlockNumberMutator_validity (n : Z) :
  0 <= n ->
  length (List.filter (fun m => isValid TBlockNumber (VBigInt m))
            (BlockNumberMutator.mutate n))
    = (if n =? 0 then 4%nat else 5%nat) /\
  -1 ∈ BlockNumberMutator.mutate n /\
  isValid TBlockNumber (VBigInt (-1)) = false /\
  (n ∈ BlockNumberMutator.mutate n <-> n = 0 \/ n = 1 \/ n = 2 ^ 64 - 1).
Proof.
  intros Hn. split; [| split; [| split]].
  - unfold BlockNumberMutator.mutate. cbn -[Z.pow Z.leb Z.add Z.sub].
    replace (0 <=? n + 1) with true by (symmetry; apply Z.leb_le; lia).
    destruct (Z.eqb_spec n 0) as [-> | Hne]; [reflexivity |].
    replace (0 <=? n - 1) with true by (symmetry; apply Z.leb_le; lia).
    reflexivity.
  - unfold BlockNumberMutator.mutate. set_solver.
  - reflexivity.
  - unfold BlockNumberMutator.mutate.
    rewrite !elem_of_cons, elem_of_nil. lia.
Qed.

Lemma BlockNumberMutator_validity_witness :
  length (List.filter (fun m => isValid TBlockNumber (VBigInt m))
            (BlockNumberMutator.mutate 0)) = 4%nat /\
  (1 ∈ BlockNumberMutator.mutate 1).
Proof.
  split.
  - apply (proj1 (BlockNumberMutator_validity 0 ltac:(lia))).
  - apply (proj2 (proj2 (proj2 (BlockNumberMutator_validity 1 ltac:(lia))))).
    right. left. reflexivity.
Defined.

Section StringShapes.
Context `{Runtime}.

Lemma join_reverse_split (value : jsstring) :
  StringMutator.join_empty (rev (StringMutator.split_empty value)) = rev value.
Proof.
  unfold StringMutator.join_empty, StringMutator.split_empty.
  induction value as [| c value IH]; [reflexivity |].
  cbn [map rev]. rewrite concat_app, IH. reflexivity.
Qed.

End StringShapes.

(** X15: the six string mutations are: the empty string; the seed with
    [X] appended; the seed without its last code unit; its upper-cased and
    lower-cased forms; and its code units in reverse order.  None fails on
    the empty seed, where dropping the last unit and reversing yield the
    empty string again.  Reversal is undone by mutating the reversed
    variant, and a seed that reads the same in both directions is returned
    unchanged as its own sixth mutation. *)
Theorem StringMutator_shapes `{Runtime} (value : jsstring) :
  StringMutator.mutate value =
    [ []; value ++ lit "X"; take (length value - 1) value;
      toUpperCase value; toLowerCase value; rev value ] /\
  StringMutator.mutate (rev value) !! 5%nat = Some value /\
  (rev value = value -> StringMutator.mutate value !! 5%nat = Some value) /\
  (value = [] ->
   StringMutator.mutate value !! 2%nat = Some [] /\
   StringMutator.mutate value !! 5%nat = Some []).
Proof.
  assert (Hshape : forall v : jsstring, StringMutator.mutate v =
    [ []; v ++ lit "X"; take (length v - 1) v;
      toUpperCase v; toLowerCase v; rev v ]).
  { intros v. unfold StringMutator.mutate. rewrite join_reverse_split.
    destruct v as [| c v]; [reflexivity |].
    rewrite substring_prefix by (cbn [length]; lia).
    do 3 f_equal. f_equal. cbn [length]. lia. }
  split; [apply Hshape |]. rewrite !Hshape. cbn.
  split; [by rewrite rev_involutive |].
  split; [by intros -> |]. by intros ->.
Qed.

Lemma StringMutator_shapes_witness :
  @StringMutator.mutate Sample.runtime (lit "abba") !! 5%nat = Some (lit "abba") /\
  @StringMutator.mutate Sample.runtime [] !! 2%nat = Some [].
Proof.
  split.
  - apply (proj1 (proj2 (proj2 (@StringMutator_shapes Sample.runtime (lit "abba"))))).
    reflexivity.
  - apply (proj2 (proj2 (proj2 (@StringMutator_shapes Sample.runtime []))) eq_refl).
Defined.

(** X16: for a non-empty array of [n] elements the six mutations have
    lengths [0], [n - 1], [n - 1], [n + 1], [n] and [1], and every element
    of every mutation is an element of the seed - only the empty seed makes
    the operator introduce a value ([null]) of its own.  The seed is among
    its own mutations exactly when it reads the same in both directions,
    which every one-element array does. *)
Theorem ArrayMutator_shapes (value : list JsValue) :
  value <> [] ->
  length <$> ArrayMutator.mutate value =
    [ 0; length value - 1; length value - 1; length value + 1; length value; 1 ]%nat /\
  (forall m x, m ∈ ArrayMutator.mutate value -> x ∈ m -> x ∈ value) /\
  (value ∈ ArrayMutator.mutate value <-> rev value = value).
Proof.
  intros Hne. destruct value as [| x0 rest]; [done |].
  unfold ArrayMutator.mutate, ArrayMutator.first.
  cbn [length Nat.eqb lookup list_lookup default].
  split; [| split].
  - cbn [fmap list_fmap].
    rewrite length_drop, length_take, length_app, length_rev. cbn [length].
    repeat f_equal; lia.
  - intros m x Hm Hx.
    rewrite !elem_of_cons, elem_of_nil in Hm.
    destruct Hm as [-> | [-> | [-> | [-> | [-> | [-> | []]]]]]].
    + by apply elem_of_nil in Hx.
    + by apply (subseteq_drop 1 (x0 :: rest)).
    + by apply (subseteq_take (length (x0 :: rest) - 1) (x0 :: rest)).
    + apply elem_of_app in Hx as [Hx | Hx]; [done |].
      apply list_elem_of_singleton in Hx. rewrite Hx. apply list_elem_of_here.
    + by apply list_elem_of_In, in_rev, list_elem_of_In in Hx.
    + apply list_elem_of_singleton in Hx. rewrite Hx. apply list_elem_of_here.
  - rewrite !elem_of_cons, elem_of_nil. split.
    + intros [Heq | [Heq | [Heq | [Heq | [Heq | [Heq | []]]]]]];
        try (apply (f_equal length) in Heq;
             rewrite ?length_drop, ?length_take, ?length_app in Heq;
             cbn [length] in Heq; lia).
      * by symmetry.
      * injection Heq as ->. reflexivity.
    + intros Hrev. do 4 right. left. by symmetry.
Qed.

Lemma ArrayMutator_shapes_witness :
  VArray [VNumber 7] ∈ VArray <$> ArrayMutator.mutate [VNumber 7].
Proof.
  apply list_elem_of_fmap_2.
  apply (proj2 (proj2 (ArrayMutator_shapes [VNumber 7] ltac:(discriminate)))).
  reflexivity.
Defined.

(** * Properties of the property-test runner *)

Section FloatOrder.

Lemma SFcompare_Lt_Gt (a b : spec_float) :
  SFcompare a b = Some Lt -> SFcompare b a = Some Gt.
Proof.
  destruct a as [sa | sa | | sa ma ea], b as [sb | sb | | sb mb eb]; cbn;
    try discriminate; try (destruct sa; discriminate || reflexivity);
    try (destruct sb; discriminate || reflexivity);
    try (destruct sa, sb; discriminate || reflexivity).
  pose proof (Z.compare_antisym ea eb) as Hz.
  pose proof (Pos.compare_cont_antisym ma mb Eq) as Hp. cbn in Hp.
  destruct sa, sb; try discriminate; try reflexivity;
    rewrite Hz, <- Hp;
    destruct (ea ?= eb)%Z; cbn; try discriminate; try reflexivity;
    destruct (Pos.compare_cont Eq ma mb); cbn; discriminate || reflexivity.
Qed.

Lemma ltb_asym (x y : float) :
  PrimFloat.ltb x y = true -> PrimFloat.ltb y x = false.
Proof.
  rewrite !FloatAxioms.ltb_spec. unfold SFltb.
  destruct (SFcompare (Prim2SF x) (Prim2SF y)) as [[| |] |] eqn:Hcmp;
    try discriminate.
  intros _. by rewrite (SFcompare_Lt_Gt _ _ Hcmp).
Qed.

(** [Math.min(numRuns, 10)] never exceeds 10. *)
Lemma min_at_most_10 (numRuns : float) :
  PrimFloat.ltb 10 (Math_min numRuns 10) = false.
Proof.
  unfold Math_min.
  destruct (PrimFloat.is_nan numRuns || PrimFloat.is_nan 10); [reflexivity |].
  destruct (PrimFloat.ltb numRuns 10) eqn:Hlt; [by apply ltb_asym |].
  destruct (PrimFloat.ltb 10 numRuns) eqn:Hgt; [reflexivity |].
  by destruct (PrimFloat.get_sign numRuns).
Qed.

End FloatOrder.

Section PropertyLoop.
Context `{Runtime} {W : Type}.
Implicit Types (st : RunState W) (property : Property.t W)
  (predicate : JsValue -> W -> Settlement * W).




Lemma counter_succ (k : nat) : PrimFloat.add (counter k) 1 = counter (S k).
Proof. reflexivity. Qed.

(** Ten units of fuel are enough: the loop counter reaches 10 at the
    latest, where the loop condition fails. *)
Lemma test_for_fuel (fuel : nat) (numRuns : float) property predicate
    (locals : PropertyTestRunner.Locals) st :
  (fuel <= 10)%nat ->
  (PropertyTestRunner.test_for fuel (counter (10 - fuel)) numRuns property
     predicate locals st).1 <> Exhausted.
Proof.
  revert locals st. induction fuel as [| fuel IH]; intros locals st Hfuel.
  - cbn [PropertyTestRunner.test_for Nat.sub].
    change (counter 10) with 10%float. by rewrite min_at_most_10.
  - cbn [PropertyTestRunner.test_for].
    destruct (PrimFloat.ltb _ _); [| done].
    rewrite counter_succ.
    replace (S (10 - S fuel)) with (10 - fuel)%nat by lia.
    unfold task_bind, task_try, await_generate, await_predicate, task_ret.
    destruct (Property.generate property (world st)) as [generated w1].
    destruct generated as [at_ms value | at_ms e |]; cbn [settle world invoked];
      [| done | done].
    destruct (predicate value w1) as [settled w2].
    destruct settled as [at_ms' x | at_ms' e |]; cbn [settle]; [| done | done].
    destruct (ToBoolean x); cbn [negb]; [| done]. apply IH. lia.
Qed.

End PropertyLoop.

Section PropertyTest.
Context `{Runtime} {W : Type} (Date_now : W -> float).
Implicit Types (st : RunState W) (property : Property.t W)
  (predicate : JsValue -> W -> Settlement * W)
  (options : PropertyTestOptions.t).

(** [test] in terms of its loop. *)
Lemma property_test_unfold property predicate options st :
  PropertyTestRunner.test Date_now property predicate options st =
  match PropertyTestRunner.test_for 10 0
          (PropertyTestRunner.number_or (PropertyTestOptions.numRuns options) 100)
          property predicate
          {| PropertyTestRunner.success := true;
             PropertyTestRunner.counterexample := VUndefined;
             PropertyTestRunner.error := VUndefined |} st with
  | (Settled (Ok locals), st') =>
      (Settled (Ok
         {| PropertyTestResult.success := PropertyTestRunner.success locals;
            PropertyTestResult.numRuns :=
              PropertyTestRunner.number_or (PropertyTestOptions.numRuns options) 100;
            PropertyTestResult.seed :=
              PropertyTestRunner.number_or (PropertyTestOptions.seed options)
                (Date_now (world st));
            PropertyTestResult.counterexample :=
              PropertyTestRunner.counterexample locals;
            PropertyTestResult.error := PropertyTestRunner.error locals |}), st')
  | (Settled (Throw e), st') =>
      (Settled (Ok
         {| PropertyTestResult.success := false;
            PropertyTestResult.numRuns :=
              PropertyTestRunner.number_or (PropertyTestOptions.numRuns options) 100;
            PropertyTestResult.seed :=
              PropertyTestRunner.number_or (PropertyTestOptions.seed options)
                (Date_now (world st));
            PropertyTestResult.counterexample := VUndefined;
            PropertyTestResult.error := PropertyTestRunner.as_Error e |}), st')
  | (Suspended, st') => (Suspended, st')
  | (Exhausted, st') => (Exhausted, st')
  end.
Proof.
  unfold PropertyTestRunner.test, task_try, task_bind, task_ret.
  by destruct (PropertyTestRunner.test_for _ _ _ _ _ _ st) as [[[l | e] | |] st'].
Qed.

(** With no promise left pending, the loop is not suspended. *)
Lemma test_for_settles (fuel : nat) (i numRuns : float) property predicate
    (locals : PropertyTestRunner.Locals) st :
  (forall w, (Property.generate property w).1 <> Pending) ->
  (forall v w, (predicate v w).1 <> Pending) ->
  (PropertyTestRunner.test_for fuel i numRuns property predicate locals st).1
    <> Suspended.
Proof.
  intros Hgen Hpred. revert i locals st.
  induction fuel as [| fuel IH]; intros i locals st;
    cbn [PropertyTestRunner.test_for]; destruct (PrimFloat.ltb _ _); try done.
  unfold task_bind, task_try, await_generate, await_predicate, task_ret.
  specialize (Hgen (world st)).
  destruct (Property.generate property (world st)) as [generated w1].
  destruct generated as [at_ms value | at_ms e |]; cbn [settle world invoked];
    [| done | done].
  specialize (Hpred value w1).
  destruct (predicate value w1) as [settled w2].
  destruct settled as [at_ms' x | at_ms' e |]; cbn [settle]; [| done | done].
  destruct (ToBoolean x); cbn [negb]; [apply IH | done].
Qed.

(** With no promise left pending, [test] returns a result. *)
Lemma property_test_returns property predicate options st :
  (forall w, (Property.generate property w).1 <> Pending) ->
  (forall v w, (predicate v w).1 <> Pending) ->
  exists r st',
    PropertyTestRunner.test Date_now property predicate options st
      = (Settled (Ok r), st').
Proof.
  intros Hgen Hpred. rewrite property_test_unfold.
  pose proof (test_for_fuel 10
    (PropertyTestRunner.number_or (PropertyTestOptions.numRuns options) 100)
    property predicate
    {| PropertyTestRunner.success := true;
       PropertyTestRunner.counterexample := VUndefined;
       PropertyTestRunner.error := VUndefined |} st (le_n 10)) as Hfuel.
  change (counter (10 - 10)) with 0%float in Hfuel.
  pose proof (test_for_settles 10 0
    (PropertyTestRunner.number_or (PropertyTestOptions.numRuns options) 100)
    property predicate
    {| PropertyTestRunner.success := true;
       PropertyTestRunner.counterexample := VUndefined;
       PropertyTestRunner.error := VUndefined |} st Hgen Hpred) as Hsettles.
  destruct (PropertyTestRunner.test_for _ _ _ _ _ _ st) as [[[l | e] | |] st'];
    cbn in Hfuel, Hsettles; try done; eauto.
Qed.

End PropertyTest.

(** X17: [PropertyTestRunner.test] never throws and its loop always ends:
    the call either returns a result or - only when [generate] or the
    predicate hands back a promise that never settles - stays suspended.
    An exception of [generate] or of the predicate is not passed on but
    reported in the result. *)
Theorem property_test_never_throws `{Runtime} {W : Type} (Date_now : W -> float)
    (property : Property.t W) (predicate : JsValue -> W -> Settlement * W)
    (options : PropertyTestOptions.t) (st : RunState W) :
  ((exists r st',
      PropertyTestRunner.test Date_now property predicate options st
        = (Settled (Ok r), st')) \/
   (exists st',
      PropertyTestRunner.test Date_now property predicate options st
        = (Suspended, st'))) /\
  ((forall w, (Property.generate property w).1 <> Pending) ->
   (forall v w, (predicate v w).1 <> Pending) ->
   exists r st',
     PropertyTestRunner.test Date_now property predicate options st
       = (Settled (Ok r), st')).
Proof.
  rewrite property_test_unfold.
  pose proof (test_for_fuel 10
    (PropertyTestRunner.number_or (PropertyTestOptions.numRuns options) 100)
    property predicate
    {| PropertyTestRunner.success := true;
       PropertyTestRunner.counterexample := VUndefined;
       PropertyTestRunner.error := VUndefined |} st (le_n 10)) as Hfuel.
  change (counter (10 - 10)) with 0%float in Hfuel.
  split.
  - destruct (PropertyTestRunner.test_for _ _ _ _ _ _ st) as [[[l | e] | |] st'];
      cbn in Hfuel; try done; eauto.
  - rewrite <- property_test_unfold. apply property_test_returns.
Qed.


Lemma property_test_never_throws_witness :
  exists r st',
    @PropertyTestRunner.test Sample.runtime unit PropertyScenario.clock
      PropertyScenario.failing Scenario.is_42 PropertyScenario.no_options
      Scenario.start = (Settled (Ok r), st') /\
    PropertyTestResult.success r = false /\
    PropertyTestResult.error r = VError (lit "no data").
Proof.
  destruct (proj2 (@property_test_never_throws Sample.runtime unit
                     PropertyScenario.clock PropertyScenario.failing
                     Scenario.is_42 PropertyScenario.no_options Scenario.start))
    as (r & st' & Hrun).
  - intros w. discriminate.
  - intros v w. discriminate.
  - exists r, st'. split; [exact Hrun |].
    vm_compute in Hrun. injection Hrun as <- _. split; reflexivity.
Defined.


(** A [generate] that throws the string ['no data']: no sample is checked,
    and the reported error is [new Error('no data')]. *)
Example property_test_generate_throws :
  exists r st',
    @PropertyTestRunner.test Sample.runtime unit PropertyScenario.clock
      PropertyScenario.failing Scenario.is_42 PropertyScenario.no_options
      Scenario.start = (Settled (Ok r), st') /\
    draw_samples 10 (Property.generate PropertyScenario.failing) Scenario.is_42 tt
      = ([NotGenerated (Rejected 0 (VString (lit "no data")))], tt) /\
    invoked st' = [] /\
    PropertyTestResult.success r = false /\
    PropertyTestResult.error r = VError (lit "no data").
Proof. eexists. eexists. split; [reflexivity |]. by repeat split. Qed.

Section TenSamples.
Context `{Runtime} {W : Type}.
Implicit Types (st : RunState W) (property : Property.t W)
  (predicate : JsValue -> W -> Settlement * W).

Lemma counter_below_bound (k : nat) :
  (k < 10)%nat -> PrimFloat.ltb (counter k) (Math_min 100 10) = true.
Proof.
  intros Hk. do 10 (destruct k as [| k]; [reflexivity |]). lia.
Qed.

(** When every sample is generated and passes, a request for 100 runs
    makes the loop draw one sample per unit of fuel. *)
Lemma test_for_all_pass (fuel : nat) property predicate st :
  (fuel <= 10)%nat ->
  (forall w, exists at_ms v,
      (Property.generate property w).1 = Fulfilled at_ms v /\
      forall w', passed (v, (predicate v w').1)) ->
  exists st' obs,
    PropertyTestRunner.test_for fuel (counter (10 - fuel)) 100 property predicate
      {| PropertyTestRunner.success := true;
         PropertyTestRunner.counterexample := VUndefined;
         PropertyTestRunner.error := VUndefined |} st
    = (Settled (Ok {| PropertyTestRunner.success := true;
                      PropertyTestRunner.counterexample := VUndefined;
                      PropertyTestRunner.error := VUndefined |}), st') /\
    invoked st' = invoked st ++ obs /\ length obs = fuel.
Proof.
  intros Hfuel Hgen. revert st Hfuel.
  induction fuel as [| fuel IH]; intros st Hfuel.
  - exists st, []. cbn [PropertyTestRunner.test_for Nat.sub].
    change (counter 10) with 10%float. rewrite min_at_most_10.
    by rewrite app_nil_r.
  - cbn [PropertyTestRunner.test_for].
    rewrite counter_below_bound by lia. rewrite counter_succ.
    replace (S (10 - S fuel)) with (10 - fuel)%nat by lia.
    unfold task_bind, task_try, await_generate, await_predicate, task_ret.
    destruct (Hgen (world st)) as (at_ms & value & Hvalue & Hpred).
    destruct (Property.generate property (world st)) as [generated w1].
    cbn in Hvalue. subst generated. cbn [settle world invoked].
    destruct (Hpred w1) as (at_ms' & x & Hsettled & Hx).
    destruct (predicate value w1) as [settled w2].
    cbn in Hsettled. subst settled. cbn [settle]. rewrite Hx. cbn [negb].
    destruct (IH {| world := w2;
                    invoked := invoked st ++ [(value, Fulfilled at_ms' x)] |})
      as (st' & obs & Hrun & Hlog & Hlen); [lia |].
    exists st', ((value, Fulfilled at_ms' x) :: obs).
    split; [exact Hrun |]. cbn [invoked] in Hlog.
    rewrite Hlog, <- app_assoc. split; [reflexivity | cbn; lia].
Qed.

End TenSamples.

(** X19: the [numRuns] of a result is the number asked for, not the number
    of samples drawn.  Under the default (no [numRuns], and also an explicit
    [numRuns] of 0, which [||] replaces by 100) a property whose samples are
    all generated and all pass is tested on exactly ten samples, and the
    result reports [success] with [numRuns = 100]. *)
Theorem property_test_ten_of_hundred `{Runtime} {W : Type} (Date_now : W -> float)
    (property : Property.t W) (predicate : JsValue -> W -> Settlement * W)
    (options : PropertyTestOptions.t) (st : RunState W) :
  PropertyTestOptions.numRuns options = None \/
  PropertyTestOptions.numRuns options = Some 0%float ->
  (forall w, exists at_ms v,
      (Property.generate property w).1 = Fulfilled at_ms v /\
      forall w', passed (v, (predicate v w').1)) ->
  exists r st' obs,
    PropertyTestRunner.test Date_now property predicate options st
      = (Settled (Ok r), st') /\
    PropertyTestResult.success r = true /\
    PropertyTestResult.numRuns r = 100%float /\
    invoked st' = invoked st ++ obs /\
    length obs = 10%nat.
Proof.
  intros Hruns Hgen. rewrite property_test_unfold.
  assert (Hn : PropertyTestRunner.number_or (PropertyTestOptions.numRuns options) 100
               = 100%float) by (destruct Hruns as [-> | ->]; reflexivity).
  rewrite Hn.
  destruct (test_for_all_pass 10 property predicate st (le_n 10) Hgen)
    as (st' & obs & Hrun & Hlog & Hlen).
  change (counter (10 - 10)) with 0%float in Hrun. rewrite Hrun.
  eexists. exists st', obs. split; [reflexivity |]. by cbn.
Qed.

Lemma property_test_ten_of_hundred_witness :
  exists r st' obs,
    @PropertyTestRunner.test Sample.runtime unit PropertyScenario.clock
      PropertyScenario.always_42 Scenario.is_42 (PropertyScenario.runs 0)
      Scenario.start = (Settled (Ok r), st') /\
    PropertyTestResult.success r = true /\
    PropertyTestResult.numRuns r = 100%float /\
    invoked st' = invoked Scenario.start ++ obs /\
    length obs = 10%nat.
Proof.
  apply (@property_test_ten_of_hundred Sample.runtime unit PropertyScenario.clock
           PropertyScenario.always_42 Scenario.is_42 (PropertyScenario.runs 0)
           Scenario.start).
  - right. reflexivity.
  - intros w. exists 0%N, (VNumber 42). split; [reflexivity |].
    intros w'. exists 0%N, (VBool true). split; reflexivity.
Defined.

Section PropertyBatch.
Context `{Runtime} {W : Type} (Date_now : W -> float).
Implicit Types (st : RunState W) (tests : list (PropertyTestEntry.t W))
  (options : PropertyTestOptions.t)
  (results : Dictionary.t PropertyTestResult.t).

Lemma property_testAll_for_app pre rest options results st :
  PropertyTestRunner.testAll_for Date_now (pre ++ rest) options results st =
  match PropertyTestRunner.testAll_for Date_now pre options results st with
  | (Settled (Ok o), st1) =>
      PropertyTestRunner.testAll_for Date_now rest options o st1
  | other => other
  end.
Proof.
  revert results st. induction pre as [| t pre IH]; intros results st; [done |].
  cbn [app PropertyTestRunner.testAll_for]. unfold task_bind.
  destruct (PropertyTestRunner.test Date_now _ _ options st)
    as [[[r | e] | |] st1]; [apply IH | reflexivity ..].
Qed.

(** A run of the loop that returns has made one assignment per entry, in
    the order of the entries. *)
Lemma property_testAll_for_ok_inv tests options results st o st' :
  PropertyTestRunner.testAll_for Date_now tests options results st
    = (Settled (Ok o), st') ->
  exists entries,
    entries.*1 = PropertyTestEntry.name <$> tests /\
    o = Dictionary.assign_all entries results.
Proof.
  revert results st.
  induction tests as [| t tests IH]; intros results st Hrun.
  - cbn in Hrun. unfold task_ret in Hrun. injection Hrun as <- _. by exists [].
  - cbn [PropertyTestRunner.testAll_for] in Hrun. unfold task_bind in Hrun.
    destruct (PropertyTestRunner.test Date_now _ _ options st)
      as [[[r | e] | |] st1]; try discriminate.
    destruct (IH _ _ Hrun) as (entries & Hnames & ->).
    exists ((PropertyTestEntry.name t, r) :: entries).
    split; [cbn; by rewrite Hnames | reflexivity].
Qed.

Lemma property_testAll_for_returns tests options results st :
  Forall entry_settles tests ->
  exists o st',
    PropertyTestRunner.testAll_for Date_now tests options results st
      = (Settled (Ok o), st').
Proof.
  intros Hall. revert results st.
  induction Hall as [| t tests [Hgen Hpred] _ IH]; intros results st.
  - by exists results, st.
  - cbn [PropertyTestRunner.testAll_for]. unfold task_bind.
    destruct (property_test_returns Date_now (PropertyTestEntry.property t)
                (PropertyTestEntry.predicate t) options st Hgen Hpred)
      as (r & st1 & ->).
    apply IH.
Qed.

End PropertyBatch.

(** X20: [PropertyTestRunner.testAll] reports every entry: provided no
    promise is left pending it returns - also when a property's [generate]
    or a predicate throws, since each such exception ends up in that
    entry's result.  Every entry is run, from the state the entries before
    it left, and its result is what the returned object holds under the
    entry's name unless a later entry has the same name.  The object is a
    plain one: a result assigned under ['__proto__'] becomes its prototype
    and not an own property, so the own keys are the entries' names other
    than ['__proto__']. *)
Theorem property_testAll_reports_all `{Runtime} {W : Type} (Date_now : W -> float)
    (tests : list (PropertyTestEntry.t W)) (options : PropertyTestOptions.t)
    (st : RunState W) :
  Forall entry_settles tests ->
  exists o st',
    PropertyTestRunner.testAll Date_now tests options st = (Settled (Ok o), st') /\
    dom (Dictionary.own o) =
      list_to_set (filter (fun key => key <> lit "__proto__")
                     (PropertyTestEntry.name <$> tests)) /\
    (Dictionary.prototype o = None <->
       lit "__proto__" ∉ PropertyTestEntry.name <$> tests) /\
    forall pre t post,
      tests = pre ++ t :: post ->
      exists o1 st1 r st2,
        PropertyTestRunner.testAll Date_now pre options st
          = (Settled (Ok o1), st1) /\
        PropertyTestRunner.test Date_now (PropertyTestEntry.property t)
          (PropertyTestEntry.predicate t) options st1 = (Settled (Ok r), st2) /\
        (post = [] -> st2 = st') /\
        (PropertyTestEntry.name t ∉ PropertyTestEntry.name <$> post ->
         (PropertyTestEntry.name t <> lit "__proto__" ->
          Dictionary.own o !! PropertyTestEntry.name t = Some r) /\
         (PropertyTestEntry.name t = lit "__proto__" ->
          Dictionary.prototype o = Some r)).
Proof.
  intros Hall. unfold PropertyTestRunner.testAll.
  destruct (property_testAll_for_returns Date_now tests options Dictionary.empty
              st Hall) as (o & st' & Hrun).
  exists o, st'. split; [exact Hrun |].
  destruct (property_testAll_for_ok_inv Date_now _ _ _ _ _ _ Hrun)
    as (entries & Hnames & Ho).
  split; [| split].
  - rewrite Ho, assign_all_dom, Hnames. cbn.
    by rewrite dom_empty_L, (left_id_L ∅ (∪)).
  - rewrite Ho, <- Hnames. split.
    + intros Hnone Hin.
      destruct (assign_all_prototype_set _ Dictionary.empty Hin) as [r Hr].
      rewrite Hr in Hnone. discriminate.
    + intros Hfresh. by rewrite assign_all_prototype_fresh.
  - intros pre t post Htests. subst tests.
    apply Forall_app in Hall as [Hpre Hrest].
    apply Forall_cons in Hrest as [[Hgen Hpred] Hpost].
    destruct (property_testAll_for_returns Date_now pre options Dictionary.empty
                st Hpre) as (o1 & st1 & Hrun1).
    destruct (property_test_returns Date_now (PropertyTestEntry.property t)
                (PropertyTestEntry.predicate t) options st1 Hgen Hpred)
      as (r & st2 & Hrun2).
    exists o1, st1, r, st2. split; [exact Hrun1 |]. split; [exact Hrun2 |].
    rewrite property_testAll_for_app, Hrun1 in Hrun.
    cbn [PropertyTestRunner.testAll_for] in Hrun. unfold task_bind in Hrun.
    rewrite Hrun2 in Hrun. split.
    + intros ->. cbn in Hrun. unfold task_ret in Hrun. by injection Hrun.
    + intros Hfresh.
      destruct (property_testAll_for_ok_inv Date_now _ _ _ _ _ _ Hrun)
        as (later & Hlater & ->).
      rewrite <- Hlater in Hfresh.
      by apply (assign_all_last [] _ r later o1).
Qed.

Lemma property_testAll_reports_all_witness :
  exists o st',
    @PropertyTestRunner.testAll Sample.runtime unit PropertyScenario.clock
      ({| PropertyTestEntry.name := lit "Throwing";
          PropertyTestEntry.property := PropertyScenario.failing;
          PropertyTestEntry.predicate := Scenario.throws |}
       :: PropertyScenario.mixed)
      PropertyScenario.no_options Scenario.start = (Settled (Ok o), st') /\
    dom (Dictionary.own o) =
      list_to_set [lit "Throwing"; lit "PassingTest"; lit "FailingTest"].
Proof.
  destruct (@property_testAll_reports_all Sample.runtime unit PropertyScenario.clock
              ({| PropertyTestEntry.name := lit "Throwing";
                  PropertyTestEntry.property := PropertyScenario.failing;
                  PropertyTestEntry.predicate := Scenario.throws |}
               :: PropertyScenario.mixed)
              PropertyScenario.no_options Scenario.start)
    as (o & st' & Hrun & Hdom & _).
  { repeat constructor; intros; discriminate. }
  exists o, st'. split; [exact Hrun | exact Hdom].
Defined.

(** A single entry named ['__proto__']: the property is tested, and the
    returned object has no own property; the result is its prototype. *)
Example property_testAll_proto_entry :
  match (@PropertyTestRunner.testAll Sample.runtime unit PropertyScenario.clock
           [ {| PropertyTestEntry.name := lit "__proto__";
                PropertyTestEntry.property := PropertyScenario.always_42;
                PropertyTestEntry.predicate := Scenario.is_42 |} ]
           PropertyScenario.no_options Scenario.start) with
  | (Settled (Ok o), st') =>
      length (invoked st') = 10%nat /\
      Dictionary.own o = ∅ /\
      PropertyTestResult.success <$> Dictionary.prototype o = Some true
  | _ => False
  end.
Proof. vm_compute. repeat split. Qed.

(** The runner's own test "handles mixed success and failure": the passing
    entry succeeds, the failing one fails with counterexample ['hello']. *)
Example property_testAll_mixed :
  match (@PropertyTestRunner.testAll Sample.runtime unit PropertyScenario.clock
           PropertyScenario.mixed PropertyScenario.no_options Scenario.start).1 with
  | Settled (Ok m) =>
      PropertyTestResult.success <$> Dictionary.own m !! lit "PassingTest"
        = Some true /\
      PropertyTestResult.success <$> Dictionary.own m !! lit "FailingTest"
        = Some false /\
      PropertyTestResult.counterexample <$> Dictionary.own m !! lit "FailingTest"
        = Some (VString (lit "hello"))
  | _ => False
  end.
Proof. vm_compute. repeat split. Qed.

Section RejectingGenerate.
Context `{Runtime} {W : Type} (Date_now : W -> float).
Implicit Types (st : RunState W) (property : Property.t W)
  (predicate : JsValue -> W -> Settlement * W).

(** When [generate] throws on every call, the loop ends after at most one
    iteration, without invoking the predicate. *)
Lemma test_for_rejecting (fuel : nat) (i numRuns : float) property predicate
    (locals : PropertyTestRunner.Locals) st :
  (forall w, exists at_ms e, (Property.generate property w).1 = Rejected at_ms e) ->
  fuel <> 0%nat ->
  exists locals' w,
    PropertyTestRunner.test_for fuel i numRuns property predicate locals st
    = (Settled (Ok locals'), {| world := w; invoked := invoked st |}).
Proof.
  intros Hgen Hfuel. destruct fuel as [| fuel]; [done |].
  cbn [PropertyTestRunner.test_for].
  destruct (PrimFloat.ltb i _).
  - unfold task_bind, task_try, await_generate, task_ret.
    destruct (Hgen (world st)) as (at_ms & e & Hrej).
    destruct (Property.generate property (world st)) as [generated w1].
    cbn in Hrej. subst generated. cbn. eauto.
  - exists locals, (world st). by destruct st.
Qed.

Lemma property_test_rejecting property predicate options st :
  (forall w, exists at_ms e, (Property.generate property w).1 = Rejected at_ms e) ->
  exists r w,
    PropertyTestRunner.test Date_now property predicate options st
    = (Settled (Ok r), {| world := w; invoked := invoked st |}).
Proof.
  intros Hgen. rewrite property_test_unfold.
  destruct (test_for_rejecting 10 0
    (PropertyTestRunner.number_or (PropertyTestOptions.numRuns options) 100)
    property predicate
    {| PropertyTestRunner.success := true;
       PropertyTestRunner.counterexample := VUndefined;
       PropertyTestRunner.error := VUndefined |} st Hgen) as (l & w & ->); [done |].
  eauto.
Qed.

End RejectingGenerate.

(** X21: [combinedTest] draws one more sample after the property test and
    awaits it outside every [try].  For a property whose [generate] throws
    on every call, [propertyTest] returns a result, yet [combinedTest]
    throws - the thrown value is one [generate] threw - and the validator
    has not been invoked at all: no mutation test is run. *)
Theorem combinedTest_throws_on_sample `{Runtime} {W : Type} (Date_now : W -> float)
    (property : Property.t W) (ty : BaseType)
    (validator : JsValue -> W -> Settlement * W)
    (options : option CombinedOptions.t) (st : RunState W) :
  (forall w, exists at_ms e, (Property.generate property w).1 = Rejected at_ms e) ->
  (exists r st',
     EthereumTesterCombined.propertyTest Date_now property validator
       (options ≫= CombinedOptions.property) st = (Settled (Ok r), st')) /\
  (exists e st',
     EthereumTesterCombined.combinedTest Date_now property ty validator options st
       = (Settled (Throw e), st') /\
     invoked st' = invoked st /\
     exists w at_ms, (Property.generate property w).1 = Rejected at_ms e).
Proof.
  intros Hgen. split.
  - unfold EthereumTesterCombined.propertyTest.
    destruct (property_test_rejecting Date_now property validator
                (default EthereumTesterCombined.empty_options
                   (options ≫= CombinedOptions.property)) st Hgen)
      as (r & w & Hrun).
    eauto.
  - unfold EthereumTesterCombined.combinedTest, task_bind at 1.
    destruct (property_test_rejecting Date_now property validator
                (default EthereumTesterCombined.empty_options
                   (options ≫= CombinedOptions.property)) st Hgen)
      as (r & w & ->).
    unfold task_bind at 1, await_generate. cbn [world invoked].
    destruct (Hgen w) as (at_ms & e & Hrej).
    destruct (Property.generate property w) as [generated w1] eqn:Hcall.
    cbn in Hrej. subst generated. cbn [settle].
    exists e. eexists. split; [reflexivity |]. split; [reflexivity |].
    exists w, at_ms. by rewrite Hcall.
Qed.

Lemma combinedTest_throws_on_sample_witness :
  exists st',
    @EthereumTesterCombined.combinedTest Sample.runtime unit PropertyScenario.clock
      PropertyScenario.failing BooleanMutator.type Scenario.rejects None
      Scenario.start = (Settled (Throw (VString (lit "no data"))), st') /\
    invoked st' = [].
Proof.
  destruct (proj2 (@combinedTest_throws_on_sample Sample.runtime unit
                     PropertyScenario.clock PropertyScenario.failing
                     BooleanMutator.type Scenario.rejects None Scenario.start
                     (fun w => ex_intro _ 0%N
                                 (ex_intro _ (VString (lit "no data")) eq_refl))))
    as (e & st' & Hrun & Hlog & _).
  exists st'. split; [| exact Hlog].
  rewrite Hrun. vm_compute in Hrun. by injection Hrun as <- _.
Defined.

Section NegativeRuns.

(** A number below zero is truthy, and it is the smaller of itself and 10. *)
Lemma negative_number (n : float) :
  PrimFloat.ltb n 0 = true ->
  ToBoolean (VNumber n) = true /\ Math_min n 10 = n.
Proof.
  intros Hneg.
  assert (Hfacts : PrimFloat.eqb n 0 = false /\ PrimFloat.eqb n n = true /\
                   PrimFloat.ltb n 10 = true).
  { rewrite FloatAxioms.ltb_spec in Hneg.
    rewrite !FloatAxioms.eqb_spec, FloatAxioms.ltb_spec.
    set (ten := Prim2SF 10). vm_compute in ten. subst ten.
    change (Prim2SF 0) with (S754_zero false) in *.
    destruct (Prim2SF n) as [s | s | | s m e];
      cbv [SFltb SFeqb SFcompare] in Hneg |- *.
    - discriminate.
    - by destruct s.
    - discriminate.
    - destruct s; [| discriminate]. split; [reflexivity |].
      split; [| reflexivity].
      by rewrite Z.compare_refl, Pos.compare_cont_refl. }
  destruct Hfacts as (Hzero & Hself & Hten).
  split.
  - cbn [ToBoolean]. unfold PrimFloat.is_nan. by rewrite Hzero, Hself.
  - unfold Math_min, PrimFloat.is_nan. rewrite Hself. cbn. by rewrite Hten.
Qed.

End NegativeRuns.

(** X22: a negative [numRuns] is truthy, so it is not replaced by the
    default, and it makes the loop condition [0 < Math.min(numRuns, 10)]
    fail at once: the test returns [success = true] without generating a
    sample or invoking the predicate, and reports the negative [numRuns]. *)
Theorem property_test_negative_runs `{Runtime} {W : Type} (Date_now : W -> float)
    (property : Property.t W) (predicate : JsValue -> W -> Settlement * W)
    (options : PropertyTestOptions.t) (n : float) (st : RunState W) :
  PropertyTestOptions.numRuns options = Some n ->
  PrimFloat.ltb n 0 = true ->
  exists r,
    PropertyTestRunner.test Date_now property predicate options st
      = (Settled (Ok r), st) /\
    PropertyTestResult.success r = true /\
    PropertyTestResult.numRuns r = n.
Proof.
  intros Hruns Hneg. rewrite property_test_unfold. rewrite Hruns.
  destruct (negative_number n Hneg) as [Htruthy Hmin].
  unfold PropertyTestRunner.number_or at 1 2 3. rewrite Htruthy.
  cbn [PropertyTestRunner.test_for]. rewrite Hmin, (ltb_asym n 0 Hneg).
  unfold task_ret. eexists. split; [reflexivity |]. by cbn.
Qed.

Lemma property_test_negative_runs_witness :
  exists r,
    @PropertyTestRunner.test Sample.runtime unit PropertyScenario.clock
      PropertyScenario.always_hello PropertyScenario.is_world
      (PropertyScenario.runs (-1)) Scenario.start
      = (Settled (Ok r), Scenario.start) /\
    PropertyTestResult.success r = true /\
    PropertyTestResult.numRuns r = (-1)%float.
Proof.
  apply (@property_test_negative_runs Sample.runtime unit PropertyScenario.clock
           PropertyScenario.always_hello PropertyScenario.is_world
           (PropertyScenario.runs (-1)) (-1)%float Scenario.start);
    reflexivity.
Defined.

(** * Properties of the static generators *)

Section Slots.

Lemma length_padStart (n : nat) (c : N) (s : jsstring) :
  length (padStart n c s) = Nat.max n (length s).
Proof. unfold padStart. rewrite length_app, length_replicate. lia. Qed.

Lemma padStart_long (n : nat) (c : N) (s : jsstring) :
  (n <= length s)%nat -> padStart n c s = s.
Proof.
  intros Hlen. unfold padStart.
  by replace (n - length s)%nat with 0%nat by lia.
Qed.

Lemma element_elem_of {A : Type} (xs : list A) (x : float) (a : A) :
  element xs x = Some a -> a ∈ xs.
Proof.
  unfold element. destruct (to_index x) as [i |]; [| done]. cbn.
  apply list_elem_of_lookup_2.
Qed.

End Slots.

(** X23: whatever number is drawn, [PStorageIdx.generate] either throws
    (the index missed, as it always does on an empty list) or returns one of
    the listed slots formatted: prefixed with [0x], with a leading [0x] of
    the slot removed and zeros filled in on the left up to 64 digits.  The
    result has 66 code units when the slot has at most 64 digits; a longer
    slot is not cut down, so the result is longer than 32 bytes.  Formatting
    is idempotent: a generated value formats to itself. *)
Theorem PStorageIdx_generate_formats (slots : list jsstring) (random : float) :
  (slots = [] -> exists e, PStorageIdx.generate slots random = Throw e) /\
  (forall s, PStorageIdx.generate slots random = Ok s ->
     exists slot,
       slot ∈ slots /\
       s = lit "0x" ++ padStart 64 48 (strip_0x slot) /\
       take 2 s = lit "0x" /\
       length s = (2 + Nat.max 64 (length (strip_0x slot)))%nat /\
       lit "0x" ++ padStart 64 48 (strip_0x s) = s).
Proof.
  unfold PStorageIdx.generate. split.
  - intros ->. unfold element.
    destruct (to_index _); cbn; by eexists.
  - intros s Hgen.
    destruct (element slots _) as [slot |] eqn:Hslot; [| discriminate].
    assert (Hs : s = lit "0x" ++ padStart 64 48 (strip_0x slot)) by congruence.
    clear Hgen. subst s. exists slot.
    split; [by apply element_elem_of in Hslot |].
    split; [reflexivity |]. split; [reflexivity |].
    split; [by rewrite length_app, length_padStart |].
    change (strip_0x (lit "0x" ++ padStart 64 48 (strip_0x slot)))
      with (padStart 64 48 (strip_0x slot)).
    rewrite (padStart_long 64 48 (padStart _ _ _)); [reflexivity |].
    rewrite length_padStart. lia.
Qed.

Lemma PStorageIdx_generate_formats_witness :
  (exists e, PStorageIdx.generate [] 0.5 = Throw e) /\
  length (lit "0x000000000000000000000000000000000000000000000000000000000000001f")
    = (2 + Nat.max 64 2)%nat.
Proof.
  split.
  - apply (proj1 (PStorageIdx_generate_formats [] 0.5) eq_refl).
  - destruct (proj2 (PStorageIdx_generate_formats [lit "0x1f"] 0.5)
                (lit "0x000000000000000000000000000000000000000000000000000000000000001f")
                eq_refl) as (slot & Hin & _ & _ & Hlen & _).
    apply list_elem_of_singleton in Hin. subst slot. exact Hlen.
Defined.

(** X24: whatever number is drawn, [PAddress.generate] returns one of the
    listed addresses or [undefined], and on an empty list it returns
    [undefined] - it does not throw, unlike [PStorageIdx.generate]. *)
Theorem PAddress_generate_listed (addresses : list jsstring) (random : float) :
  (PAddress.generate addresses random = VUndefined \/
   exists address,
     address ∈ addresses /\ PAddress.generate addresses random = VString address) /\
  (addresses = [] -> PAddress.generate addresses random = VUndefined).
Proof.
  unfold PAddress.generate. split.
  - destruct (element addresses _) as [address |] eqn:Hel; [| by left].
    right. exists address. split; [by apply element_elem_of in Hel | reflexivity].
  - intros ->. unfold element. by destruct (to_index _).
Qed.

Lemma PAddress_generate_listed_witness :
  PAddress.generate [] 0.25 = VUndefined.
Proof. apply (proj2 (PAddress_generate_listed [] 0.25) eq_refl). Defined.

Example generators_draw :
  PAddress.generate [lit "0xA"; lit "0xB"; lit "0xC"] 0.5 = VString (lit "0xB") /\
  PStorageIdx.generate [lit "7"; lit "0x1f"] 0.75 =
    Ok (lit "0x000000000000000000000000000000000000000000000000000000000000001f").
Proof. split; vm_compute; reflexivity. Qed.

(** * Built-in operators under the default runner *)

(** X25: with the default registry, [test] - and so
    [EthereumTester.mutationTest] - never throws, for any seed, any
    descriptor and any validator: the built-in operators do not throw on the
    seeds they accept, and every other seed falls back to the no-op.  The
    result always holds at least one entry. *)
Theorem mutationTest_never_throws `{Runtime} {W : Type}
    (seed : JsValue) (ty : BaseType)
    (validator : JsValue -> W -> Settlement * W)
    (options : option MutationTestOptions) (st : RunState W) :
  exists r st',
    EthereumTester.mutationTest seed ty validator options st = (Ok r, st') /\
    (1 <= Summary.total (summary r))%nat /\
    Summary.total (summary r) = length (mutations r).
Proof.
  unfold EthereumTester.mutationTest, MutationTestRunner.createDefaultRunner.
  assert (Hmut : exists mutations,
    MutationRegistry.mutate (MutationRegistry.new true) seed ty = Ok mutations /\
    (1 <= length mutations)%nat).
  { destruct (registry_mutate_cases (MutationRegistry.new true) seed ty)
      as [(operator & Hreg & Happ & ->) | [(operator & e & Hreg & Happ & _) | ->]].
    - apply default_lookup_inv in Hreg as [Hin _].
      by apply builtin_mutate_nonempty.
    - apply default_lookup_inv in Hreg as [Hin _].
      by rewrite builtin_isApplicable in Happ.
    - exists [seed]. split; [reflexivity | cbn; lia]. }
  destruct Hmut as (mutations & Hmut & Hlen).
  destruct (test_returns (MutationRegistry.new true) seed ty validator
              (default {| timeout := None; verbose := None |} options) st
              mutations Hmut) as (r & Hrun & _ & Hms & Hsum).
  exists r. eexists. split; [exact Hrun |].
  rewrite Hsum. destruct (summary_fold_total (Base.mutations r)) as [-> _].
  split; [| reflexivity].
  rewrite Hms, length_map.
  pose proof (observe_fst validator mutations (world st)) as Hfst.
  apply (f_equal length) in Hfst. rewrite length_fmap in Hfst. lia.
Qed.

Section Counts.
Context `{Runtime}.

Lemma builtin_mutate_count (operator : TypedMutationOperator) (v : JsValue) :
  operator ∈ builtin_operators ->
  isApplicable operator v = Ok true ->
  exists l,
    mutate operator v = Ok l /\
    length l = mutation_count (name (type operator)) v.
Proof.
  unfold builtin_operators. intros Hin Happ.
  repeat (apply elem_of_cons in Hin as [-> | Hin]);
    [ .. | by apply elem_of_nil in Hin ];
    injection Happ as Happ;
    destruct v; try discriminate Happ; cbn [mutate] in *.
  - eexists; split; reflexivity.
  - cbn in Happ. apply bool_decide_eq_true_1 in Happ.
    repeat (apply elem_of_cons in Happ as [-> | Happ]);
      [ .. | by apply elem_of_nil in Happ ];
      (eexists; split; reflexivity).
  - eexists; split; reflexivity.
  - eexists; split; reflexivity.
  - eexists; split; reflexivity.
  - eexists; split; reflexivity.
  - eexists; split; reflexivity.
  - eexists; split; [reflexivity |]. by destruct elems.
Qed.

End Counts.

(** X26: under the default runner the number of mutations tested for a
    valid seed is fixed by its type: 5 for an address, 4 for a block tag, 6
    for a block number, 5 for a 32-byte hash, 1 for a boolean, 8 for a
    number, 6 for a string, and for an array 1 if it is empty and 6
    otherwise.  That number is the [total] of the summary and the number of
    validator invocations. *)
Theorem default_runner_totals `{Runtime} {W : Type}
    (operator : TypedMutationOperator) (seed : JsValue)
    (validator : JsValue -> W -> Settlement * W)
    (options : option MutationTestOptions) (st : RunState W) :
  operator ∈ builtin_operators ->
  isValid (type operator) seed = true ->
  exists r st' obs,
    EthereumTester.mutationTest seed (type operator) validator options st
      = (Ok r, st') /\
    Summary.total (summary r) = mutation_count (name (type operator)) seed /\
    invoked st' = invoked st ++ obs /\
    length obs = mutation_count (name (type operator)) seed.
Proof.
  intros Hin Hvalid.
  assert (Happ : isApplicable operator seed = Ok true)
    by (by rewrite builtin_isApplicable, Hvalid).
  destruct (builtin_mutate_count operator seed Hin Happ) as (l & Hl & Hlen).
  unfold EthereumTester.mutationTest, MutationTestRunner.createDefaultRunner.
  destruct (test_returns (MutationRegistry.new true) seed (type operator) validator
              (default {| timeout := None; verbose := None |} options) st l)
    as (r & Hrun & _ & Hms & Hsum).
  { rewrite <- Hl. apply registry_mutate_cases_applied; [| done].
    by apply default_lookup. }
  pose proof (observe_fst validator l (world st)) as Hfst.
  apply (f_equal length) in Hfst. rewrite length_fmap in Hfst.
  exists r. eexists. exists (observe validator l (world st)).1.
  split; [exact Hrun |]. cbn [invoked].
  rewrite Hsum. destruct (summary_fold_total (Base.mutations r)) as [-> _].
  rewrite Hms, length_map. repeat split; lia.
Qed.

Lemma default_runner_totals_witness :
  exists r st' obs,
    @EthereumTester.mutationTest Sample.runtime unit
      (VString (lit "0xC02aaA39b223FE8D0A0e5C4F27eAD9083C756Cc2"))
      (type (@AddressMutator.operator Sample.runtime)) Scenario.rejects None
      Scenario.start = (Ok r, st') /\
    Summary.total (summary r) = 5%nat /\
    invoked st' = invoked Scenario.start ++ obs /\
    length obs = 5%nat.
Proof.
  apply (@default_runner_totals Sample.runtime unit
           (@AddressMutator.operator Sample.runtime)
           (VString (lit "0xC02aaA39b223FE8D0A0e5C4F27eAD9083C756Cc2"))
           Scenario.rejects None Scenario.start).
  - unfold builtin_operators. apply list_elem_of_here.
  - vm_compute. reflexivity.
Defined.
